(** * Domain-ownership custom resources: SES domain verification and ACM
      validation DNS

    A shallow embedding of the two Lambda-backed custom resources of the
    repository:

    - [Acm]: [getZoneIdByName], [getZoneIdByFQDN], [publishCertValidationDNS],
      [lookupCertificate], [userHandlerLogic], [processCREvent], [handler]
      (the ACM validation-DNS resource);
    - [Ses]: [verifyDomain] and [handler] (the SES verify-domain resource).

    The AWS services are external.  They are modelled as a record of
    transition functions over an abstract provider state; every request the
    code issues is appended to a chronological log of calls, so that
    statements about which requests are issued, and in which order, can be
    made about the code.  Loops that the sources do not bound (pagination,
    polling without a timeout) run on fuel; a run cut short by the fuel has
    the outcome [Pending]. *)

From Stdlib Require Import String Ascii List ZArith Lia Bool Arith.
Import ListNotations.
Local Open Scope string_scope.

Set Implicit Arguments.

(** ** JavaScript string primitives used by the sources

    Strings are sequences of code units; the operations below only look at
    positions and at equality of code units. *)
Module JS.

(** [s.slice(beginIndex, endIndex)]: negative indices count from the end. *)
Definition slice (s : string) (beginIndex endIndex : Z) : string :=
  let len := Z.of_nat (String.length s) in
  let from := if (beginIndex <? 0)%Z then Z.max (len + beginIndex) 0
              else Z.min beginIndex len in
  let to := if (endIndex <? 0)%Z then Z.max (len + endIndex) 0
            else Z.min endIndex len in
  substring (Z.to_nat from) (Z.to_nat (to - from)) s.

(** [s.endsWith(suffix)] *)
Definition endsWith (s suffix : string) : bool :=
  let n := String.length s in
  let m := String.length suffix in
  (m <=? n)%nat && (substring (n - m) m s =? suffix).

(** [s.split(sep)] for a separator of one code unit; never empty. *)
Fixpoint split (sep : ascii) (s : string) : list string :=
  match s with
  | EmptyString => [""]
  | String c s' =>
      if Ascii.eqb c sep then "" :: split sep s'
      else match split sep s' with
           | [] => [String c ""]
           | h :: t => String c h :: t
           end
  end.

(** Drop the first [n] code units. *)
Fixpoint drop (n : nat) (s : string) : string :=
  match n, s with
  | O, _ => s
  | S _, EmptyString => ""
  | S n', String _ s' => drop n' s'
  end.

(** [s.replace(pattern, replacement)] with a string pattern: only the
    first occurrence is replaced. *)
Fixpoint replace (pattern replacement s : string) : string :=
  if prefix pattern s then replacement ++ drop (String.length pattern) s
  else match s with
       | EmptyString => ""
       | String c s' => String c (replace pattern replacement s')
       end.

(** Truthiness of a string: only the empty string is falsy. *)
Definition truthy (s : string) : bool := negb (s =? "").

(** Truthiness of a possibly-undefined string. *)
Definition truthy_opt (s : option string) : bool :=
  match s with Some v => truthy v | None => false end.

(** Strict equality of two possibly-undefined strings. *)
Definition strict_eq (a b : option string) : bool :=
  match a, b with
  | Some x, Some y => x =? y
  | None, None => true
  | _, _ => false
  end.

(** Does the string contain the code unit? *)
Fixpoint includes (c : ascii) (s : string) : bool :=
  match s with
  | EmptyString => false
  | String d s' => Ascii.eqb d c || includes c s'
  end.

End JS.

(** ** Errors

    The [Error] objects the code throws, by the message they carry, the
    [TypeError]s of the language, and the rejections of a provider request. *)
Definition NO_MATCH_NAME_ERROR : string :=
  "Unable to find any matching zones at all given provided domain name".
Definition NO_EXACT_MATCH_NAME_ERROR : string :=
  "Unable to find an exact matching zone given provided domain name".
Definition ERR_INVALID_CERTIFICATE : string :=
  "Invalid Certificate. This custom resource is only for Amazon issued certificates.".

Inductive Error : Type :=
| NoZonesFound            (* new Error(NO_MATCH_NAME_ERROR) *)
| NoExactMatch            (* new Error(NO_EXACT_MATCH_NAME_ERROR) *)
| ZoneNotDeterminable     (* new Error("Unable to determine zone id") *)
| LookupTimedOut          (* new Error("Certificate lookup timed out") *)
| UnsupportedResourceType (* new Error(ERR_INVALID_CERTIFICATE) *)
| InvalidRequestType      (* new Error("Invalid request type or event") *)
| TypeError               (* a TypeError raised by the language *)
| ProviderFailure (code : string). (* a rejected provider request *)

Definition message (e : Error) : string :=
  match e with
  | NoZonesFound => NO_MATCH_NAME_ERROR
  | NoExactMatch => NO_EXACT_MATCH_NAME_ERROR
  | ZoneNotDeterminable => "Unable to determine zone id"
  | LookupTimedOut => "Certificate lookup timed out"
  | UnsupportedResourceType => ERR_INVALID_CERTIFICATE
  | InvalidRequestType => "Invalid request type or event"
  | TypeError => "TypeError"
  | ProviderFailure code => code
  end.

(** ** Provider data *)

Definition UPSERT : string := "UPSERT".
Definition DELETE : string := "DELETE".
Definition AMAZON_ISSUED_CERT_TYPE : string := "AMAZON_ISSUED".
Definition PENDING_VALIDATION : string := "PENDING_VALIDATION".

Record HostedZone : Type := { Id : string; Name : string }.

(** One entry of [ChangeBatch.Changes]:
    [{Action, ResourceRecordSet: {Name, ResourceRecords: [{Value}], TTL, Type}}];
    [RRName], [RRValue] and [RRType] are the [Name], the one [Value] and the
    [Type] of the record set.  [MultiValueAnswer] and [SetIdentifier] are set
    on the SES TXT record only. *)
Record Change : Type := {
  Action : string;
  RRName : string;
  RRValue : string;
  TTL : Z;
  RRType : string;
  MultiValueAnswer : bool;
  SetIdentifier : option string
}.

Record ChangeBatch : Type := { Changes : list Change; Comment : string }.

(** The [{Name, Type, Value}] of a validation record. *)
Record ResourceRecord : Type :=
  { RName : string; RType : string; RValue : string }.

(** [ResourceRecordOf] is the field [ResourceRecord], which the certificate
    service may leave out. *)
Record DomainValidationOption : Type := {
  DomainName : string;
  ResourceRecordOf : option ResourceRecord;
  ValidationStatus : string
}.

(** [CertType] is the field [Type]. *)
Record Certificate : Type := {
  CertType : string;
  DomainValidationOptions : list DomainValidationOption
}.

(** [SummaryDomainName] is the field [DomainName] of a summary. *)
Record CertificateSummary : Type := {
  CertificateArn : option string;
  SummaryDomainName : option string
}.

Record ListCertificatesResponse : Type := {
  NextToken : option string;
  CertificateSummaryList : list CertificateSummary
}.

(** The requests the code issues, with their parameters. *)
Inductive Call : Type :=
| ListHostedZonesByName (DNSName : string)
| TestDNSAnswer (HostedZoneId RecordName RecordType : string)
| GetHostedZone (zoneId : string)
| ChangeResourceRecordSets (HostedZoneId : string) (batch : ChangeBatch)
| VerifyDomainIdentity (Domain : string)
| VerifyDomainDkim (Domain : string)
| DeleteIdentity (Identity : string)
| DescribeCertificate (arn : string)
| ListCertificates (CertificateStatuses : list string) (token : option string).

(** What a request settles to. *)
Inductive Reply (A : Type) : Type :=
| Resolves (a : A)
| Rejects (code : string).
Arguments Rejects {A} code.

(** The services, as transition functions over the provider state [P]. *)
Record AWS (P : Type) : Type := {
  listHostedZonesByName : string -> P -> Reply (option (list HostedZone)) * P;
  testDNSAnswer : string -> string -> string -> P -> Reply (list string) * P;
  getHostedZone : string -> P -> Reply string * P;
  changeResourceRecordSets : string -> ChangeBatch -> P -> Reply string * P;
  verifyDomainIdentity : string -> P -> Reply string * P;
  verifyDomainDkim : string -> P -> Reply (list string) * P;
  deleteIdentity : string -> P -> Reply unit * P;
  describeCertificate : string -> P -> Reply Certificate * P;
  listCertificates :
    list string -> option string -> P -> Reply ListCertificatesResponse * P
}.

(** ** The monad of asynchronous code

    A computation runs from a state (the provider's state and the calls
    issued so far) to an outcome and a state.  [Pending] is the outcome of a
    loop that was still running when its fuel was used up. *)
Inductive Outcome (A : Type) : Type :=
| Returned (a : A)
| Thrown (e : Error)
| Pending.
Arguments Thrown {A} e.
Arguments Pending {A}.

Record St (P : Type) : Type := { provider : P; calls : list Call }.

Definition M (P A : Type) : Type := St P -> Outcome A * St P.

Definition ret {P A} (a : A) : M P A := fun st => (Returned a, st).

Definition throw {P A} (e : Error) : M P A := fun st => (Thrown e, st).

Definition pending {P A} : M P A := fun st => (Pending, st).

Definition bind {P A B} (m : M P A) (k : A -> M P B) : M P B :=
  fun st =>
    match m st with
    | (Returned a, st') => k a st'
    | (Thrown e, st') => (Thrown e, st')
    | (Pending, st') => (Pending, st')
    end.

(** [try { m } catch (err) { h err }] *)
Definition catch {P A} (m : M P A) (h : Error -> M P A) : M P A :=
  fun st =>
    match m st with
    | (Thrown e, st') => h e st'
    | r => r
    end.

(** A promise that has been started: its settlement, kept as a value. *)
Definition settle {P A} (m : M P A) : M P (Error + A) :=
  fun st =>
    match m st with
    | (Returned a, st') => (Returned (inr a), st')
    | (Thrown e, st') => (Returned (inl e), st')
    | (Pending, st') => (Pending, st')
    end.

(** [await] of a settled promise. *)
Definition await {P A} (r : Error + A) : M P A :=
  match r with
  | inr a => ret a
  | inl e => throw e
  end.

(** Issue a request: log it, let the provider answer. *)
Definition request {P A} (c : Call) (api : P -> Reply A * P) : M P A :=
  fun st =>
    let (r, p') := api (provider st) in
    let st' := {| provider := p'; calls := (calls st ++ [c])%list |} in
    match r with
    | Resolves a => (Returned a, st')
    | Rejects code => (Thrown (ProviderFailure code), st')
    end.

Declare Scope async_scope.
Delimit Scope async_scope with async.
Notation "x <- m ;; k" := (bind m (fun x => k))
  (at level 61, m at next level, right associativity) : async_scope.
Notation "m ;;; k" := (bind m (fun _ => k))
  (at level 61, right associativity) : async_scope.
Local Open Scope async_scope.

(** The calls a run adds to the log. *)
Definition issued {P A} (m : M P A) (st : St P) : list Call :=
  skipn (List.length (calls st)) (calls (snd (m st))).

Definition outcome {P A} (m : M P A) (st : St P) : Outcome A := fst (m st).

(** [Promise.all] over promises already started: the values in order, or a
    rejection.  The rejection kept here is the first in list order, where
    [Promise.all] keeps the first to settle.  For promises of one request
    each, answered in the order issued, that is the same one; for promises
    that issue several requests it need not be, and no statement below
    says which rejection is thrown when more than one of them fails. *)
Fixpoint all {A} (rs : list (Error + A)) : Error + list A :=
  match rs with
  | [] => inr []
  | inl e :: _ => inl e
  | inr a :: rs' =>
      match all rs' with
      | inl e => inl e
      | inr l => inr (a :: l)
      end
  end.

(** Start one promise per element, in order. *)
Fixpoint startAll {P A B} (f : A -> M P B) (l : list A) : M P (list (Error + B)) :=
  match l with
  | [] => ret []
  | a :: l' =>
      r <- settle (f a) ;;
      rs <- startAll f l' ;;
      ret (r :: rs)
  end.

(** ** A JavaScript object used as a map from zone id to an array of changes

    Own properties are kept in insertion order.  [Object.keys] lists the
    array-index keys first, in ascending numeric order, then the other keys
    in insertion order.  A read through a name inherited from
    [Object.prototype] gives a truthy value that is not an array. *)
Module JSObject.

Definition t : Type := list (string * list Change).

Definition objectPrototypeKeys : list string :=
  [ "constructor"; "__defineGetter__"; "__defineSetter__"; "hasOwnProperty";
    "__lookupGetter__"; "__lookupSetter__"; "isPrototypeOf";
    "propertyIsEnumerable"; "toString"; "valueOf"; "__proto__";
    "toLocaleString" ].

Definition inherited (key : string) : bool :=
  existsb (String.eqb key) objectPrototypeKeys.

Definition isDigit (c : ascii) : bool :=
  let n := nat_of_ascii c in (48 <=? n)%nat && (n <=? 57)%nat.

Fixpoint decimal (s : string) (acc : N) : option N :=
  match s with
  | EmptyString => Some acc
  | String c s' =>
      if isDigit c then decimal s' (10 * acc + N.of_nat (nat_of_ascii c - 48))%N
      else None
  end.

(** The canonical numeric strings below 2^32 - 1. *)
Definition arrayIndex (key : string) : option N :=
  match key with
  | EmptyString => None
  | String c rest =>
      if Ascii.eqb c "0" && negb (rest =? "") then None
      else match decimal key 0 with
           | Some n => if (n <? 4294967295)%N then Some n else None
           | None => None
           end
  end.

Fixpoint insertIndex (n : N) (key : string) (l : list (N * string))
  : list (N * string) :=
  match l with
  | [] => [(n, key)]
  | (m, k) :: l' =>
      if (n <=? m)%N then (n, key) :: l else (m, k) :: insertIndex n key l'
  end.

Fixpoint indexKeys (keys : list string) : list (N * string) :=
  match keys with
  | [] => []
  | k :: keys' =>
      match arrayIndex k with
      | Some n => insertIndex n k (indexKeys keys')
      | None => indexKeys keys'
      end
  end.

Definition isNone {A} (o : option A) : bool :=
  match o with None => true | Some _ => false end.

(** [Object.keys(o)] *)
Definition keys (o : t) : list string :=
  let own := map fst o in
  (map snd (indexKeys own) ++ filter (fun k => isNone (arrayIndex k)) own)%list.

(** [o[key]] for an own property. *)
Fixpoint get (o : t) (key : string) : option (list Change) :=
  match o with
  | [] => None
  | (k, cs) :: o' => if k =? key then Some cs else get o' key
  end.

(** [if (!o[key]) { o[key] = []; } o[key].push(c)] on own properties. *)
Fixpoint push (o : t) (key : string) (c : Change) : t :=
  match o with
  | [] => [(key, [c])]
  | (k, cs) :: o' =>
      if k =? key then (k, (cs ++ [c])%list) :: o' else (k, cs) :: push o' key c
  end.

End JSObject.

(** ** The constants of the cfn-custom-resource package

    The package is a dependency of the repository; the request types and the
    physical id it reports when none was assigned are taken as parameters. *)
Module CfnCR.
Record t : Type := {
  CREATE : string;
  UPDATE : string;
  DELETE : string;
  DEFAULT_PHYSICAL_RESOURCE_ID : string
}.
End CfnCR.

(** ** The ACM validation-DNS custom resource *)
Module Acm.

Record ResourceProperties : Type := { CertificateFQDN : option string }.

(** [Properties] is the field [ResourceProperties] of the event. *)
Record Event : Type := {
  RequestType : string;
  Properties : ResourceProperties;
  OldResourceProperties : option ResourceProperties;
  PhysicalResourceId : option string
}.

Record Context : Type := { getRemainingTimeInMillis : Z }.

(** The [data] argument of [sendSuccess]. *)
Inductive Data : Type :=
| ChangeIds (changeIds : list (option string))
| UpdateIds (changeIds oldChangeIds : list (option string))
            (oldCertificateArn : option string).

(** What the handler reports: [sendSuccess(id, data, event)] or
    [sendFailure(err, event)]. *)
Inductive Response : Type :=
| Success (id : option string) (data : option Data)
| Failure (err : Error).

Section Provider.

Variable P : Type.
Variable aws : AWS P.
Variable cfnCR : CfnCR.t.

Local Abbreviation M := (M P).

Definition getZoneIdByName (domainName : string) : M string :=
  HostedZones <- request (ListHostedZonesByName domainName)
                         (listHostedZonesByName aws domainName) ;;
  match HostedZones with
  | None | Some [] => throw NoZonesFound
  | Some (zone :: _) =>
      if negb ((JS.slice (Name zone) 0 (-1) =? domainName)
               || (Name zone =? domainName))
      then throw NoExactMatch
      else ret (JS.replace "/hostedzone/" "" (Id zone))
  end.

(** The [for] loop of [getZoneIdByFQDN] over [rest], from index
    [domainNameIndex] on, [domainName] being the candidate built so far. *)
Fixpoint walk (normalizedFQDN : string) (rest : list string)
         (domainName : string) : M string :=
  match rest with
  | [] => throw ZoneNotDeterminable
  | label :: rest' =>
      let domainName := label ++ "." ++ domainName in
      zoneId <- getZoneIdByName domainName ;;
      RecordData <- request (TestDNSAnswer zoneId normalizedFQDN "NS")
                            (testDNSAnswer aws zoneId normalizedFQDN "NS") ;;
      if (List.length RecordData =? 0)%nat then ret zoneId
      else walk normalizedFQDN rest' domainName
  end.

Definition normalize (fqdn : string) : string :=
  if JS.endsWith fqdn "." then JS.slice fqdn 0 (-1) else fqdn.

Definition getZoneIdByFQDN (fqdn : string) : M string :=
  let normalizedFQDN := normalize fqdn in
  match rev (JS.split "." normalizedFQDN) with
  | [] => throw ZoneNotDeterminable
  | tld :: rest => walk normalizedFQDN rest tld
  end.

(** The validation options the first loop keeps. *)
Definition pendingOptions (options : list DomainValidationOption)
  : list DomainValidationOption :=
  filter (fun o => ValidationStatus o =? PENDING_VALIDATION) options.

Definition validationChange (action : string) (r : ResourceRecord) : Change :=
  {| Action := action; RRName := RName r; RRValue := RValue r; TTL := 60;
     RRType := RType r; MultiValueAnswer := false; SetIdentifier := None |}.

(** The second loop: group the records by the zone id resolved for them.
    Destructuring a missing record, or pushing onto an inherited
    property, is a [TypeError]. *)
Fixpoint groupChanges (action : string) (zoneIds : list string)
         (resourceRecords : list (option ResourceRecord))
         (Changes : JSObject.t) : Error + JSObject.t :=
  match zoneIds, resourceRecords with
  | zoneId :: zoneIds', Some r :: resourceRecords' =>
      if JSObject.isNone (JSObject.get Changes zoneId)
         && JSObject.inherited zoneId
      then inl TypeError
      else groupChanges action zoneIds' resourceRecords'
             (JSObject.push Changes zoneId (validationChange action r))
  | _ :: _, None :: _ => inl TypeError
  | _ :: _, [] => inl TypeError
  | [], _ => inr Changes
  end.

Definition validationBatch (certificateArn : string) (changes : list Change)
  : ChangeBatch :=
  {| Changes := changes;
     Comment := "Validation DNS for " ++ certificateArn |}.

(** The change batch sent to [zoneId]: the array [Changes[zoneId]]. *)
Definition batchOf (certificateArn : string) (Changes : JSObject.t)
           (zoneId : string) : ChangeBatch :=
  validationBatch certificateArn
    (match JSObject.get Changes zoneId with
     | Some changes => changes
     | None => []
     end).

Definition submit (certificateArn : string) (Changes : JSObject.t)
           (zoneId : string) : M string :=
  request (ChangeResourceRecordSets zoneId
             (batchOf certificateArn Changes zoneId))
          (changeResourceRecordSets aws zoneId
             (batchOf certificateArn Changes zoneId)).

(** [promise.catch(() => null)], then [result ? result.ChangeInfo.Id : null] *)
Definition orNull (r : Error + string) : option string :=
  match r with
  | inl _ => None
  | inr changeId => Some changeId
  end.

(** The last stage of [publishCertValidationDNS]: one request per key of
    [Changes], all started before any is awaited. *)
Definition publishChanges (certificateArn action : string)
           (Changes : JSObject.t) : M (list (option string)) :=
  publishPromises <- startAll (submit certificateArn Changes)
                              (JSObject.keys Changes) ;;
  if action =? DELETE then ret (map orNull publishPromises)
  else
    results <- await (all publishPromises) ;;
    ret (map (@Some string) results).

(** The two loops before it: keep the pending options, resolve the zone
    of each, group the records by zone.  The zone lookups are started in
    the first loop and joined by [Promise.all]; here each runs to
    completion before the next starts, where the source interleaves
    them at their awaits.  What is stated about this stage below is
    what does not depend on that order: which kind of request it
    issues, and what follows from its outcome; neither the order of
    the requests of different lookups nor the choice among the errors
    of several failed lookups is stated. *)
Definition resolveChanges (action : string)
           (options : list DomainValidationOption) : M JSObject.t :=
  let pendingList := pendingOptions options in
  let resourceRecords := map ResourceRecordOf pendingList in
  zoneIdLookupPromises <- startAll getZoneIdByFQDN
                                   (map DomainName pendingList) ;;
  zoneIds <- await (all zoneIdLookupPromises) ;;
  await (groupChanges action zoneIds resourceRecords []).

Definition publishCertValidationDNS (certificateArn action : string)
  : M (list (option string)) :=
  cert <- request (DescribeCertificate certificateArn)
                  (describeCertificate aws certificateArn) ;;
  if negb (CertType cert =? AMAZON_ISSUED_CERT_TYPE)
  then throw UnsupportedResourceType
  else
    Changes <- resolveChanges action (DomainValidationOptions cert) ;;
    publishChanges certificateArn action Changes.

(** The body of one polling iteration, [lookupCertificateInternal]:
    list every page, look for the first certificate of the domain.  The
    result is the value assigned to [certificateArn] when [stop] is
    called, and [None] when it is not.  The pagination loop runs on
    fuel. *)
Fixpoint listPages (fuel : nat) (nextToken : option string)
         (certs : list CertificateSummary) : M (list CertificateSummary) :=
  if JS.truthy_opt nextToken then
    match fuel with
    | O => pending
    | S fuel' =>
        let token := if JS.strict_eq nextToken (Some "start") then None
                     else nextToken in
        resp <- request (ListCertificates [PENDING_VALIDATION] token)
                        (listCertificates aws [PENDING_VALIDATION] token) ;;
        listPages fuel' (NextToken resp)
                  (certs ++ CertificateSummaryList resp)%list
    end
  else ret certs.

Definition lookupCertificateInternal (fuel : nat) (domainName : option string)
           (iterationNumber : nat) : M (option string) :=
  certs <- listPages fuel (Some "start") [] ;;
  let certFindResult :=
    find (fun cert => JS.strict_eq (SummaryDomainName cert) domainName) certs in
  match certFindResult with
  | Some cert =>
      if JS.truthy_opt (CertificateArn cert) then ret (CertificateArn cert)
      else ret None
  | None => ret None
  end.

(** Modelled from the spec: [interval] of the interval-promise package,
    which is not part of the sources.  The poller runs [func] once per
    iteration, stops when [func] asks to stop, lets an error of [func]
    abort the loop and propagate ([stopOnError]), and is over when the
    iteration budget is used up; a budget that is not positive allows
    no iteration. *)
Fixpoint intervalBudget {A} (func : nat -> M (option A))
         (iterations currentIteration : nat) : M (option A) :=
  match iterations with
  | O => ret None
  | S iterations' =>
      stopped <- func currentIteration ;;
      match stopped with
      | Some a => ret (Some a)
      | None => intervalBudget func iterations' (S currentIteration)
      end
  end.

(** Modelled from the spec: without a budget the poller iterates without
    a cap; the run is still going when the fuel is used up. *)
Fixpoint intervalUnbounded {A} (fuel : nat) (func : nat -> M (option A))
         (currentIteration : nat) : M (option A) :=
  match fuel with
  | O => pending
  | S fuel' =>
      stopped <- func currentIteration ;;
      match stopped with
      | Some a => ret (Some a)
      | None => intervalUnbounded fuel' func (S currentIteration)
      end
  end.

(** Modelled from the spec: [interval(func, intervalLength, options)]
    with [options.iterations] present or absent. *)
Definition interval {A} (fuel : nat) (func : nat -> M (option A))
           (intervalLength : Z) (iterations : option Z) : M (option A) :=
  match iterations with
  | Some n => intervalBudget func (Z.to_nat n) 1
  | None => intervalUnbounded fuel func 1
  end.

Definition WAIT_BETWEEN_REQS_MS : Z := 1000.

(** [if (timeoutMs)]: an absent timeout and a timeout of zero are falsy. *)
Definition iterationsOption (timeoutMs : option Z) : option Z :=
  match timeoutMs with
  | Some t => if (t =? 0)%Z then None else Some (t / WAIT_BETWEEN_REQS_MS)%Z
  | None => None
  end.

Definition lookupCertificate (fuel : nat) (domainName : option string)
           (timeoutMs : option Z) : M string :=
  certificateArn <- interval fuel (lookupCertificateInternal fuel domainName)
                             WAIT_BETWEEN_REQS_MS
                             (iterationsOption timeoutMs) ;;
  match certificateArn with
  | Some arn => if JS.truthy arn then ret arn else throw LookupTimedOut
  | None => throw LookupTimedOut
  end.

Definition TIMEOUT_MARGIN_OF_SAFETY_MS : Z := 3000.

(** The object of three methods [userHandlerLogic] resolves to. *)
Record Methods : Type := {
  create : M (option string * Data);
  update : M (option string * Data);
  delete : M (option string * Data)
}.

Definition userHandlerLogic (fuel : nat) (event : Event) (context : Context)
  : M Methods :=
  let lambdaTimeout :=
    (getRemainingTimeInMillis context - TIMEOUT_MARGIN_OF_SAFETY_MS)%Z in
  certificateArn <- lookupCertificate fuel
                      (CertificateFQDN (Properties event))
                      (Some lambdaTimeout) ;;
  ret {|
    create :=
      changeIds <- publishCertValidationDNS certificateArn UPSERT ;;
      ret (Some certificateArn, ChangeIds changeIds);
    update :=
      match OldResourceProperties event with
      | None => throw TypeError
      | Some old =>
          oldCertificateArn <- lookupCertificate fuel (CertificateFQDN old)
                                 (Some lambdaTimeout) ;;
          oldChangeIds <- publishCertValidationDNS oldCertificateArn DELETE ;;
          changeIds <- publishCertValidationDNS certificateArn UPSERT ;;
          ret (Some certificateArn,
               UpdateIds changeIds oldChangeIds (PhysicalResourceId event))
      end;
    delete :=
      changeIds <- publishCertValidationDNS certificateArn DELETE ;;
      ret (PhysicalResourceId event, ChangeIds changeIds)
  |}.

Definition sendSuccess (id : option string) (data : option Data) : M Response :=
  ret (Success id data).

Definition sendFailure (err : Error) : M Response :=
  ret (Failure err).

(** The method table [{[cfnCR.CREATE]: "create", [cfnCR.UPDATE]: "update",
    [cfnCR.DELETE]: "delete"}[event.RequestType]]: of two equal keys the
    later one wins; calling a method that is not there is a
    [TypeError]. *)
Definition method (requestType : string) (methods : Methods)
  : M (option string * Data) :=
  if requestType =? CfnCR.DELETE cfnCR then delete methods
  else if requestType =? CfnCR.UPDATE cfnCR then update methods
  else if requestType =? CfnCR.CREATE cfnCR then create methods
  else throw TypeError.

Definition processCREvent (fuel : nat) (event : Event) (context : Context)
  : M Response :=
  catch
    (methods <- userHandlerLogic fuel event context ;;
     r <- method (RequestType event) methods ;;
     sendSuccess (fst r) (Some (snd r)))
    (fun err =>
       if (RequestType event =? CfnCR.DELETE cfnCR)
          && JS.strict_eq (PhysicalResourceId event)
                          (Some (CfnCR.DEFAULT_PHYSICAL_RESOURCE_ID cfnCR))
       then sendSuccess (PhysicalResourceId event) None
       else sendFailure err).

Definition handler (fuel : nat) (event : Event) (context : Context)
  : M Response :=
  processCREvent fuel event context.

End Provider.

End Acm.

(** ** The SES verify-domain custom resource *)
Module Ses.

Record ResourceProperties : Type := {
  HostedZoneId : option string;
  HostedZoneName : option string
}.

(** [Properties] is the field [ResourceProperties] of the event.  The
    handler reads its two fields before the [switch], outside every
    [try]: an event without [ResourceProperties] makes the handler
    reject.  The events of the orchestrator always carry the field, and
    the events of this type are those. *)
Record Event : Type := {
  RequestType : string;
  Properties : ResourceProperties;
  OldResourceProperties : option ResourceProperties;
  PhysicalResourceId : option string
}.

(** The [data] argument of [sendSuccess]. *)
Inductive Data : Type :=
| ChangeId (changeId : string)
| UpdateIds (newChangeId oldChangeId oldDomainName : string).

Inductive Response : Type :=
| Success (id : option string) (data : option Data)
| Failure (err : Error).

(** What [verifyDomain] resolves to: [{domainName, changeId}]. *)
Record Verified : Type := { domainName : string; changeId : string }.

Section Provider.

Variable P : Type.
Variable aws : AWS P.
Variable cfnCR : CfnCR.t.
(** The text [process.env.AWS_REGION] renders to in a template. *)
Variable AWS_REGION : string.

Local Abbreviation M := (M P).

Definition getZoneIdByName (domainName : string) : M string :=
  HostedZones <- request (ListHostedZonesByName domainName)
                         (listHostedZonesByName aws domainName) ;;
  match HostedZones with
  | None | Some [] => throw NoZonesFound
  | Some (zone :: _) =>
      if negb ((JS.slice (Name zone) 0 (-1) =? domainName)
               || (Name zone =? domainName))
      then throw NoExactMatch
      else ret (JS.replace "/hostedzone/" "" (Id zone))
  end.

Definition SESVerifyHost : string := "_amazonses".
Definition dkimHost : string := "_domainkey".
Definition SESVerifyDkim : string := "dkim.amazonses.com".

Definition quote : string := String (ascii_of_nat 34) "".

Definition verificationChange (action domainName VerificationToken : string)
  : Change :=
  {| Action := action;
     RRName := SESVerifyHost ++ "." ++ domainName;
     RRValue := quote ++ VerificationToken ++ quote;
     TTL := 60;
     RRType := "TXT";
     MultiValueAnswer := true;
     SetIdentifier := Some ("cfn-ses-verifyDomain-" ++ AWS_REGION) |}.

Definition dkimChange (action domainName dkimToken : string) : Change :=
  {| Action := action;
     RRName := dkimToken ++ "." ++ dkimHost ++ "." ++ domainName;
     RRValue := dkimToken ++ "." ++ SESVerifyDkim;
     TTL := 60;
     RRType := "CNAME";
     MultiValueAnswer := false;
     SetIdentifier := None |}.

Definition r53Changes (action domainName VerificationToken : string)
           (DkimTokens : list string) : list Change :=
  verificationChange action domainName VerificationToken
  :: map (dkimChange action domainName) DkimTokens.

Definition verifyBatch (action domainName VerificationToken : string)
           (DkimTokens : list string) : ChangeBatch :=
  {| Changes := r53Changes action domainName VerificationToken DkimTokens;
     Comment :=
       "Records to verify domain ownership and DKIM for SES send/receive" |}.

(** [verifyDomain] once the zone id and the domain name are known: the
    two token requests are started together and joined, the identity is
    deleted on [DELETE], and the change batch is submitted. *)
Definition verifyResolved (hostedZoneId domainName action : string)
  : M Verified :=
  domainIDPromise <- settle (request (VerifyDomainIdentity domainName)
                                     (verifyDomainIdentity aws domainName)) ;;
  domainDkimPromise <- settle (request (VerifyDomainDkim domainName)
                                       (verifyDomainDkim aws domainName)) ;;
  VerificationToken <- await domainIDPromise ;;
  DkimTokens <- await domainDkimPromise ;;
  (if action =? DELETE
   then request (DeleteIdentity domainName) (deleteIdentity aws domainName)
   else ret tt) ;;;
  let batch := verifyBatch action domainName VerificationToken DkimTokens in
  Id <- request (ChangeResourceRecordSets hostedZoneId batch)
                (changeResourceRecordSets aws hostedZoneId batch) ;;
  ret {| domainName := domainName; changeId := Id |}.

(** An [undefined] or [null] argument has no [split]: a [TypeError]. *)
Definition verifyDomain (hostedZoneIdOrName : option string) (action : string)
  : M Verified :=
  match hostedZoneIdOrName with
  | None => throw TypeError
  | Some idOrName =>
      let dotSplitLen := List.length (JS.split "." idOrName) in
      hostedZoneId <- (if (dotSplitLen =? 1)%nat then ret idOrName
                       else getZoneIdByName idOrName) ;;
      domainName <- (if (dotSplitLen =? 1)%nat
                     then request (GetHostedZone idOrName)
                                  (getHostedZone aws idOrName)
                     else ret idOrName) ;;
      verifyResolved hostedZoneId domainName action
  end.

Definition sendSuccess (id : option string) (data : option Data) : M Response :=
  ret (Success id data).

Definition sendFailure (err : Error) : M Response :=
  ret (Failure err).

Definition zoneIdOrNameOf (properties : ResourceProperties) : option string :=
  if JS.truthy_opt (HostedZoneId properties) then HostedZoneId properties
  else HostedZoneName properties.

Definition handler (event : Event) : M Response :=
  let zoneIdOrName := zoneIdOrNameOf (Properties event) in
  if RequestType event =? CfnCR.CREATE cfnCR then
    catch
      (v <- verifyDomain zoneIdOrName UPSERT ;;
       sendSuccess (Some (domainName v)) (Some (ChangeId (changeId v))))
      sendFailure
  else if RequestType event =? CfnCR.UPDATE cfnCR then
    catch
      (match OldResourceProperties event with
       | None => throw TypeError
       | Some old =>
           let oldZoneIdOrName := zoneIdOrNameOf old in
           o <- verifyDomain oldZoneIdOrName DELETE ;;
           v <- verifyDomain zoneIdOrName UPSERT ;;
           sendSuccess (Some (domainName v))
                       (Some (UpdateIds (changeId v) (changeId o)
                                        (domainName o)))
       end)
      sendFailure
  else if RequestType event =? CfnCR.DELETE cfnCR then
    catch
      (v <- verifyDomain zoneIdOrName DELETE ;;
       sendSuccess (PhysicalResourceId event) (Some (ChangeId (changeId v))))
      (fun err =>
         if JS.strict_eq (PhysicalResourceId event)
                         (Some (CfnCR.DEFAULT_PHYSICAL_RESOURCE_ID cfnCR))
         then sendSuccess (PhysicalResourceId event) None
         else sendFailure err)
  else sendFailure InvalidRequestType.

End Provider.

End Ses.

(** ** Definitions used to state the properties *)

(** The string without its last code unit. *)
Fixpoint dropLast (s : string) : string :=
  match s with
  | EmptyString => ""
  | String c s' =>
      match s' with
      | EmptyString => ""
      | String _ _ => String c (dropLast s')
      end
  end.

(** A provider without state: every request is answered from its
    parameters alone. *)
Definition answer {A} (r : Reply A) : unit -> Reply A * unit :=
  fun p => (r, p).

(** The initial state of a run over a provider state [p]: nothing issued. *)
Definition start {P} (p : P) : St P := {| provider := p; calls := [] |}.

(** The name of the first zone of a listing, when there is one. *)
Definition firstZoneName (reply : Reply (option (list HostedZone)))
  : option string :=
  match reply with
  | Resolves (Some (zone :: _)) => Some (Name zone)
  | _ => None
  end.

(** The zones of a listing: none when [HostedZones] is missing. *)
Definition listed (HostedZones : option (list HostedZone)) : list HostedZone :=
  match HostedZones with
  | Some zones => zones
  | None => []
  end.

(** The name ends in one separator, and in one only. *)
Definition endsInOneSeparator (s : string) : bool :=
  JS.endsWith s "." && negb (JS.endsWith (JS.slice s 0 (-1)) ".").

(** The candidate zone names the loop of [getZoneIdByFQDN] builds from
    [rest], starting above [domainName]. *)
Fixpoint candidates (rest : list string) (domainName : string) : list string :=
  match rest with
  | [] => []
  | label :: rest' =>
      let candidate := label ++ "." ++ domainName in
      candidate :: candidates rest' candidate
  end.

(** The two requests of one step of the walk that goes on or returns. *)
Definition stepCalls (normalizedFQDN : string) (step : string * string)
  : list Call :=
  [ListHostedZonesByName (fst step);
   TestDNSAnswer (snd step) normalizedFQDN "NS"].

(** The state after the delegation test of [zoneId] for [n]. *)
Definition tested {P} (aws : AWS P) (zoneId n : string) (st : St P) : St P :=
  {| provider := snd (testDNSAnswer aws zoneId n "NS" (provider st));
     calls := (calls st ++ [TestDNSAnswer zoneId n "NS"])%list |}.

(** What a request settles to, as a promise does. *)
Definition settled {A} (r : Reply A) : Error + A :=
  match r with
  | Resolves a => inr a
  | Rejects code => inl (ProviderFailure code)
  end.

(** The provider's answers to the change batches of [keys], submitted in
    that order from the provider state [p]. *)
Fixpoint submissions {P} (aws : AWS P) (certificateArn : string)
         (Changes : JSObject.t) (keys : list string) (p : P)
  : list (Error + string) * P :=
  match keys with
  | [] => ([], p)
  | zoneId :: keys' =>
      let (r, p1) := changeResourceRecordSets aws zoneId
                       (Acm.batchOf certificateArn Changes zoneId) p in
      let (rs, p2) := submissions aws certificateArn Changes keys' p1 in
      (settled r :: rs, p2)
  end.

(** The state after the description of the certificate. *)
Definition described {P} (aws : AWS P) (certificateArn : string) (st : St P)
  : St P :=
  {| provider := snd (describeCertificate aws certificateArn (provider st));
     calls := (calls st ++ [DescribeCertificate certificateArn])%list |}.

(** The request that submits the batch of [zoneId]. *)
Definition submitCall (certificateArn : string) (Changes : JSObject.t)
           (zoneId : string) : Call :=
  ChangeResourceRecordSets zoneId (Acm.batchOf certificateArn Changes zoneId).

(** The run of [m] only adds calls to the log, and every call it adds
    satisfies [Q]. *)
Definition issues {P A} (Q : Call -> Prop) (m : M P A) : Prop :=
  forall st, exists l,
    calls (snd (m st)) = (calls st ++ l)%list /\ Forall Q l.

(** The two requests of the zone lookups. *)
Definition isLookup (c : Call) : Prop :=
  match c with
  | ListHostedZonesByName _ => True
  | TestDNSAnswer _ _ _ => True
  | _ => False
  end.

(** Every change held by the object satisfies [Q]. *)
Definition allChanges (Q : Change -> Prop) (o : JSObject.t) : Prop :=
  Forall (fun entry => Forall Q (snd entry)) o.

(** The change is built from the record of a pending option. *)
Definition fromPending (action : string) (options : list DomainValidationOption)
           (change : Change) : Prop :=
  exists option record,
    In option options /\
    ValidationStatus option = PENDING_VALIDATION /\
    ResourceRecordOf option = Some record /\
    change = Acm.validationChange action record.

(** The change carries the action asked for and the name, the value and
    the type of the validation record, with a TTL of 60. *)
Definition changeOfRecord (action : string) (record : ResourceRecord)
           (change : Change) : Prop :=
  Action change = action /\
  RRName change = RName record /\
  RRValue change = RValue record /\
  TTL change = 60%Z /\
  RRType change = RType record.

(** [verifyDomain] has resolved its argument [s]: without a dot, [s] is the
    zone id and the provider gave [domain] as the name of that zone; with a
    dot, [s] is the domain and [getZoneIdByName] resolved it to [zoneId].
    [st1] is the state after that request. *)
Definition zoneResolved {P} (aws : AWS P) (s zoneId domain : string)
           (st st1 : St P) : Prop :=
  if JS.includes "." s
  then (Ses.getZoneIdByName aws s st = (Returned zoneId, st1) /\ domain = s)
  else (request (GetHostedZone s) (getHostedZone aws s) st
        = (Returned domain, st1) /\ zoneId = s).

(** [iterated pass k i st st']: from [st], [k] successive iterations of
    [pass], numbered from [i], lead to [st']. *)
Inductive iterated {P A} (pass : nat -> M P A)
  : nat -> nat -> St P -> St P -> Prop :=
| iterated_none (i : nat) (st : St P) : iterated pass 0 i st st
| iterated_next (k i : nat) (st st' : St P) :
    iterated pass k (S i) (snd (pass i st)) st' ->
    iterated pass (S k) i st st'.

(** The [n] iterations of [pass] from [st], numbered from [i], all complete
    without asking to stop. *)
Fixpoint noMatchWithin {P A} (pass : nat -> M P (option A)) (n i : nat)
         (st : St P) : bool :=
  match n with
  | O => true
  | S n' =>
      match pass i st with
      | (Returned None, st') => noMatchWithin pass n' (S i) st'
      | _ => false
      end
  end.

(** The run of [m] is never cut short by the fuel. *)
Definition terminates {P A} (m : M P A) : Prop :=
  forall st, fst (m st) <> Pending.

(** Every listing of certificates fits in one page: no reply carries a
    token for a next page. *)
Definition singlePage {P} (aws : AWS P) : Prop :=
  forall statuses token p,
    match fst (listCertificates aws statuses token p) with
    | Resolves resp => JS.truthy_opt (NextToken resp) = false
    | Rejects _ => True
    end.

(** ** Example providers *)
Module Examples.

(** Every request is rejected. *)
Definition offline : AWS unit := {|
  listHostedZonesByName := fun _ => answer (Rejects "Offline");
  testDNSAnswer := fun _ _ _ => answer (Rejects "Offline");
  getHostedZone := fun _ => answer (Rejects "Offline");
  changeResourceRecordSets := fun _ _ => answer (Rejects "Offline");
  verifyDomainIdentity := fun _ => answer (Rejects "Offline");
  verifyDomainDkim := fun _ => answer (Rejects "Offline");
  deleteIdentity := fun _ => answer (Rejects "Offline");
  describeCertificate := fun _ => answer (Rejects "Offline");
  listCertificates := fun _ _ => answer (Rejects "Offline")
|}.

Definition zoneOf (id name : string) : Reply (option (list HostedZone)) :=
  Resolves (Some [{| Id := "/hostedzone/" ++ id; Name := name ++ "." |}]).

(** The zones hosted in the example account: [example.co.uk],
    [example.com] and [example.net]; a query with or without the trailing
    separator is answered alike, and nothing is listed for any other
    name. *)
Definition zones (DNSName : string) : Reply (option (list HostedZone)) :=
  if (DNSName =? "example.co.uk") || (DNSName =? "example.co.uk.")
  then zoneOf "Z1" "example.co.uk"
  else if (DNSName =? "example.com") || (DNSName =? "example.com.")
  then zoneOf "Z2" "example.com"
  else if (DNSName =? "example.net") || (DNSName =? "example.net.")
  then zoneOf "ZBAD" "example.net"
  else Resolves (Some []).

(** The NS records a zone answers with: each zone has them at its own
    name, and nowhere else. *)
Definition delegations (zoneId RecordName RecordType : string)
  : Reply (list string) :=
  if ((zoneId =? "Z1") && (RecordName =? "example.co.uk"))
     || ((zoneId =? "Z2") && (RecordName =? "example.com"))
  then Resolves ["ns-1.awsdns-01.org."; "ns-2.awsdns-02.net."]
  else Resolves [].

Definition validationRecord (fqdn : string) : ResourceRecord :=
  {| RName := "_a1." ++ fqdn ++ ".";
     RType := "CNAME";
     RValue := "_b2.acm-validations.aws." |}.

Definition pendingOption (fqdn : string) : DomainValidationOption :=
  {| DomainName := fqdn;
     ResourceRecordOf := Some (validationRecord fqdn);
     ValidationStatus := PENDING_VALIDATION |}.

Definition validatedOption (fqdn : string) : DomainValidationOption :=
  {| DomainName := fqdn;
     ResourceRecordOf := Some (validationRecord fqdn);
     ValidationStatus := "SUCCESS" |}.

(** The certificates of the example account, by ARN. *)
Definition certificates (arn : string) : Reply Certificate :=
  if arn =? "arn:cert/www" then
    Resolves {| CertType := AMAZON_ISSUED_CERT_TYPE;
                DomainValidationOptions :=
                  [pendingOption "www.example.com";
                   validatedOption "done.example.com"] |}
  else if arn =? "arn:cert/two" then
    Resolves {| CertType := AMAZON_ISSUED_CERT_TYPE;
                DomainValidationOptions :=
                  [pendingOption "www.example.com";
                   pendingOption "www.example.net"] |}
  else if arn =? "arn:cert/validated" then
    Resolves {| CertType := AMAZON_ISSUED_CERT_TYPE;
                DomainValidationOptions :=
                  [validatedOption "done.example.com"] |}
  else if arn =? "arn:cert/imported" then
    Resolves {| CertType := "IMPORTED"; DomainValidationOptions := [] |}
  else Rejects "ResourceNotFoundException".

(** The listing of pending certificates: one page. *)
Definition pendingCertificates : ListCertificatesResponse :=
  {| NextToken := None;
     CertificateSummaryList :=
       [{| CertificateArn := Some "arn:cert/www";
           SummaryDomainName := Some "www.example.com" |};
        {| CertificateArn := Some "arn:cert/imported";
           SummaryDomainName := Some "imported.example.com" |}] |}.

(** The account while the certificate is being requested: the first
    listing does not hold it yet, the later ones do.  The state counts
    the listings. *)
Definition requesting : AWS nat := {|
  listHostedZonesByName := fun _ p => (Rejects "Offline", p);
  testDNSAnswer := fun _ _ _ p => (Rejects "Offline", p);
  getHostedZone := fun _ p => (Rejects "Offline", p);
  changeResourceRecordSets := fun _ _ p => (Rejects "Offline", p);
  verifyDomainIdentity := fun _ p => (Rejects "Offline", p);
  verifyDomainDkim := fun _ p => (Rejects "Offline", p);
  deleteIdentity := fun _ p => (Rejects "Offline", p);
  describeCertificate := fun _ p => (Rejects "Offline", p);
  listCertificates := fun _ _ p =>
    (match p with
     | O => Resolves {| NextToken := None; CertificateSummaryList := [] |}
     | S _ => Resolves pendingCertificates
     end, S p)
|}.

(** A change batch is accepted by every zone but [ZBAD]. *)
Definition changes (zoneId : string) (batch : ChangeBatch) : Reply string :=
  if zoneId =? "ZBAD" then Rejects "Unable to process change"
  else Resolves ("/change/C-" ++ zoneId).

Definition account : AWS unit := {|
  listHostedZonesByName := fun d => answer (zones d);
  testDNSAnswer := fun z n t => answer (delegations z n t);
  getHostedZone := fun z =>
    answer (if z =? "Z2" then Resolves "example.com."
            else Rejects "NoSuchHostedZone");
  changeResourceRecordSets := fun z b => answer (changes z b);
  verifyDomainIdentity := fun _ => answer (Resolves "token0");
  verifyDomainDkim := fun _ => answer (Resolves ["dkim1"; "dkim2"; "dkim3"]);
  deleteIdentity := fun _ => answer (Resolves tt);
  describeCertificate := fun arn => answer (certificates arn);
  listCertificates := fun _ _ => answer (Resolves pendingCertificates)
|}.

(** A deletion for a resource whose physical id was never assigned. *)
Definition acmDelete : Acm.Event := {|
  Acm.RequestType := "Delete";
  Acm.Properties := {| Acm.CertificateFQDN := Some "www.example.com" |};
  Acm.OldResourceProperties := None;
  Acm.PhysicalResourceId := Some "DEFAULT_PHYSICAL_RESOURCE_ID"
|}.

Definition sesDelete : Ses.Event := {|
  Ses.RequestType := "Delete";
  Ses.Properties := {| Ses.HostedZoneId := Some "Z2";
                       Ses.HostedZoneName := None |};
  Ses.OldResourceProperties := None;
  Ses.PhysicalResourceId := Some "DEFAULT_PHYSICAL_RESOURCE_ID"
|}.

(** The same deletion for a zone the account does not host. *)
Definition sesDeleteUnknown : Ses.Event := {|
  Ses.RequestType := "Delete";
  Ses.Properties := {| Ses.HostedZoneId := Some "Z404";
                       Ses.HostedZoneName := None |};
  Ses.OldResourceProperties := None;
  Ses.PhysicalResourceId := Some "DEFAULT_PHYSICAL_RESOURCE_ID"
|}.

Definition tenSeconds : Acm.Context :=
  {| Acm.getRemainingTimeInMillis := 10000 |}.

(** Changes grouped under two zones, the second of which refuses them. *)
Definition twoZones (action : string) : JSObject.t :=
  [("Z2", [Acm.validationChange action (validationRecord "www.example.com")]);
   ("ZBAD", [Acm.validationChange action (validationRecord "www.example.net")])].

(** The request types of the orchestrator, and a physical id standing
    for the one reported when none was assigned. *)
Definition cfn : CfnCR.t := {|
  CfnCR.CREATE := "Create";
  CfnCR.UPDATE := "Update";
  CfnCR.DELETE := "Delete";
  CfnCR.DEFAULT_PHYSICAL_RESOURCE_ID := "DEFAULT_PHYSICAL_RESOURCE_ID"
|}.

End Examples.

(** ** Definitions used to state further properties *)

(** The records that the second loop of [publishCertValidationDNS] puts
    under [zoneId]: those paired with it, in order, as changes. *)
Definition changesOf (action zoneId : string) (zoneIds : list string)
           (records : list (option ResourceRecord)) : list Change :=
  flat_map (fun pair : string * option ResourceRecord =>
              if fst pair =? zoneId
              then match snd pair with
                   | Some record => [Acm.validationChange action record]
                   | None => []
                   end
              else [])
           (combine zoneIds records).

(** The array of a property after more changes were pushed onto it. *)
Definition extend (old : option (list Change)) (new : list Change)
  : option (list Change) :=
  match old, new with
  | None, [] => None
  | None, _ :: _ => Some new
  | Some changes, _ => Some (changes ++ new)%list
  end.

(** The keys in the order in which they are first met, those of [seen]
    left out. *)
Fixpoint distinct (seen keys : list string) : list string :=
  match keys with
  | [] => []
  | key :: keys' =>
      if existsb (String.eqb key) seen then distinct seen keys'
      else key :: distinct (seen ++ [key])%list keys'
  end.

(** What [lookupCertificateInternal] keeps of the certificates listed: the
    ARN of the first one of the domain, when it is truthy. *)
Definition findArn (domainName : option string)
           (certs : list CertificateSummary) : option string :=
  match find (fun cert => JS.strict_eq (SummaryDomainName cert) domainName)
             certs with
  | Some cert =>
      if JS.truthy_opt (CertificateArn cert) then CertificateArn cert else None
  | None => None
  end.

(** The state after one page fetch with [token]. *)
Definition fetched {P} (aws : AWS P) (token : option string) (st : St P)
  : St P :=
  {| provider := snd (listCertificates aws [PENDING_VALIDATION] token
                        (provider st));
     calls := (calls st ++ [ListCertificates [PENDING_VALIDATION] token])%list |}.

(** [labels.join(sep)] *)
Fixpoint join (sep : string) (labels : list string) : string :=
  match labels with
  | [] => ""
  | label :: labels' =>
      match labels' with
      | [] => label
      | _ :: _ => label ++ sep ++ join sep labels'
      end
  end.

(** A record of the batch of [verifyDomain] is the TXT record of the
    verification token or the CNAME record of a DKIM token. *)
Definition verifyRecord (action domainName VerificationToken : string)
           (DkimTokens : list string) (c : Change) : Prop :=
  Action c = action /\ TTL c = 60%Z /\
  ((RRType c = "TXT" /\
    RRName c = "_amazonses." ++ domainName /\
    RRValue c = Ses.quote ++ VerificationToken ++ Ses.quote) \/
   (RRType c = "CNAME" /\
    exists token,
      In token DkimTokens /\
      RRName c = token ++ "._domainkey." ++ domainName /\
      RRValue c = token ++ ".dkim.amazonses.com")).

(** A listing of the certificates pending validation. *)
Definition isPendingListing (c : Call) : Prop :=
  match c with
  | ListCertificates statuses _ => statuses = [PENDING_VALIDATION]
  | _ => False
  end.

(** The requests of [verifyDomain] other than the deletion of the
    identity. *)
Definition keepsIdentity (c : Call) : Prop :=
  match c with
  | DeleteIdentity _ => False
  | _ => True
  end.

(** Further data of the example account. *)
Module MoreExamples.

(** A pending option for which the certificate service has no record yet. *)
Definition optionWithoutRecord : DomainValidationOption :=
{| DomainName := "www.example.com";
   ResourceRecordOf := None;
   ValidationStatus := PENDING_VALIDATION |}.

(** The example account with one more certificate, whose pending option has
  no record yet. *)
Definition account : AWS unit := {|
listHostedZonesByName := listHostedZonesByName Examples.account;
testDNSAnswer := testDNSAnswer Examples.account;
getHostedZone := getHostedZone Examples.account;
changeResourceRecordSets := changeResourceRecordSets Examples.account;
verifyDomainIdentity := verifyDomainIdentity Examples.account;
verifyDomainDkim := verifyDomainDkim Examples.account;
deleteIdentity := deleteIdentity Examples.account;
describeCertificate := fun arn =>
  if arn =? "arn:cert/fresh"
  then answer (Resolves {| CertType := AMAZON_ISSUED_CERT_TYPE;
                           DomainValidationOptions := [optionWithoutRecord] |})
  else if arn =? "arn:cert/uk"
  then answer (Resolves {| CertType := AMAZON_ISSUED_CERT_TYPE;
                           DomainValidationOptions :=
                             [Examples.pendingOption "www.example.co.uk"] |})
  else describeCertificate Examples.account arn;
listCertificates := listCertificates Examples.account
|}.

Definition acmCreate : Acm.Event := {|
Acm.RequestType := "Create";
Acm.Properties := {| Acm.CertificateFQDN := Some "www.example.com" |};
Acm.OldResourceProperties := None;
Acm.PhysicalResourceId := None
|}.

Definition acmUpdate : Acm.Event := {|
Acm.RequestType := "Update";
Acm.Properties := {| Acm.CertificateFQDN := Some "www.example.com" |};
Acm.OldResourceProperties :=
  Some {| Acm.CertificateFQDN := Some "imported.example.com" |};
Acm.PhysicalResourceId := Some "arn:cert/imported"
|}.

Definition acmDeleteOf : Acm.Event := {|
Acm.RequestType := "Delete";
Acm.Properties := {| Acm.CertificateFQDN := Some "www.example.com" |};
Acm.OldResourceProperties := None;
Acm.PhysicalResourceId := Some "arn:cert/www"
|}.

Definition acmUnknown : Acm.Event := {|
Acm.RequestType := "Foo";
Acm.Properties := {| Acm.CertificateFQDN := Some "www.example.com" |};
Acm.OldResourceProperties := None;
Acm.PhysicalResourceId := None
|}.

Definition sesEvent (requestType : string) (zoneId : option string)
         (old : option Ses.ResourceProperties) : Ses.Event := {|
Ses.RequestType := requestType;
Ses.Properties := {| Ses.HostedZoneId := zoneId;
                     Ses.HostedZoneName := None |};
Ses.OldResourceProperties := old;
Ses.PhysicalResourceId := Some "example.com."
|}.

(** A provider whose listing of certificates has two pages; the state
  counts the pages fetched. *)
Definition firstPage : ListCertificatesResponse :=
{| NextToken := Some "page2";
   CertificateSummaryList :=
     [{| CertificateArn := Some "arn:cert/other";
         SummaryDomainName := Some "other.example.com" |}] |}.

Definition secondPage : ListCertificatesResponse :=
{| NextToken := None;
   CertificateSummaryList :=
     [{| CertificateArn := Some "arn:cert/www";
         SummaryDomainName := Some "www.example.com" |}] |}.

Definition paged : AWS nat := {|
listHostedZonesByName := fun _ p => (Rejects "Offline", p);
testDNSAnswer := fun _ _ _ p => (Rejects "Offline", p);
getHostedZone := fun _ p => (Rejects "Offline", p);
changeResourceRecordSets := fun _ _ p => (Rejects "Offline", p);
verifyDomainIdentity := fun _ p => (Rejects "Offline", p);
verifyDomainDkim := fun _ p => (Rejects "Offline", p);
deleteIdentity := fun _ p => (Rejects "Offline", p);
describeCertificate := fun _ p => (Rejects "Offline", p);
listCertificates := fun _ token p =>
  (match token with
   | None => Resolves firstPage
   | Some _ => Resolves secondPage
   end, S p)
|}.

End MoreExamples.

(** The earliest version of the SES resource (package
    cloudformation-ses-verifydomain, [index.js]): the zone is given by its
    id only, the token is published as it is, and the identity is never
    deleted. *)
Module SesIndex.

Section Provider.

Variable P : Type.
Variable aws : AWS P.

Local Abbreviation M := (M P).

Definition SESVerifyHost : string := "_amazonses".
Definition dkimHost : string := "_domainkey".
Definition SESVerifyDkim : string := "dkim.amazonses.com".

Definition verificationChange (action domainName VerificationToken : string)
: Change :=
{| Action := action;
 RRName := SESVerifyHost ++ "." ++ domainName;
 RRValue := VerificationToken;
 TTL := 60;
 RRType := "TXT";
 MultiValueAnswer := false;
 SetIdentifier := None |}.

Definition dkimChange (action domainName dkimToken : string) : Change :=
{| Action := action;
 RRName := dkimToken ++ "." ++ dkimHost ++ "." ++ domainName;
 RRValue := dkimToken ++ "." ++ SESVerifyDkim;
 TTL := 60;
 RRType := "CNAME";
 MultiValueAnswer := false;
 SetIdentifier := None |}.

Definition verifyBatch (action domainName VerificationToken : string)
       (DkimTokens : list string) : ChangeBatch :=
{| Changes := verificationChange action domainName VerificationToken
            :: map (dkimChange action domainName) DkimTokens;
 Comment :=
   "Records to verify domain ownership and DKIM for SES send/receive" |}.

Definition verifyDomain (hostedZoneId action : string) : M Ses.Verified :=
domainName <- request (GetHostedZone hostedZoneId)
                    (getHostedZone aws hostedZoneId) ;;
domainIDPromise <- settle (request (VerifyDomainIdentity domainName)
                                 (verifyDomainIdentity aws domainName)) ;;
domainDkimPromise <- settle (request (VerifyDomainDkim domainName)
                                   (verifyDomainDkim aws domainName)) ;;
VerificationToken <- await domainIDPromise ;;
DkimTokens <- await domainDkimPromise ;;
let batch := verifyBatch action domainName VerificationToken DkimTokens in
Id <- request (ChangeResourceRecordSets hostedZoneId batch)
            (changeResourceRecordSets aws hostedZoneId batch) ;;
ret {| Ses.domainName := domainName; Ses.changeId := Id |}.

End Provider.

End SesIndex.

(** The version of the SES resource before the recovery of a deletion was
    added (the second text of the file of the SES resource): the same
    [verifyDomain] but for the two routing fields of the TXT record, and a
    handler whose Delete reports what [verifyDomain] comes to. *)
Module SesPrev.

Section Provider.

Variable P : Type.
Variable aws : AWS P.
Variable cfnCR : CfnCR.t.

Local Abbreviation M := (M P).

Definition verificationChange (action domainName VerificationToken : string)
: Change :=
{| Action := action;
 RRName := Ses.SESVerifyHost ++ "." ++ domainName;
 RRValue := Ses.quote ++ VerificationToken ++ Ses.quote;
 TTL := 60;
 RRType := "TXT";
 MultiValueAnswer := false;
 SetIdentifier := None |}.

Definition verifyBatch (action domainName VerificationToken : string)
       (DkimTokens : list string) : ChangeBatch :=
{| Changes := verificationChange action domainName VerificationToken
            :: map (Ses.dkimChange action domainName) DkimTokens;
 Comment :=
   "Records to verify domain ownership and DKIM for SES send/receive" |}.

Definition verifyResolved (hostedZoneId domainName action : string)
: M Ses.Verified :=
domainIDPromise <- settle (request (VerifyDomainIdentity domainName)
                                 (verifyDomainIdentity aws domainName)) ;;
domainDkimPromise <- settle (request (VerifyDomainDkim domainName)
                                   (verifyDomainDkim aws domainName)) ;;
VerificationToken <- await domainIDPromise ;;
DkimTokens <- await domainDkimPromise ;;
(if action =? DELETE
then request (DeleteIdentity domainName) (deleteIdentity aws domainName)
else ret tt) ;;;
let batch := verifyBatch action domainName VerificationToken DkimTokens in
Id <- request (ChangeResourceRecordSets hostedZoneId batch)
            (changeResourceRecordSets aws hostedZoneId batch) ;;
ret {| Ses.domainName := domainName; Ses.changeId := Id |}.

Definition verifyDomain (hostedZoneIdOrName : option string) (action : string)
: M Ses.Verified :=
match hostedZoneIdOrName with
| None => throw TypeError
| Some idOrName =>
  let dotSplitLen := List.length (JS.split "." idOrName) in
  hostedZoneId <- (if (dotSplitLen =? 1)%nat then ret idOrName
                   else Ses.getZoneIdByName aws idOrName) ;;
  domainName <- (if (dotSplitLen =? 1)%nat
                 then request (GetHostedZone idOrName)
                              (getHostedZone aws idOrName)
                 else ret idOrName) ;;
  verifyResolved hostedZoneId domainName action
end.

Definition handler (event : Ses.Event) : M Ses.Response :=
let zoneIdOrName := Ses.zoneIdOrNameOf (Ses.Properties event) in
if Ses.RequestType event =? CfnCR.CREATE cfnCR then
catch
  (v <- verifyDomain zoneIdOrName UPSERT ;;
   Ses.sendSuccess (Some (Ses.domainName v))
                   (Some (Ses.ChangeId (Ses.changeId v))))
  (@Ses.sendFailure P)
else if Ses.RequestType event =? CfnCR.UPDATE cfnCR then
catch
  (match Ses.OldResourceProperties event with
   | None => throw TypeError
   | Some old =>
       let oldZoneIdOrName := Ses.zoneIdOrNameOf old in
       o <- verifyDomain oldZoneIdOrName DELETE ;;
       v <- verifyDomain zoneIdOrName UPSERT ;;
       Ses.sendSuccess (Some (Ses.domainName v))
                       (Some (Ses.UpdateIds (Ses.changeId v)
                                            (Ses.changeId o)
                                            (Ses.domainName o)))
   end)
  (@Ses.sendFailure P)
else if Ses.RequestType event =? CfnCR.DELETE cfnCR then
catch
  (v <- verifyDomain zoneIdOrName DELETE ;;
   Ses.sendSuccess (Some (Ses.domainName v))
                   (Some (Ses.ChangeId (Ses.changeId v))))
  (@Ses.sendFailure P)
else Ses.sendFailure InvalidRequestType.

End Provider.

End SesPrev.

(** * Facts about the string primitives *)

Lemma append_nil_r (s : string) : s ++ "" = s.
Proof. induction s as [|c s IH]; simpl; [reflexivity | now rewrite IH]. Qed.

Lemma append_assoc (a b c : string) : (a ++ b) ++ c = a ++ (b ++ c).
Proof. induction a as [|x a IH]; simpl; [reflexivity | now rewrite IH]. Qed.

Lemma length_append (a b : string) :
  String.length (a ++ b) = (String.length a + String.length b)%nat.
Proof. induction a as [|x a IH]; simpl; [reflexivity | now rewrite IH]. Qed.

Lemma substring_dropLast (s : string) :
  substring 0 (String.length s - 1) s = dropLast s.
Proof.
  induction s as [|c s IH]; [reflexivity|].
  destruct s as [|d s]; [reflexivity|].
  change (dropLast (String c (String d s)))
    with (String c (dropLast (String d s))).
  rewrite <- IH. simpl String.length.
  replace (S (S (String.length s)) - 1)%nat with (S (String.length s)) by lia.
  replace (S (String.length s) - 1)%nat with (String.length s) by lia.
  reflexivity.
Qed.

Lemma slice_0_neg1 (s : string) : JS.slice s 0 (-1) = dropLast s.
Proof.
  unfold JS.slice. cbn [Z.ltb Z.compare].
  rewrite <- substring_dropLast.
  replace (Z.to_nat (Z.min 0 (Z.of_nat (String.length s)))) with 0%nat by lia.
  f_equal. lia.
Qed.

Lemma dropLast_snoc (s : string) (c : ascii) : dropLast (s ++ String c "") = s.
Proof.
  induction s as [|d s IH]; [reflexivity|].
  simpl. rewrite IH. destruct s; reflexivity.
Qed.

Lemma snoc_inv (s : string) :
  s = "" \/ exists c, s = dropLast s ++ String c "".
Proof.
  induction s as [|d s IH]; [now left | right].
  destruct IH as [-> | [c Hc]]; [now exists d|].
  exists c. destruct s as [|e s]; [discriminate|].
  change (dropLast (String d (String e s)) ++ String c "")
    with (String d (dropLast (String e s) ++ String c "")).
  now rewrite <- Hc.
Qed.

(** [Name.slice(0, -1) === domainName] holds when the name is the queried
    name followed by one more code unit, and for two empty strings. *)
Lemma slice_eq_iff (name d : string) :
  JS.slice name 0 (-1) = d <->
  (name = "" /\ d = "") \/ exists c, name = d ++ String c "".
Proof.
  rewrite slice_0_neg1. split.
  - intros <-. destruct (snoc_inv name) as [-> | [c Hc]]; [now left | right; now exists c].
  - intros [[-> ->] | [c ->]]; [reflexivity | apply dropLast_snoc].
Qed.

Lemma snoc_injective (a b : string) (c d : ascii) :
  a ++ String c "" = b ++ String d "" -> a = b /\ c = d.
Proof.
  revert b. induction a as [|x a IH]; intros [|y b] H; simpl in H.
  - now inversion H.
  - inversion H. destruct b; discriminate.
  - inversion H. destruct a; discriminate.
  - inversion H. subst. destruct (IH _ H2) as [-> ->]. now split.
Qed.

Lemma prefix_append (p z : string) : prefix p (p ++ z) = true.
Proof.
  induction p as [|c p IH]; simpl; [now destruct z|].
  destruct (ascii_dec c c) as [_|n]; [exact IH | now destruct n].
Qed.

Lemma drop_append (p z : string) : JS.drop (String.length p) (p ++ z) = z.
Proof. induction p as [|c p IH]; simpl; [reflexivity | exact IH]. Qed.

(** Stripping the path prefix of an id that starts with it. *)
Lemma replace_prefix (p z : string) : JS.replace p "" (p ++ z) = z.
Proof.
  destruct (p ++ z) as [|c s] eqn:E.
  - destruct p; [simpl in E; subst; reflexivity | discriminate].
  - rewrite <- E. unfold JS.replace.
    destruct (p ++ z) eqn:E2; [discriminate|].
    rewrite <- E2, prefix_append. simpl. apply drop_append.
Qed.

Lemma substring_last (n : string) (c : ascii) :
  substring (String.length n) 1 (n ++ String c "") = String c "".
Proof. induction n as [|x n IH]; simpl; [reflexivity | exact IH]. Qed.

Lemma endsWith_dot_iff (s : string) :
  JS.endsWith s "." = true <-> exists n, s = n ++ ".".
Proof.
  unfold JS.endsWith. rewrite andb_true_iff, String.eqb_eq, Nat.leb_le. split.
  - intros [L E]. destruct (snoc_inv s) as [-> | [c Hc]]; [simpl in L; lia|].
    exists (dropLast s). rewrite Hc in E at 1 2. rewrite length_append in E.
    simpl in E. replace (String.length (dropLast s) + 1 - 1)%nat
      with (String.length (dropLast s)) in E by lia.
    rewrite substring_last in E. now rewrite <- E.
  - intros [n ->]. rewrite length_append. simpl. split; [lia|].
    replace (String.length n + 1 - 1)%nat with (String.length n) by lia.
    apply substring_last.
Qed.

(** * The exact-name zone lookup *)

Section ExactName.

Variable P : Type.
Variable aws : AWS P.

(** The test [Name.slice(0, -1) === domainName || Name === domainName]. *)
Lemma name_test_iff (name d : string) :
  (JS.slice name 0 (-1) =? d) || (name =? d) = true <->
  name = d \/ exists c, name = d ++ String c "".
Proof.
  rewrite orb_true_iff, !String.eqb_eq, slice_eq_iff. split.
  - intros [[[-> ->] | H] | H]; auto.
  - intros [H | H]; auto.
Qed.

(** One run of [getZoneIdByName]: one request, and the outcome read off
    the reply. *)
Lemma getZoneIdByName_run (d : string) (st : St P) :
  Acm.getZoneIdByName aws d st =
  (match fst (listHostedZonesByName aws d (provider st)) with
   | Rejects code => Thrown (ProviderFailure code)
   | Resolves None => Thrown NoZonesFound
   | Resolves (Some []) => Thrown NoZonesFound
   | Resolves (Some (zone :: _)) =>
       if (JS.slice (Name zone) 0 (-1) =? d) || (Name zone =? d)
       then Returned (JS.replace "/hostedzone/" "" (Id zone))
       else Thrown NoExactMatch
   end,
   {| provider := snd (listHostedZonesByName aws d (provider st));
      calls := (calls st ++ [ListHostedZonesByName d])%list |}).
Proof.
  unfold Acm.getZoneIdByName, bind, request.
  destruct (listHostedZonesByName aws d (provider st)) as [[[[|zone rest]|]|code] p'];
    simpl; try reflexivity.
  now destruct ((JS.slice (Name zone) 0 (-1) =? d) || (Name zone =? d)).
Qed.

(** Both resources carry the same lookup. *)
Lemma getZoneIdByName_same (d : string) :
  Ses.getZoneIdByName aws d = Acm.getZoneIdByName aws d.
Proof. reflexivity. Qed.

(** C5.  The provider answers the query with a listing, and the name of
    the first zone it lists, if any, ends in the separator, as the names
    of the provider do.  Then [getZoneIdByName] fails with [NoZonesFound]
    exactly when the listing holds no zone; it fails with [NoExactMatch]
    exactly when the name of the first zone listed is neither the queried
    name nor the queried name with one separator appended; and in every
    other case it returns the id of the first zone with the first
    ["/hostedzone/"] removed, that is, without that prefix for an id that
    starts with it. *)
Theorem getZoneIdByName_exact_match (d : string) (st : St P)
        (HostedZones : option (list HostedZone)) :
  fst (listHostedZonesByName aws d (provider st)) = Resolves HostedZones ->
  match listed HostedZones with
  | zone :: _ => JS.endsWith (Name zone) "." = true
  | [] => True
  end ->
  let result := outcome (Acm.getZoneIdByName aws d) st in
  (result = Thrown NoZonesFound <-> listed HostedZones = []) /\
  (result = Thrown NoExactMatch <->
   exists zone rest,
     listed HostedZones = zone :: rest /\
     Name zone <> d /\ Name zone <> d ++ ".") /\
  (result <> Thrown NoZonesFound -> result <> Thrown NoExactMatch ->
   exists zone rest,
     listed HostedZones = zone :: rest /\
     result = Returned (JS.replace "/hostedzone/" "" (Id zone)) /\
     forall z, Id zone = "/hostedzone/" ++ z -> result = Returned z).
Proof.
  intros R Hname result. subst result. unfold outcome.
  rewrite getZoneIdByName_run. cbn [fst]. rewrite R.
  destruct HostedZones as [[|zone rest]|]; cbn [listed] in *.
  - split; [tauto|]. split.
    + split; [discriminate | intros [z [r [H _]]]; discriminate].
    + intros H. now destruct H.
  - apply endsWith_dot_iff in Hname as [n Hn].
    pose proof (name_test_iff (Name zone) d) as T.
    destruct ((JS.slice (Name zone) 0 (-1) =? d) || (Name zone =? d)) eqn:E.
    + assert (M : Name zone = d \/ exists c, Name zone = d ++ String c "")
        by now apply T.
      split; [split; discriminate|]. split.
      * split; [discriminate|]. intros [z [r [H [N1 N2]]]]. exfalso.
        inversion H; subst z r.
        destruct M as [M | [c M]]; [now apply N1|].
        rewrite Hn in M. apply snoc_injective in M as [E1 E2].
        subst n c. now apply N2.
      * intros _ _. exists zone, rest. split; [reflexivity|].
        split; [reflexivity|]. intros z ->. now rewrite replace_prefix.
    + assert (M : ~ (Name zone = d \/ exists c, Name zone = d ++ String c "")).
      { intros H. apply T in H. discriminate. }
      split; [split; discriminate|]. split.
      * split; [|reflexivity]. intros _. exists zone, rest.
        split; [reflexivity|]. split.
        -- intros H. apply M. now left.
        -- intros H. apply M. right. now exists "."%char.
      * intros _ H. now destruct H.
  - split; [tauto|]. split.
    + split; [discriminate | intros [z [r [H _]]]; discriminate].
    + intros H. now destruct H.
Qed.

End ExactName.

(** * The trailing separator *)

Lemma endsWith_dot_false (s n : string) :
  JS.endsWith s "." = false -> s <> n ++ ".".
Proof.
  intros H E. assert (T : JS.endsWith s "." = true)
    by (apply endsWith_dot_iff; now exists n).
  congruence.
Qed.

Lemma endsInOneSeparator_inv (s : string) :
  endsInOneSeparator s = true ->
  exists n, s = n ++ "." /\ JS.endsWith n "." = false.
Proof.
  unfold endsInOneSeparator. rewrite andb_true_iff, negb_true_iff.
  intros [H1 H2]. apply endsWith_dot_iff in H1 as [n ->].
  exists n. split; [reflexivity|].
  now rewrite slice_0_neg1, dropLast_snoc in H2.
Qed.

Section TrailingSeparator.

Variable P : Type.
Variable aws : AWS P.

(** C7.  A domain name [d] with a trailing separator is [b ++ "."] for a
    name [b] that does not end in the separator.  The provider answers
    the listing for [d] and the listing for [b] alike, and the names it
    lists end in one separator.  Then [getZoneIdByName] gives the same
    result for [d] and for [b]. *)
Theorem getZoneIdByName_trailing_separator (b : string) (st : St P) :
  JS.endsWith b "." = false ->
  fst (listHostedZonesByName aws (b ++ ".") (provider st)) =
  fst (listHostedZonesByName aws b (provider st)) ->
  match firstZoneName (fst (listHostedZonesByName aws b (provider st))) with
  | Some name => endsInOneSeparator name = true
  | None => True
  end ->
  outcome (Acm.getZoneIdByName aws (b ++ ".")) st =
  outcome (Acm.getZoneIdByName aws b) st.
Proof.
  intros Hb Hsame Hname. unfold outcome.
  rewrite !getZoneIdByName_run. cbn [fst]. rewrite Hsame.
  destruct (fst (listHostedZonesByName aws b (provider st)))
    as [[[|zone rest]|]|code]; try reflexivity.
  simpl in Hname. apply endsInOneSeparator_inv in Hname as [n [Hn Hn']].
  rewrite Hn, slice_0_neg1, dropLast_snoc.
  assert (E1 : (n =? b ++ ".") = false).
  { apply String.eqb_neq. intros ->. apply (endsWith_dot_false _ Hn' eq_refl). }
  assert (E2 : (n ++ "." =? b) = false).
  { apply String.eqb_neq. intros <-. apply (endsWith_dot_false _ Hb eq_refl). }
  rewrite E1, E2. simpl.
  destruct (String.eqb_spec n b) as [->|N].
  - now rewrite String.eqb_refl.
  - assert (E3 : (n ++ "." =? b ++ ".") = false).
    { apply String.eqb_neq. intros H. apply snoc_injective in H. tauto. }
    now rewrite E3.
Qed.

End TrailingSeparator.

Lemma getZoneIdByName_trailing_separator_witness :
  outcome (Acm.getZoneIdByName Examples.account ("example.com" ++ ".")) (start tt)
  = outcome (Acm.getZoneIdByName Examples.account "example.com") (start tt).
Proof.
  apply (@getZoneIdByName_trailing_separator unit Examples.account
           "example.com" (start tt)); reflexivity.
Defined.

Lemma getZoneIdByName_exact_match_witness :
  outcome (Acm.getZoneIdByName Examples.account "example.com") (start tt)
  = Returned "Z2" /\
  outcome (Acm.getZoneIdByName Examples.account "mple.com") (start tt)
  = Thrown NoZonesFound.
Proof.
  pose proof (@getZoneIdByName_exact_match unit Examples.account
                "example.com" (start tt) _ eq_refl eq_refl) as [_ [_ H]].
  pose proof (@getZoneIdByName_exact_match unit Examples.account
                "mple.com" (start tt) _ eq_refl I) as [H0 _].
  split.
  - destruct H as [zone [rest [L [_ Z]]]]; [discriminate | discriminate |].
    inversion L; subst zone rest. apply Z. reflexivity.
  - apply H0. reflexivity.
Defined.

(** * Splitting a name into labels *)

Lemma split_nonempty (sep : ascii) (s : string) : JS.split sep s <> [].
Proof.
  induction s as [|c s IH]; simpl; [discriminate|].
  destruct (Ascii.eqb c sep); [discriminate|].
  destruct (JS.split sep s); [discriminate | discriminate].
Qed.

Lemma split_no_sep (sep : ascii) (s : string) :
  JS.includes sep s = false -> JS.split sep s = [s].
Proof.
  induction s as [|c s IH]; simpl; [reflexivity|].
  rewrite orb_false_iff. intros [H1 H2]. now rewrite H1, (IH H2).
Qed.

Lemma split_append_sep (sep : ascii) (a b : string) :
  JS.includes sep a = false ->
  JS.split sep (a ++ String sep b) = a :: JS.split sep b.
Proof.
  induction a as [|c a IH]; simpl.
  - intros _. now rewrite Ascii.eqb_refl.
  - rewrite orb_false_iff. intros [H1 H2]. now rewrite H1, (IH H2).
Qed.

Lemma split_length_sep (sep : ascii) (s : string) :
  JS.includes sep s = true -> (2 <= List.length (JS.split sep s))%nat.
Proof.
  induction s as [|c s IH]; simpl; [discriminate|].
  destruct (Ascii.eqb c sep); simpl.
  - intros _. pose proof (split_nonempty sep s).
    destruct (JS.split sep s); [contradiction | simpl; lia].
  - intros H. specialize (IH H).
    destruct (JS.split sep s); simpl in *; lia.
Qed.

(** [s.split(".").length === 1] says that [s] has no dot. *)
Lemma dotSplitLen_one (s : string) :
  (List.length (JS.split "." s) =? 1)%nat = negb (JS.includes "." s).
Proof.
  destruct (JS.includes "." s) eqn:E; simpl.
  - apply Nat.eqb_neq. pose proof (split_length_sep _ _ E). lia.
  - now rewrite (split_no_sep _ _ E).
Qed.

Lemma includes_append (c : ascii) (a b : string) :
  JS.includes c (a ++ b) = JS.includes c a || JS.includes c b.
Proof.
  induction a as [|x a IH]; simpl; [reflexivity|].
  now rewrite IH, orb_assoc.
Qed.

(** A name whose last label is not empty does not end in the separator. *)
Lemma endsWith_dot_label (a tld : string) :
  JS.includes "." tld = false -> (tld =? "") = false ->
  JS.endsWith (a ++ tld) "." = false.
Proof.
  intros H1 H2. destruct (JS.endsWith (a ++ tld) ".") eqn:E; [|reflexivity].
  apply endsWith_dot_iff in E as [n Hn].
  destruct (snoc_inv tld) as [-> | [c Hc]]; [discriminate|].
  rewrite Hc, <- append_assoc in Hn.
  apply snoc_injective in Hn as [_ ->].
  rewrite Hc, includes_append in H1. simpl in H1.
  now rewrite orb_true_r in H1.
Qed.

Lemma two_labels (label tld : string) :
  JS.includes "." label = false -> JS.includes "." tld = false ->
  (tld =? "") = false ->
  let fqdn := label ++ "." ++ tld in
  Acm.normalize fqdn = fqdn /\ rev (JS.split "." fqdn) = [tld; label].
Proof.
  intros H1 H2 H3 fqdn. subst fqdn. split.
  - unfold Acm.normalize.
    rewrite <- append_assoc, (endsWith_dot_label _ _ H2 H3). reflexivity.
  - change (label ++ "." ++ tld) with (label ++ String "." tld).
    now rewrite (split_append_sep _ _ _ H1), (split_no_sep _ _ H2).
Qed.

(** * The label walk of [getZoneIdByFQDN] *)

Section Walk.

Variable P : Type.
Variable aws : AWS P.

(** One turn of the loop. *)
Lemma walk_cons (n label : string) (rest : list string) (d : string)
      (st : St P) :
  Acm.walk aws n (label :: rest) d st =
  match Acm.getZoneIdByName aws (label ++ "." ++ d) st with
  | (Returned z, st1) =>
      match fst (testDNSAnswer aws z n "NS" (provider st1)) with
      | Resolves [] => (Returned z, tested aws z n st1)
      | Resolves (_ :: _) =>
          Acm.walk aws n rest (label ++ "." ++ d) (tested aws z n st1)
      | Rejects code => (Thrown (ProviderFailure code), tested aws z n st1)
      end
  | (Thrown e, st1) => (Thrown e, st1)
  | (Pending, st1) => (Pending, st1)
  end.
Proof.
  cbn [Acm.walk]. unfold bind at 1.
  destruct (Acm.getZoneIdByName aws (label ++ "." ++ d) st) as [[z|e|] st1];
    try reflexivity.
  unfold bind, request, tested.
  destruct (testDNSAnswer aws z n "NS" (provider st1)) as [[[|r rd]|code] p];
    reflexivity.
Qed.

Lemma getZoneIdByName_calls (d : string) (st : St P) :
  calls (snd (Acm.getZoneIdByName aws d st))
  = (calls st ++ [ListHostedZonesByName d])%list.
Proof. now rewrite getZoneIdByName_run. Qed.

(** A walk that ends with [ZoneNotDeterminable] has resolved every
    candidate and found each one delegated. *)
Lemma walk_not_determinable (n : string) (rest : list string) :
  forall (d : string) (st : St P),
    outcome (Acm.walk aws n rest d) st = Thrown ZoneNotDeterminable ->
    exists zoneIds,
      List.length zoneIds = List.length rest /\
      calls (snd (Acm.walk aws n rest d st))
      = (calls st
           ++ flat_map (stepCalls n) (combine (candidates rest d) zoneIds))%list.
Proof.
  induction rest as [|label rest IH]; intros d st H.
  - exists []. split; [reflexivity|]. simpl. now rewrite app_nil_r.
  - unfold outcome in *. rewrite walk_cons in *.
    pose proof (getZoneIdByName_calls (label ++ "." ++ d) st) as C.
    pose proof (getZoneIdByName_run aws (label ++ "." ++ d) st) as R.
    destruct (Acm.getZoneIdByName aws (label ++ "." ++ d) st) as [[z|e|] st1];
      simpl in C.
    + destruct (fst (testDNSAnswer aws z n "NS" (provider st1)))
        as [[|r rd]|code]; try discriminate.
      destruct (IH _ _ H) as [zoneIds [L E]].
      exists (z :: zoneIds). split; [simpl; now rewrite L|].
      rewrite E. simpl. rewrite C, <- !app_assoc. reflexivity.
    + simpl in H. inversion H; subst e.
      rewrite R in *. clear -R.
      destruct (fst (listHostedZonesByName aws (label ++ "." ++ d) (provider st)))
        as [[[|zone zs]|]|code]; try discriminate.
      destruct (_ || _); discriminate.
    + discriminate.
Qed.

(** C1 (amended).  [getZoneIdByFQDN] walks the labels of the normalized
    name above its last one.  At every candidate of the walk, a failure of
    the exact-name lookup, [NoZonesFound] included, ends the walk with
    that error, and nothing is requested after the failed lookup.  The
    walk fails with [ZoneNotDeterminable] only after every candidate has
    been resolved to a zone and tested for delegation. *)
Theorem walk_stops_at_failed_lookup (n : string) :
  (forall fqdn tld rest (st : St P),
      rev (JS.split "." (Acm.normalize fqdn)) = tld :: rest ->
      Acm.getZoneIdByFQDN aws fqdn st
      = Acm.walk aws (Acm.normalize fqdn) rest tld st) /\
  (forall label rest d (st : St P) e,
      outcome (Acm.getZoneIdByName aws (label ++ "." ++ d)) st = Thrown e ->
      outcome (Acm.walk aws n (label :: rest) d) st = Thrown e /\
      calls (snd (Acm.walk aws n (label :: rest) d st))
      = (calls st ++ [ListHostedZonesByName (label ++ "." ++ d)])%list) /\
  (forall rest d (st : St P),
      outcome (Acm.walk aws n rest d) st = Thrown ZoneNotDeterminable ->
      exists zoneIds,
        List.length zoneIds = List.length rest /\
        calls (snd (Acm.walk aws n rest d st))
        = (calls st
             ++ flat_map (stepCalls n) (combine (candidates rest d) zoneIds))%list).
Proof.
  split; [|split].
  - intros fqdn tld rest st H. unfold Acm.getZoneIdByFQDN. now rewrite H.
  - intros label rest d st e H. unfold outcome in *. rewrite walk_cons.
    pose proof (getZoneIdByName_calls (label ++ "." ++ d) st) as C.
    destruct (Acm.getZoneIdByName aws (label ++ "." ++ d) st) as [[z|e'|] st1];
      try discriminate.
    simpl in *. split; [exact H | exact C].
  - intros rest. apply walk_not_determinable.
Qed.

End Walk.

(** C1: [www.example.co.uk] lies in the hosted zone [example.co.uk], which
    is not delegated further; nothing is listed for the first candidate,
    [co.uk].  The walk does not go on to [example.co.uk]: it fails with
    [NoZonesFound] after that one request. *)
Lemma getZoneIdByFQDN_stops_at_NoZonesFound :
  outcome (Acm.getZoneIdByName Examples.account "co.uk") (start tt)
  = Thrown NoZonesFound /\
  outcome (Acm.getZoneIdByName Examples.account "example.co.uk") (start tt)
  = Returned "Z1" /\
  fst (testDNSAnswer Examples.account "Z1" "www.example.co.uk" "NS" tt)
  = Resolves [] /\
  Acm.getZoneIdByFQDN Examples.account "www.example.co.uk" (start tt)
  = (Thrown NoZonesFound,
     {| provider := tt; calls := [ListHostedZonesByName "co.uk"] |}).
Proof. repeat split. Qed.

Lemma walk_stops_at_failed_lookup_witness :
  outcome (Acm.walk Examples.account "www.example.co.uk"
             ["co"; "example"; "www"] "uk") (start tt)
  = Thrown NoZonesFound /\
  calls (snd (Acm.walk Examples.account "www.example.co.uk"
                ["co"; "example"; "www"] "uk" (start tt)))
  = [ListHostedZonesByName "co.uk"].
Proof.
  apply (proj1 (proj2 (@walk_stops_at_failed_lookup unit Examples.account
                         "www.example.co.uk"))).
  reflexivity.
Defined.

Section Delegation.

Variable P : Type.
Variable aws : AWS P.

(** A walk returns a zone only from the turn that has just tested it. *)
Lemma walk_returns_after_test (n : string) (rest : list string) :
  forall (d : string) (st : St P) (z : string),
    outcome (Acm.walk aws n rest d) st = Returned z ->
    exists prior,
      calls (snd (Acm.walk aws n rest d st))
      = (calls st ++ prior ++ [TestDNSAnswer z n "NS"])%list.
Proof.
  induction rest as [|label rest IH]; intros d st z H; [discriminate|].
  unfold outcome in *. rewrite walk_cons in *.
  pose proof (getZoneIdByName_calls aws (label ++ "." ++ d) st) as C.
  destruct (Acm.getZoneIdByName aws (label ++ "." ++ d) st) as [[z1|e|] st1];
    try discriminate.
  simpl in C.
  destruct (fst (testDNSAnswer aws z1 n "NS" (provider st1)))
    as [[|r rd]|code]; try discriminate.
  - inversion H; subst z1. exists [ListHostedZonesByName (label ++ "." ++ d)].
    simpl. rewrite C, <- app_assoc. reflexivity.
  - destruct (IH _ _ _ H) as [prior E].
    exists ([ListHostedZonesByName (label ++ "." ++ d);
             TestDNSAnswer z1 n "NS"] ++ prior)%list.
    rewrite E. simpl. rewrite C, <- !app_assoc. reflexivity.
Qed.

(** C2 (amended).  [getZoneIdByFQDN] never returns a zone without the
    delegation test: when it returns [z], its last request is the NS test
    of the normalized name in [z].  For a name of two labels that is
    exactly a hosted zone's name, it looks the name up, tests it for
    delegation in that zone, and returns the zone's id when the test finds
    no record; when the test finds a record it fails with
    [ZoneNotDeterminable]. *)
Theorem getZoneIdByFQDN_tests_delegation :
  (forall fqdn (st : St P) z,
      outcome (Acm.getZoneIdByFQDN aws fqdn) st = Returned z ->
      exists prior,
        calls (snd (Acm.getZoneIdByFQDN aws fqdn st))
        = (calls st ++ prior
             ++ [TestDNSAnswer z (Acm.normalize fqdn) "NS"])%list) /\
  (forall label tld (st : St P) z,
      JS.includes "." label = false ->
      JS.includes "." tld = false ->
      (tld =? "") = false ->
      let fqdn := label ++ "." ++ tld in
      outcome (Acm.getZoneIdByName aws fqdn) st = Returned z ->
      let st1 := snd (Acm.getZoneIdByName aws fqdn st) in
      Acm.getZoneIdByFQDN aws fqdn st
      = (match fst (testDNSAnswer aws z fqdn "NS" (provider st1)) with
         | Resolves [] => Returned z
         | Resolves (_ :: _) => Thrown ZoneNotDeterminable
         | Rejects code => Thrown (ProviderFailure code)
         end, tested aws z fqdn st1) /\
      calls (tested aws z fqdn st1)
      = (calls st ++ [ListHostedZonesByName fqdn;
                      TestDNSAnswer z fqdn "NS"])%list).
Proof.
  split.
  - intros fqdn st z. unfold Acm.getZoneIdByFQDN.
    destruct (rev (JS.split "." (Acm.normalize fqdn))) as [|tld rest];
      [discriminate|].
    apply walk_returns_after_test.
  - intros label tld st z H1 H2 H3 fqdn Hz st1.
    destruct (two_labels label tld H1 H2 H3) as [N S]. fold fqdn in N, S.
    unfold Acm.getZoneIdByFQDN. rewrite N, S, walk_cons.
    change (label ++ "." ++ tld) with fqdn.
    pose proof (getZoneIdByName_calls aws fqdn st) as C.
    unfold outcome in Hz. subst st1.
    destruct (Acm.getZoneIdByName aws fqdn st) as [[z1|e|] st1];
      try discriminate.
    simpl in *. inversion Hz; subst z1. split.
    + destruct (fst (testDNSAnswer aws z fqdn "NS" (provider st1)))
        as [[|r rd]|code]; reflexivity.
    + rewrite C, <- app_assoc. reflexivity.
Qed.

End Delegation.

(** C2: [example.com] is exactly the name of the hosted zone [Z2], which
    has its NS records at that name.  The delegation test is performed, and
    the zone is not returned. *)
Lemma getZoneIdByFQDN_zone_name_is_tested :
  outcome (Acm.getZoneIdByName Examples.account "example.com") (start tt)
  = Returned "Z2" /\
  Acm.getZoneIdByFQDN Examples.account "example.com" (start tt)
  = (Thrown ZoneNotDeterminable,
     {| provider := tt;
        calls := [ListHostedZonesByName "example.com";
                  TestDNSAnswer "Z2" "example.com" "NS"] |}).
Proof. split; reflexivity. Qed.

Lemma getZoneIdByFQDN_tests_delegation_witness :
  outcome (Acm.getZoneIdByFQDN Examples.account ("example" ++ "." ++ "com"))
          (start tt)
  = Thrown ZoneNotDeterminable.
Proof.
  unfold outcome.
  rewrite (proj1 (proj2 (@getZoneIdByFQDN_tests_delegation unit Examples.account)
                        "example" "com" (start tt) "Z2"
                        eq_refl eq_refl eq_refl eq_refl)).
  reflexivity.
Defined.

(** * Publishing the change batches *)

Lemma all_inr {A} (ids : list A) : all (map (@inr Error A) ids) = inr ids.
Proof. induction ids as [|a ids IH]; simpl; [reflexivity | now rewrite IH]. Qed.

Lemma all_inl {A} (rs : list (Error + A)) (e : Error) :
  In (inl e) rs -> exists e', In (inl e') rs /\ all rs = inl e'.
Proof.
  induction rs as [|[e0|a] rs IH]; simpl; [contradiction| |].
  - intros _. exists e0. auto.
  - intros [H | H]; [discriminate|].
    destruct (IH H) as [e' [I E]]. exists e'. rewrite E. auto.
Qed.

Section Publish.

Variable P : Type.
Variable aws : AWS P.

(** Starting the submissions issues one request per key, in order, and
    keeps what each settles to. *)
Lemma startAll_submit (arn : string) (Changes : JSObject.t)
      (keys : list string) :
  forall st : St P,
    startAll (Acm.submit aws arn Changes) keys st =
    (Returned (fst (submissions aws arn Changes keys (provider st))),
     {| provider := snd (submissions aws arn Changes keys (provider st));
        calls := (calls st ++ map (submitCall arn Changes) keys)%list |}).
Proof.
  induction keys as [|k keys IH]; intros st.
  - simpl. unfold ret. rewrite app_nil_r. now destruct st.
  - cbn [startAll submissions]. unfold bind at 1, settle, Acm.submit, request.
    destruct (changeResourceRecordSets aws k (Acm.batchOf arn Changes k)
                (provider st)) as [r p1].
    destruct r as [id|code]; cbn [settled];
      unfold bind; rewrite IH; cbn [provider calls];
      destruct (submissions aws arn Changes keys p1) as [rs p2];
      unfold ret; cbn [fst snd map]; now rewrite <- app_assoc.
Qed.

Lemma submissions_length (arn : string) (Changes : JSObject.t)
      (keys : list string) :
  forall p : P,
    List.length (fst (submissions aws arn Changes keys p)) = List.length keys.
Proof.
  induction keys as [|k keys IH]; intros p; [reflexivity|].
  simpl. destruct (changeResourceRecordSets aws k _ p) as [r p1].
  specialize (IH p1). destruct (submissions aws arn Changes keys p1).
  simpl in *. now rewrite IH.
Qed.

Lemma publishChanges_calls (arn action : string) (Changes : JSObject.t)
      (st : St P) :
  calls (snd (Acm.publishChanges aws arn action Changes st))
  = (calls st ++ map (submitCall arn Changes) (JSObject.keys Changes))%list.
Proof.
  unfold Acm.publishChanges, bind. rewrite startAll_submit.
  destruct (action =? DELETE); [reflexivity|].
  unfold await. destruct (all _); reflexivity.
Qed.

(** The stages of [publishCertValidationDNS] for an Amazon-issued
    certificate whose records have been grouped. *)
Lemma publishCertValidationDNS_stages (arn action : string) (st : St P)
      (cert : Certificate) (Changes : JSObject.t) (st1 : St P) :
  fst (describeCertificate aws arn (provider st)) = Resolves cert ->
  CertType cert = AMAZON_ISSUED_CERT_TYPE ->
  Acm.resolveChanges aws action (DomainValidationOptions cert)
    (described aws arn st) = (Returned Changes, st1) ->
  Acm.publishCertValidationDNS aws arn action st
  = Acm.publishChanges aws arn action Changes st1.
Proof.
  intros D T R. unfold Acm.publishCertValidationDNS.
  unfold bind at 1, request. unfold described in R.
  destruct (describeCertificate aws arn (provider st)) as [r p0].
  simpl in D, R. subst r. cbn match. rewrite T, String.eqb_refl. cbn [negb].
  unfold bind at 1. now rewrite R.
Qed.

(** C4.  Once the records of the certificate are grouped by zone, the
    batch of every zone is submitted, in the order of the groups, whatever
    the action.  With [DELETE] the call returns one entry per group, at
    the group's position: [null] where the submission failed, the change
    id where it succeeded.  With any other action, [UPSERT] among them,
    one failed submission makes the whole call fail, and the list of
    change ids is returned only when every submission succeeded. *)
Theorem publishCertValidationDNS_failure_policy (arn action : string)
        (st : St P) (cert : Certificate) (Changes : JSObject.t)
        (st1 : St P) :
  fst (describeCertificate aws arn (provider st)) = Resolves cert ->
  CertType cert = AMAZON_ISSUED_CERT_TYPE ->
  Acm.resolveChanges aws action (DomainValidationOptions cert)
    (described aws arn st) = (Returned Changes, st1) ->
  let keys := JSObject.keys Changes in
  let results := fst (submissions aws arn Changes keys (provider st1)) in
  let run := Acm.publishCertValidationDNS aws arn action st in
  calls (snd run) = (calls st1 ++ map (submitCall arn Changes) keys)%list /\
  List.length results = List.length keys /\
  (action = DELETE ->
   exists output,
     fst run = Returned output /\
     List.length output = List.length keys /\
     forall i,
       (nth_error output i = Some None <->
        exists e, nth_error results i = Some (inl e)) /\
       (forall id, nth_error output i = Some (Some id) <->
                   nth_error results i = Some (inr id))) /\
  ((action =? DELETE) = false ->
   (forall e, In (inl e) results ->
              exists e', In (inl e') results /\ fst run = Thrown e') /\
   (forall ids, results = map inr ids -> fst run = Returned (map Some ids))).
Proof.
  intros D T R keys results run. subst run.
  rewrite (publishCertValidationDNS_stages _ _ _ D T R).
  split; [apply publishChanges_calls|].
  unfold Acm.publishChanges, bind.
  rewrite startAll_submit. fold keys. fold results.
  split; [|split].
  - apply submissions_length.
  - intros ->. rewrite String.eqb_refl. exists (map Acm.orNull results).
    split; [reflexivity|]. split.
    + rewrite length_map. apply submissions_length.
    + intros i. rewrite nth_error_map.
      destruct (nth_error results i) as [[e|id]|]; simpl; split.
      * split; [intros _; now exists e | reflexivity].
      * intros id. split; discriminate.
      * split; [discriminate | intros [e H]; discriminate].
      * intros id'. split; intros H; inversion H; reflexivity.
      * split; [discriminate | intros [e H]; discriminate].
      * intros id. split; discriminate.
  - intros ->. split.
    + intros e H. destruct (all_inl _ _ H) as [e' [I E]].
      exists e'. split; [exact I|]. unfold await. now rewrite E.
    + intros ids E. unfold await. now rewrite E, all_inr.
Qed.

End Publish.

Example publishCertValidationDNS_delete_two_zones :
  fst (Acm.publishCertValidationDNS Examples.account "arn:cert/two" DELETE
         (start tt))
  = Returned [Some "/change/C-Z2"; None].
Proof. reflexivity. Qed.

Example publishCertValidationDNS_upsert_two_zones :
  fst (Acm.publishCertValidationDNS Examples.account "arn:cert/two" UPSERT
         (start tt))
  = Thrown (ProviderFailure "Unable to process change").
Proof. reflexivity. Qed.

Lemma publishCertValidationDNS_failure_policy_witness :
  (exists output,
      fst (Acm.publishCertValidationDNS Examples.account "arn:cert/two" DELETE
             (start tt)) = Returned output /\
      List.length output = 2%nat) /\
  (exists e',
      fst (Acm.publishCertValidationDNS Examples.account "arn:cert/two" UPSERT
             (start tt)) = Thrown e').
Proof.
  pose proof (@publishCertValidationDNS_failure_policy unit Examples.account
                "arn:cert/two" DELETE (start tt) _ (Examples.twoZones DELETE)
                _ eq_refl eq_refl eq_refl)
    as [_ [_ [D _]]].
  pose proof (@publishCertValidationDNS_failure_policy unit Examples.account
                "arn:cert/two" UPSERT (start tt) _ (Examples.twoZones UPSERT)
                _ eq_refl eq_refl eq_refl)
    as [_ [_ [_ U]]].
  split.
  - destruct (D eq_refl) as [output [E [L _]]]. exists output. split; assumption.
  - destruct (proj1 (U eq_refl) (ProviderFailure "Unable to process change"))
      as [e' [_ E]]; [right; left; reflexivity|].
    exists e'. exact E.
Defined.

(** * Which calls a computation issues *)

Section Issues.

Variable P : Type.
Variable Q : Call -> Prop.

Lemma issues_ret {A} (a : A) : issues Q (@ret P A a).
Proof. intros st. exists []. split; [now rewrite app_nil_r | constructor]. Qed.

Lemma issues_throw {A} (e : Error) : issues Q (@throw P A e).
Proof. intros st. exists []. split; [now rewrite app_nil_r | constructor]. Qed.

Lemma issues_pending {A} : issues Q (@pending P A).
Proof. intros st. exists []. split; [now rewrite app_nil_r | constructor]. Qed.

Lemma issues_await {A} (r : Error + A) : issues Q (@await P A r).
Proof. destruct r; [apply issues_throw | apply issues_ret]. Qed.

Lemma issues_request {A} (c : Call) (api : P -> Reply A * P) :
  Q c -> issues Q (request c api).
Proof.
  intros H st. exists [c]. unfold request.
  destruct (api (provider st)) as [[a|code] p']; simpl; auto.
Qed.

Lemma issues_bind {A B} (m : M P A) (k : A -> M P B) :
  issues Q m -> (forall a, issues Q (k a)) -> issues Q (bind m k).
Proof.
  intros Hm Hk st. unfold bind. destruct (Hm st) as [l1 [E1 F1]].
  destruct (m st) as [[a|e|] st1]; simpl in E1.
  - destruct (Hk a st1) as [l2 [E2 F2]]. exists (l1 ++ l2)%list.
    rewrite E2, E1, app_assoc. split; [reflexivity | now apply Forall_app].
  - exists l1. auto.
  - exists l1. auto.
Qed.

Lemma issues_settle {A} (m : M P A) : issues Q m -> issues Q (settle m).
Proof.
  intros Hm st. unfold settle. destruct (Hm st) as [l [E F]].
  exists l. destruct (m st) as [[a|e|] st1]; auto.
Qed.

Lemma issues_catch {A} (m : M P A) (h : Error -> M P A) :
  issues Q m -> (forall e, issues Q (h e)) -> issues Q (catch m h).
Proof.
  intros Hm Hh st. unfold catch. destruct (Hm st) as [l1 [E1 F1]].
  destruct (m st) as [[a|e|] st1]; simpl in E1.
  - exists l1. auto.
  - destruct (Hh e st1) as [l2 [E2 F2]]. exists (l1 ++ l2)%list.
    rewrite E2, E1, app_assoc. split; [reflexivity | now apply Forall_app].
  - exists l1. auto.
Qed.

Lemma issues_startAll {A B} (f : A -> M P B) (l : list A) :
  (forall a, issues Q (f a)) -> issues Q (startAll f l).
Proof.
  intros Hf. induction l as [|a l IH]; simpl; [apply issues_ret|].
  apply issues_bind; [apply issues_settle, Hf|]. intros r.
  apply issues_bind; [exact IH|]. intros rs. apply issues_ret.
Qed.

End Issues.

(** * Which records are published *)

Lemma get_allChanges (Q : Change -> Prop) (o : JSObject.t) (key : string)
      (changes : list Change) :
  allChanges Q o -> JSObject.get o key = Some changes -> Forall Q changes.
Proof.
  unfold allChanges. induction o as [|[k cs] o IH]; simpl; [discriminate|].
  intros H. inversion H; subst. destruct (k =? key).
  - intros E. inversion E; subst. assumption.
  - now apply IH.
Qed.

Lemma push_allChanges (Q : Change -> Prop) (o : JSObject.t) (key : string)
      (change : Change) :
  allChanges Q o -> Q change -> allChanges Q (JSObject.push o key change).
Proof.
  unfold allChanges. intros H HQ. induction o as [|[k cs] o IH]; simpl.
  - repeat constructor. exact HQ.
  - inversion H; subst. destruct (k =? key); constructor; simpl in *; auto.
    apply Forall_app. split; [assumption | now constructor].
Qed.

Lemma groupChanges_allChanges (Q : Change -> Prop) (action : string)
      (zoneIds : list string) :
  forall (records : list (option ResourceRecord)) (acc o : JSObject.t),
    Acm.groupChanges action zoneIds records acc = inr o ->
    allChanges Q acc ->
    (forall r, In (Some r) records -> Q (Acm.validationChange action r)) ->
    allChanges Q o.
Proof.
  induction zoneIds as [|z zoneIds IH]; intros records acc o E Hacc Hrec.
  - simpl in E. inversion E; subst. exact Hacc.
  - simpl in E. destruct records as [|[r|] records]; try discriminate.
    destruct (JSObject.isNone (JSObject.get acc z) && JSObject.inherited z);
      [discriminate|].
    eapply IH; [exact E | |].
    + apply push_allChanges; [exact Hacc | apply Hrec; now left].
    + intros r' H. apply Hrec. now right.
Qed.
Lemma skipn_app_exact {A} (l l' : list A) : skipn (List.length l) (l ++ l') = l'.
Proof. induction l as [|a l IH]; simpl; [reflexivity | exact IH]. Qed.

(** * What the grouped changes hold *)

Lemma push_get (o : JSObject.t) (key z : string) (c : Change) :
  JSObject.get (JSObject.push o key c) z
  = if key =? z
    then Some (match JSObject.get o z with
               | Some changes => changes ++ [c]
               | None => [c]
               end)%list
    else JSObject.get o z.
Proof.
  induction o as [|[k cs] o IH]; simpl.
  - destruct (key =? z); reflexivity.
  - destruct (String.eqb_spec k key) as [->|N]; simpl.
    + destruct (key =? z); reflexivity.
    + destruct (String.eqb_spec k z) as [->|N'].
      * apply String.eqb_neq in N. rewrite String.eqb_sym in N.
        now rewrite N.
      * exact IH.
Qed.

Lemma groupChanges_get (action : string) (zoneIds : list string) :
  forall (records : list (option ResourceRecord)) (acc o : JSObject.t) z,
    Acm.groupChanges action zoneIds records acc = inr o ->
    JSObject.get o z
    = extend (JSObject.get acc z) (changesOf action z zoneIds records).
Proof.
  induction zoneIds as [|k zoneIds IH]; intros records acc o z E.
  - simpl in E. inversion E; subst. unfold changesOf. simpl.
    destruct (JSObject.get o z); simpl; [now rewrite app_nil_r | reflexivity].
  - simpl in E. destruct records as [|[r|] records]; try discriminate.
    destruct (JSObject.isNone (JSObject.get acc k) && JSObject.inherited k);
      [discriminate|].
    rewrite (IH _ _ _ z E), push_get. unfold changesOf. simpl.
    destruct (k =? z); simpl.
    + destruct (JSObject.get acc z) as [cs|]; simpl;
        [now rewrite <- app_assoc | reflexivity].
    + reflexivity.
Qed.

Lemma startAll_length {P A B} (f : A -> M P B) (l : list A) :
  forall (st : St P) rs,
    fst (startAll f l st) = Returned rs -> List.length rs = List.length l.
Proof.
  induction l as [|a l IH]; intros st rs; simpl.
  - intros H. inversion H. reflexivity.
  - unfold bind at 1, settle.
    destruct (f a st) as [[b|e|] st1]; try discriminate;
      unfold bind; specialize (IH st1);
      destruct (startAll f l st1) as [[rs'|e'|] st2]; try discriminate;
      simpl; intros H; inversion H; simpl; f_equal; now apply IH.
Qed.
Lemma all_settled {A} (rs : list (Error + A)) :
  match all rs with
  | inr l => rs = map inr l
  | inl e => In (inl e) rs
  end.
Proof.
  induction rs as [|[e|a] rs IH]; simpl; [reflexivity | now left |].
  destruct (all rs) as [e|l]; simpl; [now right | now rewrite IH].
Qed.

Lemma changesOf_holds (action z : string) (zoneIds : list string) :
  forall (records : list (option ResourceRecord)) i r,
    nth_error zoneIds i = Some z ->
    nth_error records i = Some (Some r) ->
    In (Acm.validationChange action r) (changesOf action z zoneIds records).
Proof.
  unfold changesOf.
  induction zoneIds as [|k zoneIds IH]; intros records i r Hz Hr.
  - destruct i; discriminate.
  - destruct records as [|r0 records]; [destruct i; discriminate|].
    destruct i as [|i]; simpl in Hz, Hr; cbn [combine flat_map fst snd].
    + inversion Hz; inversion Hr; subst. rewrite String.eqb_refl.
      now left.
    + apply in_or_app. right. now apply (IH records i r).
Qed.

Lemma groupChanges_records (action : string) (zoneIds : list string) :
  forall (records : list (option ResourceRecord)) (acc o : JSObject.t) i z,
    Acm.groupChanges action zoneIds records acc = inr o ->
    nth_error zoneIds i = Some z ->
    exists r, nth_error records i = Some (Some r).
Proof.
  induction zoneIds as [|k zoneIds IH]; intros records acc o i z E Hz.
  - destruct i; discriminate.
  - simpl in E. destruct records as [|[r|] records]; try discriminate.
    destruct (JSObject.isNone (JSObject.get acc k) && JSObject.inherited k);
      [discriminate|].
    destruct i as [|i]; simpl in *.
    + now exists r.
    + now apply (IH _ _ _ _ _ E Hz).
Qed.

Lemma insertIndex_in (n : N) (key : string) (l : list (N * string)) :
  forall x, x = (n, key) \/ In x l -> In x (JSObject.insertIndex n key l).
Proof.
  induction l as [|[m k] l IH]; intros x; simpl.
  - intros [H | []]. now left.
  - destruct (n <=? m)%N; simpl.
    + intros [H | [H | H]]; auto.
    + intros [H | [H | H]]; [right; apply IH; now left | now left |
                             right; apply IH; now right].
Qed.

Lemma keys_in (o : JSObject.t) (z : string) :
  In z (map fst o) -> In z (JSObject.keys o).
Proof.
  unfold JSObject.keys. intros H. apply in_or_app.
  destruct (JSObject.arrayIndex z) as [n|] eqn:E.
  - left. apply in_map_iff. exists (n, z). split; [reflexivity|].
    induction (map fst o) as [|k ks IH]; [contradiction|].
    simpl. destruct H as [-> | H].
    + rewrite E. apply insertIndex_in. now left.
    + destruct (JSObject.arrayIndex k); [|now apply IH].
      apply insertIndex_in. right. now apply IH.
  - right. apply filter_In. split; [exact H | now rewrite E].
Qed.

Lemma get_own (o : JSObject.t) (z : string) (cs : list Change) :
  JSObject.get o z = Some cs -> In z (map fst o).
Proof.
  induction o as [|[k c] o IH]; simpl; [discriminate|].
  destruct (String.eqb_spec k z) as [->|N]; [now left|].
  intros H. right. now apply IH.
Qed.

Section Published.

Variable P : Type.
Variable aws : AWS P.

Lemma issues_getZoneIdByName (d : string) :
  issues isLookup (Acm.getZoneIdByName aws d).
Proof.
  intros st. exists [ListHostedZonesByName d].
  rewrite getZoneIdByName_calls. split; [reflexivity|].
  repeat constructor.
Qed.

Lemma issues_walk (n : string) (rest : list string) :
  forall d, issues isLookup (Acm.walk aws n rest d).
Proof.
  induction rest as [|label rest IH]; intros d; simpl.
  - apply issues_throw.
  - apply issues_bind; [apply issues_getZoneIdByName|]. intros z.
    apply issues_bind; [now apply issues_request|]. intros rd.
    destruct (_ =? _)%nat; [apply issues_ret | apply IH].
Qed.

Lemma issues_getZoneIdByFQDN (fqdn : string) :
  issues isLookup (Acm.getZoneIdByFQDN aws fqdn).
Proof.
  unfold Acm.getZoneIdByFQDN.
  destruct (rev _); [apply issues_throw | apply issues_walk].
Qed.

Lemma issues_resolveChanges (action : string)
      (options : list DomainValidationOption) :
  issues isLookup (Acm.resolveChanges aws action options).
Proof.
  unfold Acm.resolveChanges.
  apply issues_bind; [apply issues_startAll, issues_getZoneIdByFQDN|].
  intros rs. apply issues_bind; [apply issues_await|].
  intros zs. apply issues_await.
Qed.

Lemma resolveChanges_fromPending (action : string)
      (options : list DomainValidationOption) (st : St P) (o : JSObject.t) :
  fst (Acm.resolveChanges aws action options st) = Returned o ->
  allChanges (fromPending action options) o.
Proof.
  unfold Acm.resolveChanges, bind.
  destruct (startAll _ _ st) as [[rs|e|] st1]; try discriminate.
  unfold await at 1. destruct (all rs) as [e|zoneIds]; [discriminate|].
  unfold ret at 1. unfold await.
  destruct (Acm.groupChanges _ _ _ _) as [e|o'] eqn:G; [discriminate|].
  intros E. inversion E; subst o'.
  eapply groupChanges_allChanges; [exact G | constructor |].
  intros r H. apply in_map_iff in H as [opt [E1 H]].
  apply filter_In in H as [H1 H2]. apply String.eqb_eq in H2.
  now exists opt, r.
Qed.

(** C10.  For an Amazon-issued certificate, the records that
    [publishCertValidationDNS] submits are those of the options whose
    status is [PENDING_VALIDATION], and all of them.  Every change of
    every batch it submits carries the action and the name, value and
    type of the record of a pending option of the certificate.  When the
    zones are resolved and the records grouped, the record of every
    pending option is submitted, in a batch for the zone that the lookup
    of its domain returned.  And when no option is pending, it returns
    the empty list, the description of the certificate being its only
    request. *)
Theorem publishCertValidationDNS_pending_only (arn action : string)
        (st : St P) (cert : Certificate) :
  fst (describeCertificate aws arn (provider st)) = Resolves cert ->
  CertType cert = AMAZON_ISSUED_CERT_TYPE ->
  let options := DomainValidationOptions cert in
  let pending :=
    filter (fun option => ValidationStatus option =? PENDING_VALIDATION)
           options in
  let submitted := issued (Acm.publishCertValidationDNS aws arn action) st in
  (forall zoneId batch change,
      In (ChangeResourceRecordSets zoneId batch) submitted ->
      In change (Changes batch) ->
      exists option record,
        In option options /\
        ValidationStatus option = PENDING_VALIDATION /\
        ResourceRecordOf option = Some record /\
        changeOfRecord action record change) /\
  (forall grouped lookups,
      fst (Acm.resolveChanges aws action options (described aws arn st))
      = Returned grouped ->
      fst (startAll (Acm.getZoneIdByFQDN aws) (map DomainName pending)
             (described aws arn st)) = Returned lookups ->
      forall i option,
        nth_error pending i = Some option ->
        exists record zoneId batch change,
          ResourceRecordOf option = Some record /\
          nth_error lookups i = Some (inr zoneId) /\
          In (ChangeResourceRecordSets zoneId batch) submitted /\
          In change (Changes batch) /\
          changeOfRecord action record change) /\
  (pending = [] ->
   Acm.publishCertValidationDNS aws arn action st
   = (Returned [], described aws arn st)).
Proof.
  intros D T options pending submitted.
  set (st0 := described aws arn st).
  assert (S : exists l,
             Forall isLookup l /\
             submitted
             = (DescribeCertificate arn :: l
                  ++ match fst (Acm.resolveChanges aws action options st0) with
                     | Returned grouped =>
                         map (submitCall arn grouped) (JSObject.keys grouped)
                     | _ => []
                     end)%list).
  { subst submitted. unfold issued, Acm.publishCertValidationDNS.
    unfold bind at 1, request. subst st0. unfold described.
    destruct (describeCertificate aws arn (provider st)) as [r p0].
    simpl in D. subst r. cbn match. rewrite T, String.eqb_refl. cbn [negb snd].
    unfold bind. fold options.
    set (st0 := {| provider := p0;
                   calls := (calls st ++ [DescribeCertificate arn])%list |}).
    destruct (issues_resolveChanges action options st0) as [l [E F]].
    exists l. split; [exact F|].
    destruct (Acm.resolveChanges aws action options st0)
      as [[grouped|e|] st1]; cbn [fst snd] in *.
    - rewrite publishChanges_calls, E. subst st0. cbn [calls].
      rewrite <- !app_assoc. now rewrite skipn_app_exact.
    - rewrite E. subst st0. cbn [calls].
      rewrite <- !app_assoc, skipn_app_exact, app_nil_r. reflexivity.
    - rewrite E. subst st0. cbn [calls].
      rewrite <- !app_assoc, skipn_app_exact, app_nil_r. reflexivity. }
  destruct S as [l [F S]].
  split; [|split].
  - intros zoneId batch change Hs Hc.
    pose proof (resolveChanges_fromPending action options st0) as R.
    rewrite S in Hs.
    destruct Hs as [Hs | Hs]; [discriminate|].
    apply in_app_or in Hs as [Hs | Hs];
      [rewrite Forall_forall in F; now apply F in Hs|].
    destruct (fst (Acm.resolveChanges aws action options st0))
      as [grouped|e|]; try contradiction.
    apply in_map_iff in Hs as [k [Hk _]]. unfold submitCall in Hk.
    inversion Hk; subst. unfold Acm.batchOf in Hc. simpl in Hc.
    destruct (JSObject.get grouped zoneId) as [cs|] eqn:G; [|contradiction].
    pose proof (@get_allChanges _ _ _ _ (R grouped eq_refl) G) as Hall.
    rewrite Forall_forall in Hall.
    destruct (Hall _ Hc) as [option [record [I1 [I2 [I3 ->]]]]].
    exists option, record. repeat split; assumption.
  - intros grouped lookups R L i option Hi.
    rewrite R in S.
    destruct (Acm.resolveChanges aws action options st0)
      as [r st1] eqn:RC. cbn [fst] in R. subst r.
    unfold Acm.resolveChanges, Acm.pendingOptions, bind in RC.
    fold options in RC. fold pending in RC.
    pose proof (@startAll_length P _ _ (Acm.getZoneIdByFQDN aws)
                  (map DomainName pending) st0) as SL.
    destruct (startAll (Acm.getZoneIdByFQDN aws) (map DomainName pending) st0)
      as [[rs|e|] st2]; try discriminate.
    cbn [fst] in L. inversion L; subst lookups. clear L.
    specialize (SL rs eq_refl). rewrite length_map in SL.
    unfold await at 1 in RC. pose proof (all_settled rs) as A.
    destruct (all rs) as [e|zoneIds]; [discriminate|]. subst rs.
    rewrite length_map in SL. unfold ret at 1 in RC. unfold await in RC.
    destruct (Acm.groupChanges action zoneIds (map ResourceRecordOf pending) [])
      as [e|o] eqn:G; [discriminate|].
    inversion RC; subst o st2. clear RC.
    assert (Hz : exists z, nth_error zoneIds i = Some z).
    { destruct (nth_error zoneIds i) as [z|] eqn:N; [now exists z|].
      apply nth_error_None in N.
      assert (i < List.length pending)%nat
        by (apply nth_error_Some; now rewrite Hi).
      lia. }
    destruct Hz as [z Hz].
    destruct (groupChanges_records _ _ _ _ _ G Hz) as [r Hr].
    pose proof (@changesOf_holds action _ _ _ _ _ Hz Hr) as Hin.
    pose proof (groupChanges_get _ _ _ _ z G) as Hget. simpl in Hget.
    rewrite nth_error_map, Hi in Hr. simpl in Hr. inversion Hr as [Hrec].
    destruct (changesOf action z zoneIds (map ResourceRecordOf pending))
      as [|c cs] eqn:CO; [contradiction|]. simpl in Hget.
    exists r, z, (Acm.batchOf arn grouped z), (Acm.validationChange action r).
    split; [exact Hrec|]. split; [now rewrite nth_error_map, Hz|].
    split; [|split].
    + rewrite S. right. apply in_or_app. right.
      apply in_map_iff. exists z. split; [reflexivity|].
      apply keys_in. now apply (get_own _ _ Hget).
    + unfold Acm.batchOf. rewrite Hget. exact Hin.
    + repeat split.
  - intros N. unfold Acm.publishCertValidationDNS.
    unfold bind at 1, request. subst st0. unfold described.
    destruct (describeCertificate aws arn (provider st)) as [r p0].
    simpl in D. subst r. cbn match. rewrite T, String.eqb_refl. cbn [negb].
    unfold Acm.resolveChanges, Acm.publishChanges, Acm.pendingOptions.
    fold options. fold pending. rewrite N. simpl.
    destruct (action =? DELETE); simpl; rewrite ?app_nil_r; reflexivity.
Qed.

End Published.

Example publishCertValidationDNS_www :
  Acm.publishCertValidationDNS Examples.account "arn:cert/www" UPSERT (start tt)
  = (Returned [Some "/change/C-Z2"],
     {| provider := tt;
        calls :=
          [DescribeCertificate "arn:cert/www";
           ListHostedZonesByName "example.com";
           TestDNSAnswer "Z2" "www.example.com" "NS";
           ChangeResourceRecordSets "Z2"
             (Acm.validationBatch "arn:cert/www"
                [Acm.validationChange UPSERT
                   (Examples.validationRecord "www.example.com")])] |}).
Proof. reflexivity. Qed.

Lemma publishCertValidationDNS_pending_only_witness :
  (exists record zoneId batch change,
      ResourceRecordOf (Examples.pendingOption "www.example.com")
      = Some record /\
      nth_error [@inr Error string "Z2"] 0 = Some (inr zoneId) /\
      In (ChangeResourceRecordSets zoneId batch)
         (issued (Acm.publishCertValidationDNS Examples.account
                    "arn:cert/www" UPSERT) (start tt)) /\
      In change (Changes batch) /\
      changeOfRecord UPSERT record change) /\
  Acm.publishCertValidationDNS Examples.account "arn:cert/validated" UPSERT
    (start tt)
  = (Returned [], described Examples.account "arn:cert/validated" (start tt)).
Proof.
  split.
  - apply (proj1 (proj2 (@publishCertValidationDNS_pending_only unit
                           Examples.account "arn:cert/www" UPSERT (start tt)
                           {| CertType := AMAZON_ISSUED_CERT_TYPE;
                              DomainValidationOptions :=
                                [Examples.pendingOption "www.example.com";
                                 Examples.validatedOption "done.example.com"] |}
                           eq_refl eq_refl))
             [("Z2", [Acm.validationChange UPSERT
                        (Examples.validationRecord "www.example.com")])]
             [inr "Z2"] eq_refl eq_refl 0%nat
             (Examples.pendingOption "www.example.com") eq_refl).
  - apply (proj2 (proj2 (@publishCertValidationDNS_pending_only unit
                           Examples.account "arn:cert/validated" UPSERT
                           (start tt)
                           {| CertType := AMAZON_ISSUED_CERT_TYPE;
                              DomainValidationOptions :=
                                [Examples.validatedOption "done.example.com"] |}
                           eq_refl eq_refl))).
    reflexivity.
Defined.

(** * Verifying a domain with the email service *)

Section VerifyDomain.

Variable P : Type.
Variable aws : AWS P.
Variable AWS_REGION : string.

(** The two ways [verifyDomain] reads its argument. *)
Lemma verifyDomain_cases (s action : string) (st : St P) :
  Ses.verifyDomain aws AWS_REGION (Some s) action st
  = if JS.includes "." s
    then bind (Ses.getZoneIdByName aws s)
              (fun hostedZoneId =>
                 Ses.verifyResolved aws AWS_REGION hostedZoneId s action) st
    else bind (request (GetHostedZone s) (getHostedZone aws s))
              (fun domainName =>
                 Ses.verifyResolved aws AWS_REGION s domainName action) st.
Proof.
  unfold Ses.verifyDomain. rewrite dotSplitLen_one.
  destruct (JS.includes "." s); cbn [negb].
  - unfold bind. destruct (Ses.getZoneIdByName aws s st) as [[z|e|] st1];
      reflexivity.
  - reflexivity.
Qed.

(** C9.  [verifyDomain] takes its argument for a hosted-zone id exactly
    when it has no dot: the argument is then the zone id, and the domain
    name is fetched with [getHostedZone].  With a dot in it, the argument
    is the domain name, and the zone id is resolved with
    [getZoneIdByName]. *)
Theorem verifyDomain_id_or_name (s action : string) (st : St P) :
  (JS.includes "." s = false ->
   Ses.verifyDomain aws AWS_REGION (Some s) action st
   = bind (request (GetHostedZone s) (getHostedZone aws s))
          (fun domainName =>
             Ses.verifyResolved aws AWS_REGION s domainName action) st) /\
  (JS.includes "." s = true ->
   Ses.verifyDomain aws AWS_REGION (Some s) action st
   = bind (Ses.getZoneIdByName aws s)
          (fun hostedZoneId =>
             Ses.verifyResolved aws AWS_REGION hostedZoneId s action) st).
Proof.
  unfold Ses.verifyDomain.
  assert (L : (List.length (JS.split "." s) =? 1)%nat
              = negb (JS.includes "." s)).
  { destruct (JS.includes "." s) eqn:E; cbn [negb].
    - apply Nat.eqb_neq. pose proof (split_length_sep _ _ E). lia.
    - now rewrite (split_no_sep _ _ E). }
  rewrite L. split; intros ->; cbn [negb].
  - reflexivity.
  - unfold bind. destruct (Ses.getZoneIdByName aws s st) as [[z|e|] st1];
      reflexivity.
Qed.

End VerifyDomain.

Lemma verifyDomain_id_or_name_witness :
  calls (snd (Ses.verifyDomain Examples.account "eu-west-1" (Some "Z2")
                UPSERT (start tt)))
  = [GetHostedZone "Z2";
     VerifyDomainIdentity "example.com."; VerifyDomainDkim "example.com.";
     ChangeResourceRecordSets "Z2"
       (Ses.verifyBatch "eu-west-1" UPSERT "example.com." "token0"
          ["dkim1"; "dkim2"; "dkim3"])] /\
  calls (snd (Ses.verifyDomain Examples.account "eu-west-1" (Some "example.com")
                UPSERT (start tt)))
  = [ListHostedZonesByName "example.com";
     VerifyDomainIdentity "example.com"; VerifyDomainDkim "example.com";
     ChangeResourceRecordSets "Z2"
       (Ses.verifyBatch "eu-west-1" UPSERT "example.com" "token0"
          ["dkim1"; "dkim2"; "dkim3"])].
Proof.
  split.
  - rewrite (proj1 (@verifyDomain_id_or_name unit Examples.account "eu-west-1"
                      "Z2" UPSERT (start tt)) eq_refl).
    reflexivity.
  - rewrite (proj2 (@verifyDomain_id_or_name unit Examples.account "eu-west-1"
                      "example.com" UPSERT (start tt)) eq_refl).
    reflexivity.
Defined.

Section VerifyDelete.

Variable P : Type.
Variable aws : AWS P.
Variable AWS_REGION : string.

(** The run of [verifyResolved] for a deletion, read off the replies of
    the four requests. *)
Lemma verifyResolved_delete_run (zoneId domain : string) (st : St P) :
  Ses.verifyResolved aws AWS_REGION zoneId domain DELETE st =
  let (r1, p1) := verifyDomainIdentity aws domain (provider st) in
  let (r2, p2) := verifyDomainDkim aws domain p1 in
  let tokens := [VerifyDomainIdentity domain; VerifyDomainDkim domain] in
  match r1, r2 with
  | Resolves token, Resolves dkims =>
      let (r3, p3) := deleteIdentity aws domain p2 in
      match r3 with
      | Resolves _ =>
          let batch := Ses.verifyBatch AWS_REGION DELETE domain token dkims in
          let (r4, p4) := changeResourceRecordSets aws zoneId batch p3 in
          (match r4 with
           | Resolves id =>
               Returned {| Ses.domainName := domain; Ses.changeId := id |}
           | Rejects code => Thrown (ProviderFailure code)
           end,
           {| provider := p4;
              calls := (calls st ++ tokens
                          ++ [DeleteIdentity domain;
                              ChangeResourceRecordSets zoneId batch])%list |})
      | Rejects code =>
          (Thrown (ProviderFailure code),
           {| provider := p3;
              calls := (calls st ++ tokens ++ [DeleteIdentity domain])%list |})
      end
  | Rejects code, _ =>
      (Thrown (ProviderFailure code),
       {| provider := p2; calls := (calls st ++ tokens)%list |})
  | Resolves _, Rejects code =>
      (Thrown (ProviderFailure code),
       {| provider := p2; calls := (calls st ++ tokens)%list |})
  end.
Proof.
  unfold Ses.verifyResolved, bind, settle, request, await, ret, throw.
  change (DELETE =? DELETE) with true. cbv iota. cbn [provider calls].
  destruct (verifyDomainIdentity aws domain (provider st)) as [[token|c1] p1];
    cbn [provider calls];
    destruct (verifyDomainDkim aws domain p1) as [[dkims|c2] p2];
    cbn [provider calls]; rewrite <- ?app_assoc; try reflexivity.
  destruct (deleteIdentity aws domain p2) as [[[]|c3] p3];
    cbn [provider calls]; rewrite <- ?app_assoc; try reflexivity.
  destruct (changeResourceRecordSets aws zoneId _ p3) as [[id|c4] p4];
    cbn [provider calls]; rewrite <- ?app_assoc; reflexivity.
Qed.

(** The log of [verifyResolved] for a deletion, and what a run that
    returns has been answered. *)
Lemma verifyResolved_delete_log (zoneId domain : string) (st : St P) :
  let run := Ses.verifyResolved aws AWS_REGION zoneId domain DELETE st in
  let identity := verifyDomainIdentity aws domain (provider st) in
  let dkim := verifyDomainDkim aws domain (snd identity) in
  let deleted := deleteIdentity aws domain (snd dkim) in
  calls (snd run)
  = (calls st
       ++ VerifyDomainIdentity domain :: VerifyDomainDkim domain
       :: match fst identity, fst dkim with
          | Resolves VerificationToken, Resolves DkimTokens =>
              DeleteIdentity domain
              :: match fst deleted with
                 | Resolves _ =>
                     [ChangeResourceRecordSets zoneId
                        (Ses.verifyBatch AWS_REGION DELETE domain
                           VerificationToken DkimTokens)]
                 | Rejects _ => []
                 end
          | _, _ => []
          end)%list /\
  (forall v,
      fst run = Returned v ->
      Ses.domainName v = domain /\
      exists VerificationToken DkimTokens,
        fst identity = Resolves VerificationToken /\
        fst dkim = Resolves DkimTokens /\
        fst deleted = Resolves tt /\
        fst (changeResourceRecordSets aws zoneId
               (Ses.verifyBatch AWS_REGION DELETE domain
                  VerificationToken DkimTokens) (snd deleted))
        = Resolves (Ses.changeId v)).
Proof.
  cbv zeta. rewrite verifyResolved_delete_run.
  destruct (verifyDomainIdentity aws domain (provider st)) as [[token|c1] p1];
    cbn [fst snd];
    destruct (verifyDomainDkim aws domain p1) as [[dkims|c2] p2];
    cbn [fst snd];
    try (split; [reflexivity | discriminate]).
  destruct (deleteIdentity aws domain p2) as [[[]|c3] p3]; cbn [fst snd];
    [| split; [reflexivity | discriminate]].
  destruct (changeResourceRecordSets aws zoneId
              (Ses.verifyBatch AWS_REGION DELETE domain token dkims) p3)
    as [[id|c4] p4] eqn:C; cbn [fst snd calls];
    (split; [reflexivity|]); [|discriminate].
  intros v H. inversion H; subst v. cbn [Ses.domainName Ses.changeId].
  split; [reflexivity|]. exists token, dkims.
  repeat split; try reflexivity. now rewrite C.
Qed.

(** When the zone does not resolve, [verifyDomain] fails with the error
    of the resolving request, which is then its only request. *)
Lemma verifyDomain_zone_not_resolved (s action : string) (st : St P)
      (e : Error) :
  fst ((if JS.includes "." s then Ses.getZoneIdByName aws s
        else request (GetHostedZone s) (getHostedZone aws s)) st)
  = Thrown e ->
  let run := Ses.verifyDomain aws AWS_REGION (Some s) action st in
  fst run = Thrown e /\
  calls (snd run)
  = (calls st ++ [if JS.includes "." s then ListHostedZonesByName s
                  else GetHostedZone s])%list.
Proof.
  intros H run. subst run. rewrite verifyDomain_cases.
  destruct (JS.includes "." s); unfold bind.
  - rewrite getZoneIdByName_same in *.
    pose proof (getZoneIdByName_calls aws s st) as C.
    destruct (Acm.getZoneIdByName aws s st) as [[z|e'|] st1];
      try discriminate.
    simpl in *. inversion H. now split.
  - unfold request in *.
    destruct (getHostedZone aws s (provider st)) as [[d|code] p1];
      try discriminate.
    simpl in *. inversion H. now split.
Qed.

(** C8.  [verifyDomain] is called for a [DELETE] with [s], and the zone
    is resolved: to the id [zoneId] and to [domain], the domain of the
    zone.  The two token requests are then issued for that domain, as for
    any other action.  When both are answered, the identity of that
    domain is deleted, and only when that deletion has succeeded is the
    change batch submitted, to that zone, made of the records that the
    two answers name.  Nothing else is requested, and a run that returns
    has issued all four requests. *)
Theorem verifyDomain_delete_order (s zoneId domain : string)
        (st st1 : St P) :
  zoneResolved aws s zoneId domain st st1 ->
  let run := Ses.verifyDomain aws AWS_REGION (Some s) DELETE st in
  let identity := verifyDomainIdentity aws domain (provider st1) in
  let dkim := verifyDomainDkim aws domain (snd identity) in
  let deleted := deleteIdentity aws domain (snd dkim) in
  calls st1
  = (calls st ++ [if JS.includes "." s then ListHostedZonesByName s
                  else GetHostedZone s])%list /\
  calls (snd run)
  = (calls st1
       ++ VerifyDomainIdentity domain :: VerifyDomainDkim domain
       :: match fst identity, fst dkim with
          | Resolves VerificationToken, Resolves DkimTokens =>
              DeleteIdentity domain
              :: match fst deleted with
                 | Resolves _ =>
                     [ChangeResourceRecordSets zoneId
                        (Ses.verifyBatch AWS_REGION DELETE domain
                           VerificationToken DkimTokens)]
                 | Rejects _ => []
                 end
          | _, _ => []
          end)%list /\
  (forall v,
      fst run = Returned v ->
      Ses.domainName v = domain /\
      exists VerificationToken DkimTokens,
        fst identity = Resolves VerificationToken /\
        fst dkim = Resolves DkimTokens /\
        fst deleted = Resolves tt /\
        fst (changeResourceRecordSets aws zoneId
               (Ses.verifyBatch AWS_REGION DELETE domain
                  VerificationToken DkimTokens) (snd deleted))
        = Resolves (Ses.changeId v)).
Proof.
  intros Z run identity dkim deleted. unfold zoneResolved in Z.
  assert (E : run = Ses.verifyResolved aws AWS_REGION zoneId domain DELETE st1
              /\ calls st1
                 = (calls st ++ [if JS.includes "." s
                                 then ListHostedZonesByName s
                                 else GetHostedZone s])%list).
  { subst run. rewrite verifyDomain_cases.
    destruct (JS.includes "." s); destruct Z as [Z ->]; unfold bind;
      rewrite Z; (split; [reflexivity|]).
    - rewrite getZoneIdByName_same in Z.
      pose proof (getZoneIdByName_calls aws s st) as C.
      now rewrite Z in C.
    - unfold request in Z.
      destruct (getHostedZone aws s (provider st)) as [[d|code] p1];
        inversion Z. reflexivity. }
  destruct E as [-> C]. split; [exact C|].
  apply verifyResolved_delete_log.
Qed.

End VerifyDelete.

Example verifyDomain_delete_by_id :
  Ses.verifyDomain Examples.account "eu-west-1" (Some "Z2") DELETE (start tt)
  = (Returned {| Ses.domainName := "example.com.";
                 Ses.changeId := "/change/C-Z2" |},
     {| provider := tt;
        calls :=
          [GetHostedZone "Z2";
           VerifyDomainIdentity "example.com."; VerifyDomainDkim "example.com.";
           DeleteIdentity "example.com.";
           ChangeResourceRecordSets "Z2"
             (Ses.verifyBatch "eu-west-1" DELETE "example.com." "token0"
                ["dkim1"; "dkim2"; "dkim3"])] |}).
Proof. reflexivity. Qed.

Lemma verifyDomain_delete_order_witness :
  calls (snd (Ses.verifyDomain Examples.account "eu-west-1" (Some "Z2")
                DELETE (start tt)))
  = [GetHostedZone "Z2";
     VerifyDomainIdentity "example.com."; VerifyDomainDkim "example.com.";
     DeleteIdentity "example.com.";
     ChangeResourceRecordSets "Z2"
       (Ses.verifyBatch "eu-west-1" DELETE "example.com." "token0"
          ["dkim1"; "dkim2"; "dkim3"])] /\
  calls (snd (Ses.verifyDomain Examples.account "eu-west-1"
                (Some "example.com") DELETE (start tt)))
  = [ListHostedZonesByName "example.com";
     VerifyDomainIdentity "example.com"; VerifyDomainDkim "example.com";
     DeleteIdentity "example.com";
     ChangeResourceRecordSets "Z2"
       (Ses.verifyBatch "eu-west-1" DELETE "example.com" "token0"
          ["dkim1"; "dkim2"; "dkim3"])].
Proof.
  split.
  - rewrite (proj1 (proj2 (@verifyDomain_delete_order unit Examples.account
                             "eu-west-1" "Z2" "Z2" "example.com." (start tt)
                             {| provider := tt;
                                calls := [GetHostedZone "Z2"] |}
                             (conj eq_refl eq_refl)))).
    reflexivity.
  - rewrite (proj1 (proj2 (@verifyDomain_delete_order unit Examples.account
                             "eu-west-1" "example.com" "Z2" "example.com"
                             (start tt)
                             {| provider := tt;
                                calls :=
                                  [ListHostedZonesByName "example.com"] |}
                             (conj eq_refl eq_refl)))).
    reflexivity.
Defined.

(** * Runs that do not depend on the fuel *)

Section Terminates.

Variable P : Type.

Lemma terminates_ret {A} (a : A) : terminates (@ret P A a).
Proof. intros st. discriminate. Qed.

Lemma terminates_throw {A} (e : Error) : terminates (@throw P A e).
Proof. intros st. discriminate. Qed.

Lemma terminates_await {A} (r : Error + A) : terminates (@await P A r).
Proof. destruct r; [apply terminates_throw | apply terminates_ret]. Qed.

Lemma terminates_request {A} (c : Call) (api : P -> Reply A * P) :
  terminates (request c api).
Proof.
  intros st. unfold request.
  destruct (api (provider st)) as [[a|code] p']; discriminate.
Qed.

Lemma terminates_bind {A B} (m : M P A) (k : A -> M P B) :
  terminates m -> (forall a, terminates (k a)) -> terminates (bind m k).
Proof.
  intros Hm Hk st. unfold bind. specialize (Hm st).
  destruct (m st) as [[a|e|] st1]; [apply Hk | discriminate | contradiction].
Qed.

Lemma terminates_settle {A} (m : M P A) : terminates m -> terminates (settle m).
Proof.
  intros Hm st. unfold settle. specialize (Hm st).
  destruct (m st) as [[a|e|] st1]; [discriminate | discriminate | contradiction].
Qed.

Lemma terminates_catch {A} (m : M P A) (h : Error -> M P A) :
  terminates m -> (forall e, terminates (h e)) -> terminates (catch m h).
Proof.
  intros Hm Hh st. unfold catch. specialize (Hm st).
  destruct (m st) as [[a|e|] st1]; [discriminate | apply Hh | contradiction].
Qed.

Lemma terminates_startAll {A B} (f : A -> M P B) (l : list A) :
  (forall a, terminates (f a)) -> terminates (startAll f l).
Proof.
  intros Hf. induction l as [|a l IH]; simpl; [apply terminates_ret|].
  apply terminates_bind; [apply terminates_settle, Hf|]. intros r.
  apply terminates_bind; [exact IH|]. intros rs. apply terminates_ret.
Qed.

Variable aws : AWS P.

Lemma terminates_getZoneIdByName (d : string) :
  terminates (Acm.getZoneIdByName aws d).
Proof.
  unfold Acm.getZoneIdByName.
  apply terminates_bind; [apply terminates_request|].
  intros [[|zone zs]|]; try apply terminates_throw.
  destruct (negb _); [apply terminates_throw | apply terminates_ret].
Qed.

Lemma terminates_walk (n : string) (rest : list string) :
  forall d, terminates (Acm.walk aws n rest d).
Proof.
  induction rest as [|label rest IH]; intros d; simpl.
  - apply terminates_throw.
  - apply terminates_bind; [apply terminates_getZoneIdByName|]. intros z.
    apply terminates_bind; [apply terminates_request|]. intros rd.
    destruct (_ =? _)%nat; [apply terminates_ret | apply IH].
Qed.

Lemma terminates_getZoneIdByFQDN (fqdn : string) :
  terminates (Acm.getZoneIdByFQDN aws fqdn).
Proof.
  unfold Acm.getZoneIdByFQDN.
  destruct (rev _); [apply terminates_throw | apply terminates_walk].
Qed.

Lemma terminates_publishCertValidationDNS (arn action : string) :
  terminates (Acm.publishCertValidationDNS aws arn action).
Proof.
  unfold Acm.publishCertValidationDNS.
  apply terminates_bind; [apply terminates_request|]. intros cert.
  destruct (negb _); [apply terminates_throw|].
  apply terminates_bind.
  - unfold Acm.resolveChanges.
    apply terminates_bind;
      [apply terminates_startAll, terminates_getZoneIdByFQDN|].
    intros rs. apply terminates_bind; [apply terminates_await|].
    intros zs. apply terminates_await.
  - intros Changes. unfold Acm.publishChanges.
    apply terminates_bind.
    + apply terminates_startAll. intros z. apply terminates_request.
    + intros rs. destruct (action =? DELETE); [apply terminates_ret|].
      apply terminates_bind; [apply terminates_await|].
      intros ids. apply terminates_ret.
Qed.

Variable AWS_REGION : string.

Lemma terminates_verifyDomain (idOrName : option string) (action : string) :
  terminates (Ses.verifyDomain aws AWS_REGION idOrName action).
Proof.
  unfold Ses.verifyDomain. destruct idOrName as [s|];
    [|apply terminates_throw].
  apply terminates_bind.
  { destruct (_ =? _)%nat;
      [apply terminates_ret | apply terminates_getZoneIdByName]. }
  intros z. apply terminates_bind.
  { destruct (_ =? _)%nat;
      [apply terminates_request | apply terminates_ret]. }
  intros d. unfold Ses.verifyResolved.
  apply terminates_bind; [apply terminates_settle, terminates_request|].
  intros r1.
  apply terminates_bind; [apply terminates_settle, terminates_request|].
  intros r2.
  apply terminates_bind; [apply terminates_await|]. intros token.
  apply terminates_bind; [apply terminates_await|]. intros dkims.
  apply terminates_bind.
  { destruct (action =? DELETE);
      [apply terminates_request | apply terminates_ret]. }
  intros _. apply terminates_bind; [apply terminates_request|].
  intros id. apply terminates_ret.
Qed.

(** With one page per listing, one unit of fuel is enough for the
    pagination loop. *)
Lemma terminates_lookupCertificateInternal (fuel : nat)
      (domainName : option string) (i : nat) :
  singlePage aws ->
  terminates (Acm.lookupCertificateInternal aws (S fuel) domainName i).
Proof.
  intros S1 st. unfold Acm.lookupCertificateInternal, bind.
  cbn [Acm.listPages JS.truthy_opt JS.truthy String.eqb negb].
  unfold bind, request. cbn [JS.strict_eq]. rewrite String.eqb_refl.
  specialize (S1 [PENDING_VALIDATION] None (provider st)).
  destruct (listCertificates aws [PENDING_VALIDATION] None (provider st))
    as [[resp|code] p1]; cbn [fst] in S1; [|cbn; discriminate].
  assert (L : forall certs st',
             Acm.listPages aws fuel (NextToken resp) certs st'
             = (Returned certs, st')).
  { intros certs st'. destruct fuel; cbn [Acm.listPages]; now rewrite S1. }
  rewrite L.
  destruct (find _ _) as [cert|];
    [destruct (JS.truthy_opt (CertificateArn cert))|]; cbn; discriminate.
Qed.

Lemma terminates_intervalBudget {A} (func : nat -> M P (option A)) (n : nat) :
  (forall i, terminates (func i)) ->
  forall i, terminates (Acm.intervalBudget func n i).
Proof.
  intros Hf. induction n as [|n IH]; intros i; cbn [Acm.intervalBudget].
  - apply terminates_ret.
  - apply terminates_bind; [apply Hf|].
    intros [a|]; [apply terminates_ret | apply IH].
Qed.

Lemma terminates_lookupCertificate (fuel : nat) (domainName : option string)
      (timeoutMs : Z) :
  singlePage aws -> (timeoutMs =? 0)%Z = false ->
  terminates (Acm.lookupCertificate aws (S fuel) domainName (Some timeoutMs)).
Proof.
  intros S1 Hz. unfold Acm.lookupCertificate, Acm.iterationsOption, Acm.interval.
  rewrite Hz. apply terminates_bind.
  - apply terminates_intervalBudget. intros i.
    now apply terminates_lookupCertificateInternal.
  - intros [arn|]; [|apply terminates_throw].
    destruct (JS.truthy arn); [apply terminates_ret | apply terminates_throw].
Qed.

End Terminates.

(** * The deletion of a resource that was never created *)

Section Sentinel.

Variable P : Type.
Variable aws : AWS P.
Variable cfnCR : CfnCR.t.
Variable AWS_REGION : string.

(** C3 (amended).  For a Delete event whose physical id is the one
    reported when none was assigned, both handlers attempt the deletion
    with the provider, and report success with that id whatever the
    attempt comes to: with the change ids when it succeeds, with a null
    data payload when it fails at any step.  They never report a
    failure.  The attempt of the SES handler always comes to an end; so
    does the attempt of the ACM handler when the time left for the lookup
    is not zero and the listings of certificates fit in one page. *)
Theorem delete_of_unassigned_succeeds :
  (forall fuel (event : Acm.Event) context (st : St P),
      Acm.RequestType event = CfnCR.DELETE cfnCR ->
      Acm.PhysicalResourceId event
      = Some (CfnCR.DEFAULT_PHYSICAL_RESOURCE_ID cfnCR) ->
      let lambdaTimeout :=
        (Acm.getRemainingTimeInMillis context
         - Acm.TIMEOUT_MARGIN_OF_SAFETY_MS)%Z in
      let attempt :=
        bind (Acm.lookupCertificate aws fuel
                (Acm.CertificateFQDN (Acm.Properties event))
                (Some lambdaTimeout))
             (fun certificateArn =>
                Acm.publishCertValidationDNS aws certificateArn DELETE) in
      Acm.handler aws cfnCR fuel event context st =
      match attempt st with
      | (Returned changeIds, st') =>
          (Returned (Acm.Success
                       (Some (CfnCR.DEFAULT_PHYSICAL_RESOURCE_ID cfnCR))
                       (Some (Acm.ChangeIds changeIds))), st')
      | (Thrown _, st') =>
          (Returned (Acm.Success
                       (Some (CfnCR.DEFAULT_PHYSICAL_RESOURCE_ID cfnCR))
                       None), st')
      | (Pending, st') => (Pending, st')
      end /\
      (singlePage aws -> (lambdaTimeout =? 0)%Z = false ->
       (fuel =? 0)%nat = false ->
       fst (attempt st) <> Pending)) /\
  (forall (event : Ses.Event) (st : St P),
      Ses.RequestType event = CfnCR.DELETE cfnCR ->
      (CfnCR.DELETE cfnCR =? CfnCR.CREATE cfnCR) = false ->
      (CfnCR.DELETE cfnCR =? CfnCR.UPDATE cfnCR) = false ->
      Ses.PhysicalResourceId event
      = Some (CfnCR.DEFAULT_PHYSICAL_RESOURCE_ID cfnCR) ->
      let attempt :=
        Ses.verifyDomain aws AWS_REGION
          (Ses.zoneIdOrNameOf (Ses.Properties event)) DELETE in
      Ses.handler aws cfnCR AWS_REGION event st =
      match attempt st with
      | (Returned v, st') =>
          (Returned (Ses.Success
                       (Some (CfnCR.DEFAULT_PHYSICAL_RESOURCE_ID cfnCR))
                       (Some (Ses.ChangeId (Ses.changeId v)))), st')
      | (Thrown _, st') =>
          (Returned (Ses.Success
                       (Some (CfnCR.DEFAULT_PHYSICAL_RESOURCE_ID cfnCR))
                       None), st')
      | (Pending, st') => (Pending, st')
      end /\
      fst (attempt st) <> Pending).
Proof.
  split.
  - intros fuel event context st HT HP lambdaTimeout attempt. subst attempt.
    split.
    + unfold Acm.handler, Acm.processCREvent, catch, Acm.userHandlerLogic.
      fold lambdaTimeout. unfold bind.
      destruct (Acm.lookupCertificate aws fuel
                  (Acm.CertificateFQDN (Acm.Properties event))
                  (Some lambdaTimeout) st) as [[arn|e|] st1].
      * unfold ret at 1. unfold Acm.method. rewrite HT, String.eqb_refl.
        cbn [Acm.delete]. unfold bind.
        destruct (Acm.publishCertValidationDNS aws arn DELETE st1)
          as [[ids|e|] st2]; cbn [fst snd].
        -- unfold ret, Acm.sendSuccess, ret. now rewrite HP.
        -- rewrite HP. cbn [JS.strict_eq]. rewrite String.eqb_refl.
           reflexivity.
        -- reflexivity.
      * rewrite HT, HP. cbn [JS.strict_eq]. rewrite !String.eqb_refl.
        reflexivity.
      * reflexivity.
    + intros S1 Hz Hf. destruct fuel as [|fuel]; [discriminate|].
      apply terminates_bind.
      * now apply terminates_lookupCertificate.
      * intros arn. apply terminates_publishCertValidationDNS.
  - intros event st HT HC HU HP attempt. subst attempt. split.
    + unfold Ses.handler. rewrite HT, HC, HU, String.eqb_refl.
      unfold catch, bind.
      destruct (Ses.verifyDomain aws AWS_REGION
                  (Ses.zoneIdOrNameOf (Ses.Properties event)) DELETE st)
        as [[v|e|] st1].
      * unfold Ses.sendSuccess, ret. now rewrite HP.
      * rewrite HP. cbn [JS.strict_eq]. rewrite String.eqb_refl. reflexivity.
      * reflexivity.
    + apply terminates_verifyDomain.
Qed.

End Sentinel.

(** C3: the deletion is attempted.  With a certificate and a zone the
    provider knows, the handlers issue their requests and report success
    with the change ids, not with a null payload; with a zone the provider
    does not know, the payload is null, after a request to the provider. *)
Lemma delete_of_unassigned_calls_provider :
  Acm.handler Examples.account Examples.cfn 5 Examples.acmDelete
    Examples.tenSeconds (start tt)
  = (Returned (Acm.Success (Some "DEFAULT_PHYSICAL_RESOURCE_ID")
                 (Some (Acm.ChangeIds [Some "/change/C-Z2"]))),
     {| provider := tt;
        calls :=
          [ListCertificates [PENDING_VALIDATION] None;
           DescribeCertificate "arn:cert/www";
           ListHostedZonesByName "example.com";
           TestDNSAnswer "Z2" "www.example.com" "NS";
           ChangeResourceRecordSets "Z2"
             (Acm.validationBatch "arn:cert/www"
                [Acm.validationChange DELETE
                   (Examples.validationRecord "www.example.com")])] |}) /\
  Ses.handler Examples.account Examples.cfn "eu-west-1" Examples.sesDelete
    (start tt)
  = (Returned (Ses.Success (Some "DEFAULT_PHYSICAL_RESOURCE_ID")
                 (Some (Ses.ChangeId "/change/C-Z2"))),
     {| provider := tt;
        calls :=
          [GetHostedZone "Z2";
           VerifyDomainIdentity "example.com."; VerifyDomainDkim "example.com.";
           DeleteIdentity "example.com.";
           ChangeResourceRecordSets "Z2"
             (Ses.verifyBatch "eu-west-1" DELETE "example.com." "token0"
                ["dkim1"; "dkim2"; "dkim3"])] |}) /\
  Ses.handler Examples.account Examples.cfn "eu-west-1"
    Examples.sesDeleteUnknown (start tt)
  = (Returned (Ses.Success (Some "DEFAULT_PHYSICAL_RESOURCE_ID") None),
     {| provider := tt; calls := [GetHostedZone "Z404"] |}).
Proof. repeat split. Qed.

Lemma delete_of_unassigned_succeeds_witness :
  fst (Acm.handler Examples.account Examples.cfn 5 Examples.acmDelete
         Examples.tenSeconds (start tt))
  = Returned (Acm.Success (Some "DEFAULT_PHYSICAL_RESOURCE_ID")
                (Some (Acm.ChangeIds [Some "/change/C-Z2"]))) /\
  fst (Ses.handler Examples.account Examples.cfn "eu-west-1"
         Examples.sesDeleteUnknown (start tt))
  = Returned (Ses.Success (Some "DEFAULT_PHYSICAL_RESOURCE_ID") None).
Proof.
  split.
  - rewrite (proj1 (proj1 (@delete_of_unassigned_succeeds unit Examples.account
                             Examples.cfn "eu-west-1")
                          5%nat Examples.acmDelete Examples.tenSeconds
                          (start tt) eq_refl eq_refl)).
    reflexivity.
  - rewrite (proj1 (proj2 (@delete_of_unassigned_succeeds unit Examples.account
                             Examples.cfn "eu-west-1")
                          Examples.sesDeleteUnknown (start tt)
                          eq_refl eq_refl eq_refl eq_refl)).
    reflexivity.
Defined.

(** * Polling for the certificate *)

Section Polling.

Variable P : Type.
Variable aws : AWS P.

(** The poller with a budget runs at most that many iterations. *)
Lemma intervalBudget_iterated {A} (func : nat -> M P (option A)) (n : nat) :
  forall i st,
    exists k, (k <= n)%nat /\
              iterated func k i st (snd (Acm.intervalBudget func n i st)).
Proof.
  induction n as [|n IH]; intros i st.
  - exists 0%nat. split; [lia | constructor].
  - cbn [Acm.intervalBudget]. unfold bind.
    destruct (func i st) as [[[a|]|e|] st1] eqn:E.
    + exists 1%nat. split; [lia|]. constructor. rewrite E. constructor.
    + destruct (IH (S i) st1) as [k [L I]]. exists (S k). split; [lia|].
      constructor. now rewrite E.
    + exists 1%nat. split; [lia|]. constructor. rewrite E. constructor.
    + exists 1%nat. split; [lia|]. constructor. rewrite E. constructor.
Qed.

(** When no iteration asks to stop, the budget is used up. *)
Lemma intervalBudget_noMatch {A} (func : nat -> M P (option A)) (n : nat) :
  forall i st,
    noMatchWithin func n i st = true ->
    fst (Acm.intervalBudget func n i st) = Returned None /\
    iterated func n i st (snd (Acm.intervalBudget func n i st)).
Proof.
  induction n as [|n IH]; intros i st H.
  - split; [reflexivity | constructor].
  - cbn [Acm.intervalBudget noMatchWithin] in *. unfold bind.
    destruct (func i st) as [[[a|]|e|] st1] eqn:E; try discriminate.
    destruct (IH _ _ H) as [R I]. split; [exact R|].
    constructor. now rewrite E.
Qed.

(** What one iteration comes to: a certificate ARN that is not empty,
    nothing, or the rejection of a page fetch. *)
Lemma listPages_outcome (fuel : nat) :
  forall nextToken certs (st : St P) e,
    fst (Acm.listPages aws fuel nextToken certs st) = Thrown e ->
    exists code, e = ProviderFailure code.
Proof.
  induction fuel as [|fuel IH]; intros nextToken certs st e;
    cbn [Acm.listPages]; destruct (JS.truthy_opt nextToken);
    try discriminate.
  unfold bind, request.
  destruct (listCertificates aws _ _ (provider st)) as [[resp|code] p1].
  - apply IH.
  - cbn. intros H. inversion H. now exists code.
Qed.

Lemma lookupCertificateInternal_outcome (fuel : nat)
      (domainName : option string) (i : nat) (st : St P) :
  match fst (Acm.lookupCertificateInternal aws fuel domainName i st) with
  | Returned (Some arn) => JS.truthy arn = true
  | Returned None => True
  | Thrown e => exists code, e = ProviderFailure code
  | Pending => True
  end.
Proof.
  unfold Acm.lookupCertificateInternal, bind.
  pose proof (listPages_outcome fuel (Some "start") [] st) as L.
  destruct (Acm.listPages aws fuel (Some "start") [] st) as [[certs|e|] st1].
  - destruct (find _ certs) as [cert|]; [|exact I].
    destruct (CertificateArn cert) as [arn|]; [|exact I].
    cbn [JS.truthy_opt]. destruct (JS.truthy arn) eqn:T; [exact T | exact I].
  - now apply L.
  - exact I.
Qed.

(** Without a budget the lookup never fails with [LookupTimedOut]: it
    returns, or fails with the rejection of a page fetch, or goes on. *)
Lemma lookupCertificate_unbounded (fuel : nat) (domainName : option string)
      (st : St P) :
  fst (Acm.lookupCertificate aws fuel domainName None st)
  <> Thrown LookupTimedOut.
Proof.
  unfold Acm.lookupCertificate, Acm.iterationsOption, Acm.interval, bind.
  generalize 1%nat at 1. generalize fuel at 1. intros n. revert st.
  induction n as [|n IH]; intros st i; [discriminate|].
  cbn [Acm.intervalUnbounded]. unfold bind.
  pose proof (lookupCertificateInternal_outcome fuel domainName i st) as O.
  destruct (Acm.lookupCertificateInternal aws fuel domainName i st)
    as [[[arn|]|e|] st1]; cbn [fst] in O.
  - unfold ret. rewrite O. discriminate.
  - apply IH.
  - destruct O as [code ->]. discriminate.
  - discriminate.
Qed.

(** A deadline of zero is read as no deadline: [if (timeoutMs)] is false
    for it, and the budget of iterations is not set. *)
Lemma lookupCertificate_zero_is_none (fuel : nat)
      (domainName : option string) (st : St P) :
  Acm.lookupCertificate aws fuel domainName (Some 0%Z) st
  = Acm.lookupCertificate aws fuel domainName None st.
Proof. reflexivity. Qed.

(** With a deadline of one interval or more, [lookupCertificate] runs at
    most [floor(deadline / interval)] iterations of the listing, and when
    none of them finds the certificate it fails with [LookupTimedOut]
    after that many. *)
Lemma lookupCertificate_budget (fuel : nat) (domainName : option string)
      (st : St P) (timeoutMs : Z) :
  (Acm.WAIT_BETWEEN_REQS_MS <= timeoutMs)%Z ->
  let budget := Z.to_nat (timeoutMs / Acm.WAIT_BETWEEN_REQS_MS) in
  let pass := Acm.lookupCertificateInternal aws fuel domainName in
  let run := Acm.lookupCertificate aws fuel domainName (Some timeoutMs) st in
  (exists k, (k <= budget)%nat /\ iterated pass k 1 st (snd run)) /\
  (noMatchWithin pass budget 1 st = true ->
   fst run = Thrown LookupTimedOut /\
   iterated pass budget 1 st (snd run)).
Proof.
  intros Hz budget pass run.
  assert (Z0 : (timeoutMs =? 0)%Z = false)
    by (apply Z.eqb_neq; unfold Acm.WAIT_BETWEEN_REQS_MS in Hz; lia).
  assert (E : run =
              match Acm.intervalBudget pass budget 1 st with
              | (Returned (Some arn), st') =>
                  (if JS.truthy arn then Returned arn
                   else Thrown LookupTimedOut, st')
              | (Returned None, st') => (Thrown LookupTimedOut, st')
              | (Thrown e, st') => (Thrown e, st')
              | (Pending, st') => (Pending, st')
              end).
  { subst run. unfold Acm.lookupCertificate, Acm.iterationsOption, Acm.interval.
    rewrite Z0. fold budget. fold pass. unfold bind.
    destruct (Acm.intervalBudget pass budget 1 st) as [[[arn|]|e|] st1];
      try reflexivity.
    now destruct (JS.truthy arn). }
  split.
  - destruct (intervalBudget_iterated pass budget 1 st) as [k [L I]].
    exists k. split; [exact L|]. rewrite E.
    destruct (Acm.intervalBudget pass budget 1 st) as [[[arn|]|e|] st1];
      exact I.
  - intros H. destruct (intervalBudget_noMatch pass budget 1 st H) as [R I].
    rewrite E.
    destruct (Acm.intervalBudget pass budget 1 st) as [[[arn|]|e|] st1];
      try discriminate.
    split; [reflexivity | exact I].
Qed.

End Polling.

Example lookupCertificate_two_iterations :
  Acm.lookupCertificate Examples.account 3
    (Some "missing.example.com") (Some 2500%Z) (start tt)
  = (Thrown LookupTimedOut,
     {| provider := tt;
        calls := [ListCertificates [PENDING_VALIDATION] None;
                  ListCertificates [PENDING_VALIDATION] None] |}).
Proof. reflexivity. Qed.

(** C6.  A deadline of zero is shorter than one interval, and the lookup
    runs with it as it does without a deadline.  With a certificate that
    the second listing holds, it fetches the listing twice and returns the
    certificate, where a budget of [floor(0 / 1000)] iterations allows no
    second fetch and ends in [LookupTimedOut].  With a certificate that no
    listing holds, it fetches the listing again and again and has not
    failed with [LookupTimedOut] after five fetches. *)
Theorem lookupCertificate_zero_deadline :
  Acm.lookupCertificate Examples.requesting 5
    (Some "www.example.com") (Some 0%Z) (start 0%nat)
  = (Returned "arn:cert/www",
     {| provider := 2%nat;
        calls := [ListCertificates [PENDING_VALIDATION] None;
                  ListCertificates [PENDING_VALIDATION] None] |}) /\
  Acm.lookupCertificate Examples.account 5
    (Some "missing.example.com") (Some 0%Z) (start tt)
  = (Pending,
     {| provider := tt;
        calls := repeat (ListCertificates [PENDING_VALIDATION] None) 5 |}).
Proof. split; reflexivity. Qed.

(** * Further properties of the zone lookup by FQDN *)

Section FQDN.

Variable P : Type.
Variable aws : AWS P.

(** X1.  A name that has a single label once its trailing separator is
    removed (the empty name among them) has no candidate zone:
    [getZoneIdByFQDN] fails with [ZoneNotDeterminable] without a request
    to the provider. *)
Theorem getZoneIdByFQDN_single_label (fqdn : string) (st : St P) :
  JS.includes "." (Acm.normalize fqdn) = false ->
  Acm.getZoneIdByFQDN aws fqdn st = (Thrown ZoneNotDeterminable, st).
Proof.
  intros H. unfold Acm.getZoneIdByFQDN.
  now rewrite (split_no_sep _ _ H).
Qed.

Lemma normalize_trailing_dot (b : string) :
  Acm.normalize (b ++ ".") = b.
Proof.
  unfold Acm.normalize.
  assert (E : JS.endsWith (b ++ ".") "." = true)
    by (apply endsWith_dot_iff; now exists b).
  rewrite E, slice_0_neg1. apply dropLast_snoc.
Qed.

(** X2.  One trailing separator does not count: for a name [b] that does
    not end in the separator, [getZoneIdByFQDN] runs on [b ++ "."] exactly
    as on [b], with the same requests and the same result. *)
Theorem getZoneIdByFQDN_trailing_dot (b : string) (st : St P) :
  JS.endsWith b "." = false ->
  Acm.getZoneIdByFQDN aws (b ++ ".") st = Acm.getZoneIdByFQDN aws b st.
Proof.
  intros H. unfold Acm.getZoneIdByFQDN.
  rewrite normalize_trailing_dot.
  unfold Acm.normalize. now rewrite H.
Qed.

Lemma walk_calls_bound (n : string) (rest : list string) :
  forall (d : string) (st : St P),
  exists l,
    calls (snd (Acm.walk aws n rest d st)) = (calls st ++ l)%list /\
    Forall isLookup l /\
    (List.length l <= 2 * List.length rest)%nat.
Proof.
  induction rest as [|label rest IH]; intros d st.
  - exists []. simpl. rewrite app_nil_r. repeat split; [constructor | lia].
  - rewrite walk_cons.
    pose proof (getZoneIdByName_calls aws (label ++ "." ++ d) st) as C.
    destruct (Acm.getZoneIdByName aws (label ++ "." ++ d) st) as [[z|e|] st1];
      simpl in C.
    + destruct (fst (testDNSAnswer aws z n "NS" (provider st1)))
        as [[|r rd]|code].
      * exists [ListHostedZonesByName (label ++ "." ++ d);
                TestDNSAnswer z n "NS"].
        simpl. rewrite C, <- app_assoc.
        repeat split; [repeat constructor | lia].
      * destruct (IH (label ++ "." ++ d) (tested aws z n st1))
          as [l [E [F L]]].
        exists ([ListHostedZonesByName (label ++ "." ++ d);
                 TestDNSAnswer z n "NS"] ++ l)%list.
        rewrite E. simpl. rewrite C, <- !app_assoc.
        repeat split; [repeat constructor; assumption | simpl; lia].
      * exists [ListHostedZonesByName (label ++ "." ++ d);
                TestDNSAnswer z n "NS"].
        simpl. rewrite C, <- app_assoc.
        repeat split; [repeat constructor | lia].
    + exists [ListHostedZonesByName (label ++ "." ++ d)]. simpl.
      repeat split; [assumption | repeat constructor | lia].
    + exists [ListHostedZonesByName (label ++ "." ++ d)]. simpl.
      repeat split; [assumption | repeat constructor | lia].
Qed.

(** X3.  [getZoneIdByFQDN] only reads: every request it issues is a zone
    listing or a delegation test, and there are at most two of them for
    each label of the normalized name but the last. *)
Theorem getZoneIdByFQDN_requests_bound (fqdn : string) (st : St P) :
  exists l,
    calls (snd (Acm.getZoneIdByFQDN aws fqdn st)) = (calls st ++ l)%list /\
    Forall isLookup l /\
    (List.length l
     <= 2 * (List.length (JS.split "." (Acm.normalize fqdn)) - 1))%nat.
Proof.
  unfold Acm.getZoneIdByFQDN.
  rewrite <- (length_rev (JS.split "." (Acm.normalize fqdn))).
  destruct (rev (JS.split "." (Acm.normalize fqdn))) as [|tld rest].
  - exists []. simpl. rewrite app_nil_r. repeat split; [constructor | lia].
  - destruct (walk_calls_bound (Acm.normalize fqdn) rest tld st)
      as [l [E [F L]]].
    exists l. repeat split; try assumption. simpl. lia.
Qed.

Lemma walk_returns_first (n : string) (rest : list string) :
  forall (d : string) (st : St P) (z : string),
    outcome (Acm.walk aws n rest d) st = Returned z ->
    exists zoneIds,
      (List.length zoneIds < List.length rest)%nat /\
      calls (snd (Acm.walk aws n rest d st))
      = (calls st
           ++ flat_map (stepCalls n)
                (combine (candidates rest d) (zoneIds ++ [z])))%list.
Proof.
  induction rest as [|label rest IH]; intros d st z H; [discriminate|].
  unfold outcome in *. rewrite walk_cons in *.
  pose proof (getZoneIdByName_calls aws (label ++ "." ++ d) st) as C.
  destruct (Acm.getZoneIdByName aws (label ++ "." ++ d) st) as [[z1|e|] st1];
    try discriminate.
  simpl in C.
  destruct (fst (testDNSAnswer aws z1 n "NS" (provider st1)))
    as [[|r rd]|code]; try discriminate.
  - inversion H; subst z1. exists []. split; [simpl; lia|].
    simpl. rewrite C, <- app_assoc, combine_nil. reflexivity.
  - destruct (IH _ _ _ H) as [zoneIds [L E]].
    exists (z1 :: zoneIds). split; [simpl; lia|].
    rewrite E. simpl. rewrite C, <- !app_assoc. reflexivity.
Qed.

(** X4.  The candidates are tried from the shortest to the longest.  When
    [getZoneIdByFQDN] returns a zone, each shorter candidate has been
    looked up and tested for delegation, in that order, then the
    candidate of the returned zone, and nothing else was requested. *)
Theorem getZoneIdByFQDN_returns_first (fqdn : string) (st : St P)
        (z : string) :
  outcome (Acm.getZoneIdByFQDN aws fqdn) st = Returned z ->
  exists tld rest zoneIds,
    rev (JS.split "." (Acm.normalize fqdn)) = tld :: rest /\
    (List.length zoneIds < List.length rest)%nat /\
    calls (snd (Acm.getZoneIdByFQDN aws fqdn st))
    = (calls st
         ++ flat_map (stepCalls (Acm.normalize fqdn))
              (combine (candidates rest tld) (zoneIds ++ [z])))%list.
Proof.
  unfold Acm.getZoneIdByFQDN.
  destruct (rev (JS.split "." (Acm.normalize fqdn))) as [|tld rest];
    [discriminate|].
  intros H. destruct (walk_returns_first _ _ _ _ H) as [zoneIds [L E]].
  now exists tld, rest, zoneIds.
Qed.

End FQDN.

Lemma getZoneIdByFQDN_single_label_witness :
  Acm.getZoneIdByFQDN Examples.account "" (start tt)
  = (Thrown ZoneNotDeterminable, start tt).
Proof.
  apply (@getZoneIdByFQDN_single_label unit Examples.account "" (start tt)).
  reflexivity.
Defined.

Lemma getZoneIdByFQDN_trailing_dot_witness :
  Acm.getZoneIdByFQDN Examples.account ("www.example.com" ++ ".") (start tt)
  = Acm.getZoneIdByFQDN Examples.account "www.example.com" (start tt).
Proof.
  apply (@getZoneIdByFQDN_trailing_dot unit Examples.account
           "www.example.com" (start tt)).
  reflexivity.
Defined.

Lemma getZoneIdByFQDN_returns_first_witness :
  exists tld rest zoneIds,
    rev (JS.split "." (Acm.normalize "www.example.com")) = tld :: rest /\
    (List.length zoneIds < List.length rest)%nat /\
    calls (snd (Acm.getZoneIdByFQDN Examples.account "www.example.com"
                  (start tt)))
    = (flat_map (stepCalls (Acm.normalize "www.example.com"))
         (combine (candidates rest tld) (zoneIds ++ ["Z2"])))%list.
Proof.
  apply (@getZoneIdByFQDN_returns_first unit Examples.account
           "www.example.com" (start tt) "Z2").
  reflexivity.
Defined.

(** * Further properties of [publishCertValidationDNS] *)

(** X5.  The second loop of [publishCertValidationDNS] keeps every record,
    under the zone resolved for it and in the order of the options: the
    array of a zone holds the changes of the records paired with that zone,
    in order, and a zone paired with no record has no array. *)
Theorem groupChanges_groups (action : string) (zoneIds : list string)
        (records : list (option ResourceRecord)) (o : JSObject.t) :
  Acm.groupChanges action zoneIds records [] = inr o ->
  forall z,
    JSObject.get o z
    = match changesOf action z zoneIds records with
      | [] => None
      | changes => Some changes
      end.
Proof.
  intros E z. rewrite (groupChanges_get _ _ _ _ z E). simpl.
  now destruct (changesOf action z zoneIds records).
Qed.

Lemma push_keys (o : JSObject.t) (key : string) (c : Change) :
  map fst (JSObject.push o key c)
  = if existsb (String.eqb key) (map fst o) then map fst o
    else (map fst o ++ [key])%list.
Proof.
  induction o as [|[k cs] o IH]; simpl; [reflexivity|].
  rewrite (String.eqb_sym key k).
  destruct (k =? key); simpl; [reflexivity|].
  rewrite IH. now destruct (existsb (String.eqb key) (map fst o)).
Qed.

Lemma groupChanges_own_keys (action : string) (zoneIds : list string) :
  forall (records : list (option ResourceRecord)) (acc o : JSObject.t),
    Acm.groupChanges action zoneIds records acc = inr o ->
    map fst o = (map fst acc ++ distinct (map fst acc) zoneIds)%list.
Proof.
  induction zoneIds as [|k zoneIds IH]; intros records acc o E.
  - simpl in E. inversion E; subst. simpl. now rewrite app_nil_r.
  - simpl in E. destruct records as [|[r|] records]; try discriminate.
    destruct (JSObject.isNone (JSObject.get acc k) && JSObject.inherited k);
      [discriminate|].
    rewrite (IH _ _ _ E), push_keys. simpl.
    destruct (existsb (String.eqb k) (map fst acc)); [reflexivity|].
    now rewrite <- app_assoc.
Qed.

Lemma distinct_incl (keys : list string) :
  forall seen key, In key (distinct seen keys) -> In key keys.
Proof.
  induction keys as [|k keys IH]; intros seen key; simpl; [auto|].
  destruct (existsb (String.eqb k) seen).
  - intros H. right. now apply (IH seen).
  - intros [H | H]; [now left | right; now apply (IH (seen ++ [k])%list)].
Qed.

Lemma keys_without_index (o : JSObject.t) :
  forallb (fun key => JSObject.isNone (JSObject.arrayIndex key)) (map fst o)
  = true ->
  JSObject.keys o = map fst o.
Proof.
  unfold JSObject.keys. generalize (map fst o) as own. intros own H.
  assert (I : JSObject.indexKeys own = []).
  { induction own as [|k own IH]; [reflexivity|].
    simpl in *. apply andb_true_iff in H as [H1 H2].
    destruct (JSObject.arrayIndex k); [discriminate | now apply IH]. }
  rewrite I. simpl.
  induction own as [|k own IH]; [reflexivity|].
  simpl in *. apply andb_true_iff in H as [H1 H2]. rewrite H1.
  destruct (JSObject.arrayIndex k); [discriminate|].
  f_equal. now apply IH.
Qed.

(** X6.  When no zone id is an array index, the keys of the grouped
    changes, and with them the batches and the entries of the result, come
    in the order in which the zones are first met among the pending
    options. *)
Theorem groupChanges_keys_order (action : string) (zoneIds : list string)
        (records : list (option ResourceRecord)) (o : JSObject.t) :
  Acm.groupChanges action zoneIds records [] = inr o ->
  forallb (fun key => JSObject.isNone (JSObject.arrayIndex key)) zoneIds
  = true ->
  JSObject.keys o = distinct [] zoneIds.
Proof.
  intros E H. pose proof (groupChanges_own_keys _ _ _ _ E) as K.
  simpl in K. rewrite keys_without_index; [exact K|].
  rewrite K. apply forallb_forall. intros key I.
  apply distinct_incl in I. rewrite forallb_forall in H. now apply H.
Qed.

(** An array-index zone id is listed before the others, whatever the order
    of the options. *)
Example groupChanges_array_index_first :
  exists o,
    Acm.groupChanges UPSERT ["Z2"; "7"]
      [Some (Examples.validationRecord "a.example.com");
       Some (Examples.validationRecord "b.example.com")] [] = inr o /\
    JSObject.keys o = ["7"; "Z2"].
Proof. eexists. split; reflexivity. Qed.

Lemma groupChanges_groups_witness :
  JSObject.get (Examples.twoZones UPSERT) "ZBAD"
  = Some [Acm.validationChange UPSERT
            (Examples.validationRecord "www.example.net")].
Proof.
  rewrite (@groupChanges_groups UPSERT ["Z2"; "ZBAD"]
             [Some (Examples.validationRecord "www.example.com");
              Some (Examples.validationRecord "www.example.net")]
             (Examples.twoZones UPSERT) eq_refl "ZBAD").
  reflexivity.
Defined.

Lemma groupChanges_keys_order_witness :
  exists o,
    Acm.groupChanges UPSERT ["Z2"; "ZBAD"; "Z2"]
      [Some (Examples.validationRecord "www.example.com");
       Some (Examples.validationRecord "www.example.net");
       Some (Examples.validationRecord "example.com")] [] = inr o /\
    JSObject.keys o = ["Z2"; "ZBAD"].
Proof.
  eexists. split; [reflexivity|].
  apply (@groupChanges_keys_order UPSERT ["Z2"; "ZBAD"; "Z2"]
           [Some (Examples.validationRecord "www.example.com");
            Some (Examples.validationRecord "www.example.net");
            Some (Examples.validationRecord "example.com")]);
    reflexivity.
Defined.

Lemma groupChanges_missing_record (action : string) (zoneIds : list string) :
  forall (records : list (option ResourceRecord)) (acc : JSObject.t),
    List.length zoneIds = List.length records ->
    In None records ->
    Acm.groupChanges action zoneIds records acc = inl TypeError.
Proof.
  induction zoneIds as [|k zoneIds IH]; intros records acc L I.
  - destruct records; [contradiction | discriminate].
  - destruct records as [|[r|] records]; [discriminate| |reflexivity].
    simpl.
    destruct (JSObject.isNone (JSObject.get acc k) && JSObject.inherited k);
      [reflexivity|].
    apply IH; [simpl in L; lia|]. destruct I as [I | I]; [discriminate | exact I].
Qed.

Section PublishFailures.

Variable P : Type.
Variable aws : AWS P.

(** X7.  [publishCertValidationDNS] describes the certificate before
    anything else.  For a certificate that is not Amazon-issued it fails
    with the invalid-certificate error, and for a description that the
    provider rejects with that rejection; in both cases the description is
    its only request. *)
Theorem publishCertValidationDNS_other_certificates (arn action : string)
        (st : St P) :
  (forall cert,
      fst (describeCertificate aws arn (provider st)) = Resolves cert ->
      (CertType cert =? AMAZON_ISSUED_CERT_TYPE) = false ->
      Acm.publishCertValidationDNS aws arn action st
      = (Thrown UnsupportedResourceType, described aws arn st)) /\
  (forall code,
      fst (describeCertificate aws arn (provider st)) = Rejects code ->
      Acm.publishCertValidationDNS aws arn action st
      = (Thrown (ProviderFailure code), described aws arn st)).
Proof.
  unfold Acm.publishCertValidationDNS, described, bind, request.
  destruct (describeCertificate aws arn (provider st)) as [r p0].
  split.
  - intros cert D T. simpl in D. subst r. cbn. now rewrite T.
  - intros code D. simpl in D. subst r. reflexivity.
Qed.

(** When the records could not be grouped, nothing is submitted. *)
Lemma publish_after_failed_resolve (arn action : string) (st : St P)
      (cert : Certificate) (e : Error) :
  fst (describeCertificate aws arn (provider st)) = Resolves cert ->
  CertType cert = AMAZON_ISSUED_CERT_TYPE ->
  fst (Acm.resolveChanges aws action (DomainValidationOptions cert)
         (described aws arn st)) = Thrown e ->
  fst (Acm.publishCertValidationDNS aws arn action st) = Thrown e /\
  exists l,
    calls (snd (Acm.publishCertValidationDNS aws arn action st))
    = (calls st ++ DescribeCertificate arn :: l)%list /\
    Forall isLookup l.
Proof.
  intros D T R.
  assert (E0 : Acm.publishCertValidationDNS aws arn action st
               = (Thrown e,
                  snd (Acm.resolveChanges aws action
                         (DomainValidationOptions cert)
                         (described aws arn st)))).
  { unfold Acm.publishCertValidationDNS.
    unfold bind at 1, request. unfold described in *.
    destruct (describeCertificate aws arn (provider st)) as [r p0].
    simpl in D, R. subst r. cbn match. rewrite T, String.eqb_refl.
    cbn [negb snd]. unfold bind.
    destruct (Acm.resolveChanges aws action (DomainValidationOptions cert) _)
      as [[o|e'|] st1]; try discriminate.
    simpl in R. now inversion R. }
  rewrite E0. split; [reflexivity|]. cbn [snd].
  destruct (issues_resolveChanges aws action (DomainValidationOptions cert)
              (described aws arn st)) as [l [E F]].
  exists l. split; [|exact F]. rewrite E. unfold described. cbn [calls].
  now rewrite <- app_assoc.
Qed.

(** X8.  The tolerance of [DELETE] stops at the submissions.  Whatever
    the action, when the zone of a pending option cannot be resolved, or
    the records cannot be grouped, [publishCertValidationDNS] fails with
    that error and submits no change batch: after the description of the
    certificate it has issued zone lookups only. *)
Theorem publishCertValidationDNS_failed_lookup (arn action : string)
        (st : St P) (cert : Certificate) (e : Error) :
  fst (describeCertificate aws arn (provider st)) = Resolves cert ->
  CertType cert = AMAZON_ISSUED_CERT_TYPE ->
  fst (Acm.resolveChanges aws action (DomainValidationOptions cert)
         (described aws arn st)) = Thrown e ->
  fst (Acm.publishCertValidationDNS aws arn action st) = Thrown e /\
  (exists l,
      calls (snd (Acm.publishCertValidationDNS aws arn action st))
      = (calls st ++ DescribeCertificate arn :: l)%list /\
      Forall isLookup l) /\
  (forall zoneId batch,
      ~ In (ChangeResourceRecordSets zoneId batch)
           (issued (Acm.publishCertValidationDNS aws arn action) st)).
Proof.
  intros D T R.
  destruct (publish_after_failed_resolve arn action st D T R)
    as [O [l [E F]]].
  split; [exact O|]. split; [now exists l|].
  intros zoneId batch. unfold issued. rewrite E, skipn_app_exact.
  intros [H | H]; [discriminate|].
  rewrite Forall_forall in F. now apply F in H.
Qed.

(** X9.  A pending option whose validation record is not there yet makes
    [publishCertValidationDNS] fail, whatever the action, and without a
    change batch being submitted.  When the zone lookups all succeeded
    the error is a [TypeError]; otherwise it is the error of one of the
    lookups that failed. *)
Theorem publishCertValidationDNS_missing_record (arn action : string)
        (st : St P) (cert : Certificate) :
  fst (describeCertificate aws arn (provider st)) = Resolves cert ->
  CertType cert = AMAZON_ISSUED_CERT_TYPE ->
  existsb (fun o => JSObject.isNone (ResourceRecordOf o))
          (Acm.pendingOptions (DomainValidationOptions cert)) = true ->
  (exists e,
      fst (Acm.publishCertValidationDNS aws arn action st) = Thrown e /\
      (forall lookups,
          fst (startAll (Acm.getZoneIdByFQDN aws)
                 (map DomainName
                    (Acm.pendingOptions (DomainValidationOptions cert)))
                 (described aws arn st)) = Returned lookups ->
          (e = TypeError /\ exists zoneIds, lookups = map inr zoneIds) \/
          In (inl e) lookups)) /\
  (exists l,
      calls (snd (Acm.publishCertValidationDNS aws arn action st))
      = (calls st ++ DescribeCertificate arn :: l)%list /\
      Forall isLookup l) /\
  (forall zoneId batch,
      ~ In (ChangeResourceRecordSets zoneId batch)
           (issued (Acm.publishCertValidationDNS aws arn action) st)).
Proof.
  intros D T M.
  assert (I : In None (map ResourceRecordOf
                         (Acm.pendingOptions (DomainValidationOptions cert)))).
  { apply existsb_exists in M as [o [I N]]. apply in_map_iff.
    exists o. split; [|exact I]. now destruct (ResourceRecordOf o). }
  assert (R : exists e,
             fst (Acm.resolveChanges aws action (DomainValidationOptions cert)
                    (described aws arn st)) = Thrown e /\
             (forall lookups,
                 fst (startAll (Acm.getZoneIdByFQDN aws)
                        (map DomainName
                           (Acm.pendingOptions (DomainValidationOptions cert)))
                        (described aws arn st)) = Returned lookups ->
                 (e = TypeError /\ exists zoneIds, lookups = map inr zoneIds)
                 \/ In (inl e) lookups)).
  { unfold Acm.resolveChanges, bind.
    pose proof (@startAll_length P _ _ (Acm.getZoneIdByFQDN aws)
                  (map DomainName
                     (Acm.pendingOptions (DomainValidationOptions cert)))
                  (described aws arn st)) as L.
    pose proof (terminates_startAll (Acm.getZoneIdByFQDN aws)
                  (map DomainName
                     (Acm.pendingOptions (DomainValidationOptions cert)))
                  (terminates_getZoneIdByFQDN aws)
                  (described aws arn st)) as N.
    destruct (startAll _ _ (described aws arn st)) as [[rs|e|] st1];
      [| exists e; split; [reflexivity | discriminate] | now destruct N].
    specialize (L rs eq_refl). rewrite length_map in L.
    unfold await at 1. pose proof (all_settled rs) as S.
    destruct (all rs) as [e|zoneIds] eqn:A.
    - exists e. split; [reflexivity|]. intros lookups H.
      inversion H; subst lookups. now right.
    - unfold ret at 1. subst rs. rewrite length_map in L.
      rewrite groupChanges_missing_record;
        [| rewrite length_map; lia | exact I].
      exists TypeError. split; [reflexivity|]. intros lookups H.
      inversion H; subst lookups. left. split; [reflexivity|].
      now exists zoneIds. }
  destruct R as [e [R Z]].
  destruct (publish_after_failed_resolve arn action st D T R)
    as [O [l [E F]]].
  split; [exists e; split; assumption|]. split; [now exists l|].
  intros zoneId batch. unfold issued. rewrite E, skipn_app_exact.
  intros [H | H]; [discriminate|].
  rewrite Forall_forall in F. now apply F in H.
Qed.

End PublishFailures.

Lemma publishCertValidationDNS_other_certificates_witness :
  Acm.publishCertValidationDNS Examples.account "arn:cert/imported" DELETE
    (start tt)
  = (Thrown UnsupportedResourceType,
     described Examples.account "arn:cert/imported" (start tt)).
Proof.
  apply (proj1 (@publishCertValidationDNS_other_certificates unit
                  Examples.account "arn:cert/imported" DELETE (start tt))
               {| CertType := "IMPORTED"; DomainValidationOptions := [] |});
    reflexivity.
Defined.

Lemma publishCertValidationDNS_missing_record_witness :
  fst (Acm.publishCertValidationDNS MoreExamples.account "arn:cert/fresh"
         DELETE (start tt)) = Thrown TypeError.
Proof.
  destruct (@publishCertValidationDNS_missing_record unit MoreExamples.account
              "arn:cert/fresh" DELETE (start tt)
              {| CertType := AMAZON_ISSUED_CERT_TYPE;
                 DomainValidationOptions :=
                   [MoreExamples.optionWithoutRecord] |}
              eq_refl eq_refl eq_refl) as [[e [H Z]] _].
  rewrite H. f_equal.
  destruct (Z [inr "Z2"] eq_refl) as [[E _] | [F | []]];
    [exact E | discriminate F].
Defined.

Example publishCertValidationDNS_fresh_certificate :
  Acm.publishCertValidationDNS MoreExamples.account "arn:cert/fresh" DELETE
    (start tt)
  = (Thrown TypeError,
     {| provider := tt;
        calls := [DescribeCertificate "arn:cert/fresh";
                  ListHostedZonesByName "example.com";
                  TestDNSAnswer "Z2" "www.example.com" "NS"] |}).
Proof. reflexivity. Qed.

Lemma publishCertValidationDNS_failed_lookup_witness :
  fst (Acm.publishCertValidationDNS MoreExamples.account "arn:cert/uk" DELETE
         (start tt)) = Thrown NoZonesFound.
Proof.
  apply (@publishCertValidationDNS_failed_lookup unit MoreExamples.account
           "arn:cert/uk" DELETE (start tt)
           {| CertType := AMAZON_ISSUED_CERT_TYPE;
              DomainValidationOptions :=
                [Examples.pendingOption "www.example.co.uk"] |}
           NoZonesFound eq_refl eq_refl eq_refl).
Defined.

(** * Further properties of one iteration of the certificate lookup *)

Section Listing.

Variable P : Type.
Variable aws : AWS P.

Lemma listPages_requests (fuel : nat) :
  forall nextToken certs (st : St P),
  exists l,
    calls (snd (Acm.listPages aws fuel nextToken certs st))
    = (calls st ++ l)%list /\
    Forall isPendingListing l.
Proof.
  induction fuel as [|fuel IH]; intros nextToken certs st;
    cbn [Acm.listPages]; destruct (JS.truthy_opt nextToken);
    try (exists []; simpl; rewrite app_nil_r; split; [reflexivity | constructor]).
  unfold bind, request.
  destruct (listCertificates aws [PENDING_VALIDATION] _ (provider st))
    as [[resp|code] p1].
  - match goal with
    | |- context [Acm.listPages aws fuel ?t ?c ?s] =>
        destruct (IH t c s) as [l [E F]]
    end.
    eexists (_ :: l). rewrite E. cbn [calls].
    rewrite <- app_assoc. split; [reflexivity|].
    constructor; [reflexivity | exact F].
  - eexists [_]. split; [reflexivity|]. repeat constructor.
Qed.

(** The first page fetch of an iteration. *)
Lemma lookupCertificateInternal_first_page (fuel : nat)
      (domainName : option string) (i : nat) (st : St P) :
  Acm.lookupCertificateInternal aws (S fuel) domainName i st
  = match fst (listCertificates aws [PENDING_VALIDATION] None (provider st))
    with
    | Resolves resp =>
        bind (Acm.listPages aws fuel (NextToken resp)
                (CertificateSummaryList resp))
             (fun certs => ret (findArn domainName certs))
             (fetched aws None st)
    | Rejects code => (Thrown (ProviderFailure code), fetched aws None st)
    end.
Proof.
  unfold Acm.lookupCertificateInternal, fetched.
  cbn [Acm.listPages JS.truthy_opt JS.truthy String.eqb negb].
  cbn [JS.strict_eq]. rewrite String.eqb_refl.
  unfold bind, request.
  destruct (listCertificates aws [PENDING_VALIDATION] None (provider st))
    as [[resp|code] p1]; cbn [fst snd app]; [|reflexivity].
  destruct (Acm.listPages aws fuel _ _ _) as [[certs|e|] st1];
    try reflexivity.
  unfold findArn.
  destruct (find _ certs) as [cert|];
    [destruct (JS.truthy_opt (CertificateArn cert))|]; reflexivity.
Qed.

(** X10.  Every request of [lookupCertificateInternal] is a listing of
    the certificates filtered on the status [PENDING_VALIDATION], and the
    first one carries no page token, whatever the iteration. *)
Theorem lookupCertificateInternal_requests (fuel : nat)
        (domainName : option string) (i : nat) (st : St P) :
  exists l,
    calls (snd (Acm.lookupCertificateInternal aws (S fuel) domainName i st))
    = (calls st ++ ListCertificates [PENDING_VALIDATION] None :: l)%list /\
    Forall isPendingListing l.
Proof.
  rewrite lookupCertificateInternal_first_page.
  destruct (fst (listCertificates aws [PENDING_VALIDATION] None (provider st)))
    as [resp|code].
  - unfold bind.
    destruct (listPages_requests fuel (NextToken resp)
                (CertificateSummaryList resp) (fetched aws None st))
      as [l [E F]].
    exists l. split; [|exact F].
    destruct (Acm.listPages aws fuel _ _ _) as [[certs|e|] st1];
      cbn [snd ret] in *; rewrite E; unfold fetched; cbn [calls];
      now rewrite <- app_assoc.
  - exists []. split; [reflexivity | constructor].
Qed.

(** X11.  The pagination of [lookupCertificateInternal].  When the first
    page comes without a token for a next page, it is the only request,
    and the iteration reports the ARN of the first certificate of the
    domain on that page, if that ARN is not empty.  When it comes with
    a token, the page is not searched on its own: a second request
    follows, with that token, or with no token when the token reads
    ["start"].  A rejected page fetch ends the iteration with that
    rejection. *)
Theorem lookupCertificateInternal_pagination (fuel : nat)
        (domainName : option string) (i : nat) (st : St P) :
  let first := listCertificates aws [PENDING_VALIDATION] None (provider st) in
  let run := Acm.lookupCertificateInternal aws (S (S fuel)) domainName i st in
  (forall resp,
      fst first = Resolves resp ->
      JS.truthy_opt (NextToken resp) = false ->
      run = (Returned (findArn domainName (CertificateSummaryList resp)),
             fetched aws None st)) /\
  (forall resp,
      fst first = Resolves resp ->
      JS.truthy_opt (NextToken resp) = true ->
      exists l,
        calls (snd run)
        = (calls st
             ++ ListCertificates [PENDING_VALIDATION] None
             :: ListCertificates [PENDING_VALIDATION]
                  (if JS.strict_eq (NextToken resp) (Some "start")
                   then None else NextToken resp)
             :: l)%list) /\
  (forall code,
      fst first = Rejects code ->
      run = (Thrown (ProviderFailure code), fetched aws None st)).
Proof.
  intros first run. subst first run.
  rewrite lookupCertificateInternal_first_page.
  split; [|split].
  - intros resp -> T. unfold bind. cbn [Acm.listPages]. now rewrite T.
  - intros resp -> T. unfold bind at 1. cbn [Acm.listPages]. rewrite T.
    set (token := if JS.strict_eq (NextToken resp) (Some "start")
                  then None else NextToken resp).
    unfold bind, request.
    destruct (listCertificates aws [PENDING_VALIDATION] token
                (provider (fetched aws None st))) as [[resp2|code] p2].
    + match goal with
      | |- context [Acm.listPages aws fuel ?t ?c ?s] =>
          destruct (listPages_requests fuel t c s) as [l [E F]];
          destruct (Acm.listPages aws fuel t c s) as [[certs|e|] st1]
      end; exists l; cbn [snd ret] in *; rewrite E; unfold fetched;
        cbn [calls]; now rewrite <- !app_assoc.
    + exists []. unfold fetched. cbn [snd calls]. now rewrite <- app_assoc.
  - intros code ->. reflexivity.
Qed.

End Listing.

Lemma lookupCertificateInternal_pagination_witness :
  calls (snd (Acm.lookupCertificateInternal MoreExamples.paged 2
                (Some "www.example.com") 1 (start 0%nat)))
  = [ListCertificates [PENDING_VALIDATION] None;
     ListCertificates [PENDING_VALIDATION] (Some "page2")] /\
  Acm.lookupCertificateInternal Examples.account 2
    (Some "www.example.com") 1 (start tt)
  = (Returned (Some "arn:cert/www"), fetched Examples.account None (start tt)).
Proof.
  split.
  - destruct (proj1 (proj2 (@lookupCertificateInternal_pagination nat
                              MoreExamples.paged 0 (Some "www.example.com")
                              1%nat (start 0%nat)))
                    MoreExamples.firstPage eq_refl eq_refl) as [l E].
    reflexivity.
  - apply (proj1 (@lookupCertificateInternal_pagination unit Examples.account
                    0 (Some "www.example.com") 1%nat (start tt))
                 Examples.pendingCertificates); reflexivity.
Defined.

Example lookupCertificateInternal_two_pages :
  Acm.lookupCertificateInternal MoreExamples.paged 2
    (Some "www.example.com") 1 (start 0%nat)
  = (Returned (Some "arn:cert/www"),
     {| provider := 2%nat;
        calls := [ListCertificates [PENDING_VALIDATION] None;
                  ListCertificates [PENDING_VALIDATION] (Some "page2")] |}).
Proof. reflexivity. Qed.

(** * Further properties of the ACM handler *)

Section AcmHandler.

Variable P : Type.
Variable aws : AWS P.
Variable cfnCR : CfnCR.t.

(** X12.  On a Create event the handler looks the certificate up,
    publishes its validation records with [UPSERT], and reports success
    with the ARN of the certificate as physical id and the change ids as
    data.  An error of the lookup or of the publication is reported as a
    failure, with that error. *)
Theorem handler_create (fuel : nat) (event : Acm.Event)
        (context : Acm.Context) (st : St P) :
  Acm.RequestType event = CfnCR.CREATE cfnCR ->
  (CfnCR.CREATE cfnCR =? CfnCR.DELETE cfnCR) = false ->
  (CfnCR.CREATE cfnCR =? CfnCR.UPDATE cfnCR) = false ->
  let lambdaTimeout :=
    (Acm.getRemainingTimeInMillis context
     - Acm.TIMEOUT_MARGIN_OF_SAFETY_MS)%Z in
  Acm.handler aws cfnCR fuel event context st
  = match Acm.lookupCertificate aws fuel
            (Acm.CertificateFQDN (Acm.Properties event))
            (Some lambdaTimeout) st with
    | (Returned arn, st1) =>
        match Acm.publishCertValidationDNS aws arn UPSERT st1 with
        | (Returned changeIds, st2) =>
            (Returned (Acm.Success (Some arn)
                         (Some (Acm.ChangeIds changeIds))), st2)
        | (Thrown e, st2) => (Returned (Acm.Failure e), st2)
        | (Pending, st2) => (Pending, st2)
        end
    | (Thrown e, st1) => (Returned (Acm.Failure e), st1)
    | (Pending, st1) => (Pending, st1)
    end.
Proof.
  intros HT HD HU lambdaTimeout.
  unfold Acm.handler, Acm.processCREvent, catch, Acm.userHandlerLogic.
  fold lambdaTimeout. unfold bind.
  destruct (Acm.lookupCertificate aws fuel
              (Acm.CertificateFQDN (Acm.Properties event))
              (Some lambdaTimeout) st) as [[arn|e|] st1].
  - unfold ret at 1. unfold Acm.method.
    rewrite HT, HD, HU, String.eqb_refl. cbn [Acm.create]. unfold bind.
    destruct (Acm.publishCertValidationDNS aws arn UPSERT st1)
      as [[ids|e|] st2]; reflexivity.
  - rewrite HT, HD. reflexivity.
  - reflexivity.
Qed.

(** X13.  A request type that is none of the three does not stop the
    handler from looking the certificate up: it reports a failure after
    the lookup, with the error of the lookup when it failed and with a
    [TypeError] when it succeeded, and publishes nothing. *)
Theorem handler_unknown_request_type (fuel : nat) (event : Acm.Event)
        (context : Acm.Context) (st : St P) :
  (Acm.RequestType event =? CfnCR.CREATE cfnCR) = false ->
  (Acm.RequestType event =? CfnCR.UPDATE cfnCR) = false ->
  (Acm.RequestType event =? CfnCR.DELETE cfnCR) = false ->
  let lambdaTimeout :=
    (Acm.getRemainingTimeInMillis context
     - Acm.TIMEOUT_MARGIN_OF_SAFETY_MS)%Z in
  Acm.handler aws cfnCR fuel event context st
  = match Acm.lookupCertificate aws fuel
            (Acm.CertificateFQDN (Acm.Properties event))
            (Some lambdaTimeout) st with
    | (Returned _, st1) => (Returned (Acm.Failure TypeError), st1)
    | (Thrown e, st1) => (Returned (Acm.Failure e), st1)
    | (Pending, st1) => (Pending, st1)
    end.
Proof.
  intros HC HU HD lambdaTimeout.
  unfold Acm.handler, Acm.processCREvent, catch, Acm.userHandlerLogic.
  fold lambdaTimeout. unfold bind.
  destruct (Acm.lookupCertificate aws fuel
              (Acm.CertificateFQDN (Acm.Properties event))
              (Some lambdaTimeout) st) as [[arn|e|] st1].
  - unfold ret at 1. unfold Acm.method. rewrite HC, HU, HD. reflexivity.
  - rewrite HD. reflexivity.
  - reflexivity.
Qed.

(** X14.  On an Update event the handler looks up the new certificate,
    then the old one; it deletes the records of the old certificate, then
    upserts those of the new one, and reports success with the ARN of the
    new certificate, both lists of change ids, and the physical id of the
    event as the old ARN.  An error at any of the four steps is reported
    as a failure, and so is an event without old properties, after the
    lookup of the new certificate. *)
Theorem handler_update (fuel : nat) (event : Acm.Event)
        (context : Acm.Context) (st : St P) :
  Acm.RequestType event = CfnCR.UPDATE cfnCR ->
  (CfnCR.UPDATE cfnCR =? CfnCR.DELETE cfnCR) = false ->
  let lambdaTimeout :=
    (Acm.getRemainingTimeInMillis context
     - Acm.TIMEOUT_MARGIN_OF_SAFETY_MS)%Z in
  let lookup (properties : Acm.ResourceProperties) :=
    Acm.lookupCertificate aws fuel (Acm.CertificateFQDN properties)
                          (Some lambdaTimeout) in
  let respond (r : Outcome Acm.Response * St P) :=
    match r with
    | (Thrown e, st') => (Returned (Acm.Failure e), st')
    | _ => r
    end in
  Acm.handler aws cfnCR fuel event context st
  = respond
      (match Acm.OldResourceProperties event with
       | None =>
           bind (lookup (Acm.Properties event))
                (fun _ => throw TypeError) st
       | Some old =>
           bind (lookup (Acm.Properties event)) (fun certificateArn =>
           bind (lookup old) (fun oldCertificateArn =>
           bind (Acm.publishCertValidationDNS aws oldCertificateArn DELETE)
                (fun oldChangeIds =>
           bind (Acm.publishCertValidationDNS aws certificateArn UPSERT)
                (fun changeIds =>
           ret (Acm.Success (Some certificateArn)
                  (Some (Acm.UpdateIds changeIds oldChangeIds
                           (Acm.PhysicalResourceId event)))))))) st
       end).
Proof.
  intros HT HD lambdaTimeout lookup respond. subst lookup respond.
  unfold Acm.handler, Acm.processCREvent, catch, Acm.userHandlerLogic.
  fold lambdaTimeout. cbv beta.
  destruct (Acm.OldResourceProperties event) as [old|] eqn:O; unfold bind;
    destruct (Acm.lookupCertificate aws fuel
                (Acm.CertificateFQDN (Acm.Properties event))
                (Some lambdaTimeout) st) as [[arn|e|] st1];
    try (rewrite HT, HD; reflexivity); try reflexivity;
    unfold ret at 1; unfold Acm.method;
    rewrite HT, HD, String.eqb_refl; cbn [Acm.update].
  - destruct (Acm.lookupCertificate aws fuel (Acm.CertificateFQDN old)
                (Some lambdaTimeout) st1) as [[oldArn|e|] st2];
      try reflexivity.
    destruct (Acm.publishCertValidationDNS aws oldArn DELETE st2)
      as [[oldIds|e|] st3]; try reflexivity.
    destruct (Acm.publishCertValidationDNS aws arn UPSERT st3)
      as [[ids|e|] st4]; reflexivity.
  - reflexivity.
Qed.

End AcmHandler.

Lemma handler_create_witness :
  Acm.handler Examples.account Examples.cfn 3 MoreExamples.acmCreate
    Examples.tenSeconds (start tt)
  = (Returned (Acm.Success (Some "arn:cert/www")
                 (Some (Acm.ChangeIds [Some "/change/C-Z2"]))),
     {| provider := tt;
        calls :=
          [ListCertificates [PENDING_VALIDATION] None;
           DescribeCertificate "arn:cert/www";
           ListHostedZonesByName "example.com";
           TestDNSAnswer "Z2" "www.example.com" "NS";
           submitCall "arn:cert/www"
             [("Z2", [Acm.validationChange UPSERT
                        (Examples.validationRecord "www.example.com")])]
             "Z2"] |}).
Proof.
  rewrite (@handler_create unit Examples.account Examples.cfn 3
             MoreExamples.acmCreate Examples.tenSeconds (start tt)
             eq_refl eq_refl eq_refl).
  reflexivity.
Defined.

Lemma handler_unknown_request_type_witness :
  Acm.handler Examples.account Examples.cfn 3 MoreExamples.acmUnknown
    Examples.tenSeconds (start tt)
  = (Returned (Acm.Failure TypeError),
     {| provider := tt;
        calls := [ListCertificates [PENDING_VALIDATION] None] |}).
Proof.
  rewrite (@handler_unknown_request_type unit Examples.account Examples.cfn 3
             MoreExamples.acmUnknown Examples.tenSeconds (start tt)
             eq_refl eq_refl eq_refl).
  reflexivity.
Defined.

Lemma handler_update_witness :
  fst (Acm.handler Examples.account Examples.cfn 3 MoreExamples.acmUpdate
         Examples.tenSeconds (start tt))
  = Returned (Acm.Failure UnsupportedResourceType).
Proof.
  rewrite (@handler_update unit Examples.account Examples.cfn 3
             MoreExamples.acmUpdate Examples.tenSeconds (start tt)
             eq_refl eq_refl).
  reflexivity.
Defined.



(** * Further properties of the SES resource *)

Section SesHandler.

Variable P : Type.
Variable aws : AWS P.
Variable cfnCR : CfnCR.t.
Variable AWS_REGION : string.

(** The run of [verifyResolved] for an action other than [DELETE]. *)
Lemma verifyResolved_other_calls (zoneId domain action : string)
      (st : St P) :
  (action =? DELETE) = false ->
  exists tail,
    calls (snd (Ses.verifyResolved aws AWS_REGION zoneId domain action st))
    = (calls st ++ VerifyDomainIdentity domain :: VerifyDomainDkim domain
                :: tail)%list /\
    (tail = [] \/
     exists token dkims,
       tail = [ChangeResourceRecordSets zoneId
                 (Ses.verifyBatch AWS_REGION action domain token dkims)]) /\
    (forall v,
        fst (Ses.verifyResolved aws AWS_REGION zoneId domain action st)
        = Returned v ->
        Ses.domainName v = domain /\
        exists token dkims,
          tail = [ChangeResourceRecordSets zoneId
                    (Ses.verifyBatch AWS_REGION action domain token dkims)]).
Proof.
  intros HA.
  unfold Ses.verifyResolved, bind, settle, request, await, ret, throw.
  rewrite HA. cbn [provider calls].
  destruct (verifyDomainIdentity aws domain (provider st)) as [[token|c1] p1];
    cbn [provider calls];
    destruct (verifyDomainDkim aws domain p1) as [[dkims|c2] p2];
    cbn [provider calls fst snd]; rewrite <- ?app_assoc;
    try (exists []; split; [reflexivity | split; [now left | discriminate]]).
  destruct (changeResourceRecordSets aws zoneId
              (Ses.verifyBatch AWS_REGION action domain token dkims) p2)
    as [[id|c4] p4]; cbn [provider calls fst snd]; rewrite <- ?app_assoc;
    eexists; (split; [reflexivity|]);
    (split; [right; now exists token, dkims|]).
  - intros v H. inversion H. split; [reflexivity | now exists token, dkims].
  - discriminate.
Qed.

(** X16.  With an action other than [DELETE], [verifyDomain] leaves the
    identity in place: it never asks for its deletion.  It issues at most
    four requests; a run that returns has resolved the zone, requested the
    two tokens and submitted one change batch, in that order, and returns
    the domain name the batch was built for. *)
Theorem verifyDomain_keeps_identity (s action : string) (st : St P) :
  (action =? DELETE) = false ->
  let run := Ses.verifyDomain aws AWS_REGION (Some s) action st in
  exists l,
    calls (snd run) = (calls st ++ l)%list /\
    Forall keepsIdentity l /\
    (List.length l <= 4)%nat /\
    (forall v,
        fst run = Returned v ->
        exists first zoneId token dkims,
          (first = GetHostedZone s \/ first = ListHostedZonesByName s) /\
          l = [first;
               VerifyDomainIdentity (Ses.domainName v);
               VerifyDomainDkim (Ses.domainName v);
               ChangeResourceRecordSets zoneId
                 (Ses.verifyBatch AWS_REGION action (Ses.domainName v)
                    token dkims)]).
Proof.
  intros HA run. subst run. rewrite verifyDomain_cases.
  assert (K : forall zoneId domain first (st1 : St P),
             calls st1 = (calls st ++ [first])%list ->
             keepsIdentity first ->
             (first = GetHostedZone s \/ first = ListHostedZonesByName s) ->
             exists l,
               calls (snd (Ses.verifyResolved aws AWS_REGION zoneId domain
                             action st1)) = (calls st ++ l)%list /\
               Forall keepsIdentity l /\
               (List.length l <= 4)%nat /\
               (forall v,
                   fst (Ses.verifyResolved aws AWS_REGION zoneId domain
                          action st1) = Returned v ->
                   exists first zoneId token dkims,
                     (first = GetHostedZone s
                      \/ first = ListHostedZonesByName s) /\
                     l = [first;
                          VerifyDomainIdentity (Ses.domainName v);
                          VerifyDomainDkim (Ses.domainName v);
                          ChangeResourceRecordSets zoneId
                            (Ses.verifyBatch AWS_REGION action
                               (Ses.domainName v) token dkims)])).
  { intros zoneId domain first st1 C KF HF.
    destruct (verifyResolved_other_calls zoneId domain action st1 HA)
      as [tail [E [T V]]].
    exists (first :: VerifyDomainIdentity domain :: VerifyDomainDkim domain
                  :: tail).
    split; [|split; [|split]].
    - rewrite E, C, <- app_assoc. reflexivity.
    - destruct T as [-> | [token [dkims ->]]]; repeat constructor; assumption.
    - destruct T as [-> | [token [dkims ->]]]; simpl; lia.
    - intros v H. destruct (V v H) as [D [token [dkims ->]]]. subst domain.
      now exists first, zoneId, token, dkims. }
  destruct (JS.includes "." s).
  - unfold bind. rewrite getZoneIdByName_same.
    pose proof (getZoneIdByName_calls aws s st) as C.
    destruct (Acm.getZoneIdByName aws s st) as [[z|e|] st1]; simpl in C.
    + apply (K z s (ListHostedZonesByName s) st1 C I). now right.
    + exists [ListHostedZonesByName s]. simpl.
      repeat split; [assumption | repeat constructor | lia | discriminate].
    + exists [ListHostedZonesByName s]. simpl.
      repeat split; [assumption | repeat constructor | lia | discriminate].
  - unfold bind, request.
    destruct (getHostedZone aws s (provider st)) as [[domain|code] p1].
    + apply (K s domain (GetHostedZone s)
               {| provider := p1;
                  calls := (calls st ++ [GetHostedZone s])%list |}
               eq_refl I). now left.
    + exists [GetHostedZone s]. simpl.
      repeat split; [repeat constructor | lia | discriminate].
Qed.

(** X17.  On an Update event the SES handler deletes the verification of
    the old zone, then upserts that of the new one, and reports the new
    domain with both change ids and the old domain.  Nothing is tolerated:
    when the deletion for the old zone fails, the handler reports that
    failure and requests nothing for the new zone; an event without old
    properties is a failure without any request. *)
Theorem ses_handler_update (event : Ses.Event) (st : St P) :
  Ses.RequestType event = CfnCR.UPDATE cfnCR ->
  (CfnCR.UPDATE cfnCR =? CfnCR.CREATE cfnCR) = false ->
  let zone := Ses.zoneIdOrNameOf (Ses.Properties event) in
  Ses.handler aws cfnCR AWS_REGION event st
  = match Ses.OldResourceProperties event with
    | None => (Returned (Ses.Failure TypeError), st)
    | Some old =>
        match Ses.verifyDomain aws AWS_REGION (Ses.zoneIdOrNameOf old)
                DELETE st with
        | (Returned o, st1) =>
            match Ses.verifyDomain aws AWS_REGION zone UPSERT st1 with
            | (Returned v, st2) =>
                (Returned (Ses.Success (Some (Ses.domainName v))
                             (Some (Ses.UpdateIds (Ses.changeId v)
                                      (Ses.changeId o)
                                      (Ses.domainName o)))), st2)
            | (Thrown e, st2) => (Returned (Ses.Failure e), st2)
            | (Pending, st2) => (Pending, st2)
            end
        | (Thrown e, st1) => (Returned (Ses.Failure e), st1)
        | (Pending, st1) => (Pending, st1)
        end
    end.
Proof.
  intros HT HC zone. subst zone. unfold Ses.handler.
  rewrite HT, HC, String.eqb_refl. unfold catch.
  destruct (Ses.OldResourceProperties event) as [old|]; [|reflexivity].
  unfold bind.
  destruct (Ses.verifyDomain aws AWS_REGION (Ses.zoneIdOrNameOf old) DELETE st)
    as [[o|e|] st1]; try reflexivity.
  destruct (Ses.verifyDomain aws AWS_REGION
              (Ses.zoneIdOrNameOf (Ses.Properties event)) UPSERT st1)
    as [[v|e|] st2]; reflexivity.
Qed.

(** X18.  The events the SES handler answers without a request to the
    provider.  A request type that is none of the three is reported as
    the invalid-request failure.  An event that names no zone, neither
    by a non-empty id nor by name, is reported as a failure with a
    [TypeError] on Create and on Delete, unless the physical id of the
    Delete is the one of a resource never created, which is reported as
    a success without data. *)
Theorem ses_handler_without_request (event : Ses.Event) (st : St P) :
  ((Ses.RequestType event =? CfnCR.CREATE cfnCR) = false ->
   (Ses.RequestType event =? CfnCR.UPDATE cfnCR) = false ->
   (Ses.RequestType event =? CfnCR.DELETE cfnCR) = false ->
   Ses.handler aws cfnCR AWS_REGION event st
   = (Returned (Ses.Failure InvalidRequestType), st)) /\
  (JS.truthy_opt (Ses.HostedZoneId (Ses.Properties event)) = false ->
   Ses.HostedZoneName (Ses.Properties event) = None ->
   (Ses.RequestType event = CfnCR.CREATE cfnCR ->
    Ses.handler aws cfnCR AWS_REGION event st
    = (Returned (Ses.Failure TypeError), st)) /\
   (Ses.RequestType event = CfnCR.DELETE cfnCR ->
    (CfnCR.DELETE cfnCR =? CfnCR.CREATE cfnCR) = false ->
    (CfnCR.DELETE cfnCR =? CfnCR.UPDATE cfnCR) = false ->
    Ses.handler aws cfnCR AWS_REGION event st
    = (Returned
         (if JS.strict_eq (Ses.PhysicalResourceId event)
               (Some (CfnCR.DEFAULT_PHYSICAL_RESOURCE_ID cfnCR))
          then Ses.Success (Ses.PhysicalResourceId event) None
          else Ses.Failure TypeError), st))).
Proof.
  split.
  - intros HC HU HD. unfold Ses.handler. now rewrite HC, HU, HD.
  - intros HI HN. unfold Ses.handler, Ses.zoneIdOrNameOf.
    rewrite HI, HN. split.
    + intros ->. now rewrite String.eqb_refl.
    + intros -> HC HU. rewrite HC, HU, String.eqb_refl.
      unfold catch, bind. cbn.
      now destruct (JS.strict_eq _ _).
Qed.

End SesHandler.

Lemma verifyDomain_keeps_identity_witness :
  exists l,
    calls (snd (Ses.verifyDomain Examples.account "eu-west-1"
                  (Some "example.com") UPSERT (start tt))) = l /\
    Forall keepsIdentity l.
Proof.
  destruct (@verifyDomain_keeps_identity unit Examples.account "eu-west-1"
              "example.com" UPSERT (start tt) eq_refl) as [l [E [F _]]].
  exists l. split; assumption.
Defined.

Lemma ses_handler_update_witness :
  Ses.handler Examples.account Examples.cfn "eu-west-1"
    (MoreExamples.sesEvent "Update" (Some "Z2")
       (Some {| Ses.HostedZoneId := Some "Z404";
                Ses.HostedZoneName := None |}))
    (start tt)
  = (Returned (Ses.Failure (ProviderFailure "NoSuchHostedZone")),
     {| provider := tt; calls := [GetHostedZone "Z404"] |}).
Proof.
  rewrite (@ses_handler_update unit Examples.account Examples.cfn "eu-west-1"
             (MoreExamples.sesEvent "Update" (Some "Z2")
                (Some {| Ses.HostedZoneId := Some "Z404";
                         Ses.HostedZoneName := None |}))
             (start tt) eq_refl eq_refl).
  reflexivity.
Defined.

Lemma ses_handler_without_request_witness :
  Ses.handler Examples.account Examples.cfn "eu-west-1"
    (MoreExamples.sesEvent "Foo" (Some "Z2") None) (start tt)
  = (Returned (Ses.Failure InvalidRequestType), start tt) /\
  Ses.handler Examples.account Examples.cfn "eu-west-1"
    (MoreExamples.sesEvent "Create" None None) (start tt)
  = (Returned (Ses.Failure TypeError), start tt).
Proof.
  split.
  - apply (proj1 (@ses_handler_without_request unit Examples.account
                    Examples.cfn "eu-west-1"
                    (MoreExamples.sesEvent "Foo" (Some "Z2") None) (start tt)));
      reflexivity.
  - apply (proj1 (proj2 (@ses_handler_without_request unit Examples.account
                           Examples.cfn "eu-west-1"
                           (MoreExamples.sesEvent "Create" None None)
                           (start tt))
                        eq_refl eq_refl)).
    reflexivity.
Defined.

(** X19.  The records [verifyDomain] publishes: one TXT record at
    [_amazonses.<domain>] holding the verification token between quotes,
    then one CNAME record per DKIM token, at
    [<token>._domainkey.<domain>] and pointing to
    [<token>.dkim.amazonses.com]; every record carries the action asked
    for and a TTL of 60. *)
Theorem verifyBatch_records (AWS_REGION action domainName token : string)
        (dkims : list string) :
  let batch := Ses.verifyBatch AWS_REGION action domainName token dkims in
  List.length (Changes batch) = S (List.length dkims) /\
  Forall (verifyRecord action domainName token dkims) (Changes batch) /\
  (forall c, In c (Changes batch) ->
             (RRType c = "TXT" <-> c = hd c (Changes batch))) /\
  map RRName (tl (Changes batch))
  = map (fun t => t ++ "._domainkey." ++ domainName) dkims.
Proof.
  simpl. split; [now rewrite length_map|]. split; [|split].
  - constructor.
    + repeat split. left. repeat split.
    + apply Forall_forall. intros c I. apply in_map_iff in I as [t [<- I]].
      repeat split. right. split; [reflexivity|]. now exists t.
  - intros c [<- | I].
    + split; reflexivity.
    + apply in_map_iff in I as [t [<- I]]. split; discriminate.
  - rewrite map_map. reflexivity.
Qed.

(** * The earlier versions of the SES resource *)

Section Earlier.

Variable P : Type.
Variable aws : AWS P.
Variable cfnCR : CfnCR.t.

(** X20.  The earliest [verifyDomain] takes a zone id only.  Whatever
    the action, [DELETE] included, it never lists zones and never
    deletes the identity: its requests are the zone, the two tokens and
    one change batch, in that order, as far as each one succeeds, and
    the TXT record of the batch holds the token as it is, without
    quotes. *)
Theorem index_verifyDomain_calls (hostedZoneId action : string)
        (st : St P) :
  let run := SesIndex.verifyDomain aws hostedZoneId action st in
  exists tail,
    calls (snd run) = (calls st ++ GetHostedZone hostedZoneId :: tail)%list /\
    (tail = [] \/
     (exists domain,
         tail = [VerifyDomainIdentity domain; VerifyDomainDkim domain]) \/
     (exists domain token dkims,
         tail = [VerifyDomainIdentity domain; VerifyDomainDkim domain;
                 ChangeResourceRecordSets hostedZoneId
                   (SesIndex.verifyBatch action domain token dkims)] /\
         option_map RRValue
           (hd_error (Changes (SesIndex.verifyBatch action domain token dkims)))
         = Some token)) /\
    (forall v, fst run = Returned v -> List.length tail = 3%nat).
Proof.
  intros run. subst run.
  unfold SesIndex.verifyDomain, bind, settle, request, await, ret, throw.
  destruct (getHostedZone aws hostedZoneId (provider st)) as [[domain|c0] p0];
    cbn [provider calls];
    [|exists []; split; [reflexivity | split; [now left | discriminate]]].
  destruct (verifyDomainIdentity aws domain p0) as [[token|c1] p1];
    cbn [provider calls];
    destruct (verifyDomainDkim aws domain p1) as [[dkims|c2] p2];
    cbn [provider calls fst snd]; rewrite <- ?app_assoc;
    try (exists [VerifyDomainIdentity domain; VerifyDomainDkim domain];
         split; [reflexivity|];
         split; [right; left; now exists domain | discriminate]).
  destruct (changeResourceRecordSets aws hostedZoneId
              (SesIndex.verifyBatch action domain token dkims) p2)
    as [[id|c4] p4]; cbn [provider calls fst snd]; rewrite <- ?app_assoc;
    eexists; (split; [reflexivity|]);
    (split; [right; right; exists domain, token, dkims; now split
            | reflexivity]).
Qed.

(** X21.  Before the recovery was added, a Delete event was reported as
    [verifyDomain] came out, whatever its physical id: a success with the
    domain name as physical id, or a failure with the error, also for a
    resource that was never created. *)
Theorem prev_handler_delete (event : Ses.Event) (st : St P) :
  Ses.RequestType event = CfnCR.DELETE cfnCR ->
  (CfnCR.DELETE cfnCR =? CfnCR.CREATE cfnCR) = false ->
  (CfnCR.DELETE cfnCR =? CfnCR.UPDATE cfnCR) = false ->
  SesPrev.handler aws cfnCR event st
  = match SesPrev.verifyDomain aws
            (Ses.zoneIdOrNameOf (Ses.Properties event)) DELETE st with
    | (Returned v, st1) =>
        (Returned (Ses.Success (Some (Ses.domainName v))
                     (Some (Ses.ChangeId (Ses.changeId v)))), st1)
    | (Thrown e, st1) => (Returned (Ses.Failure e), st1)
    | (Pending, st1) => (Pending, st1)
    end.
Proof.
  intros HT HC HU. unfold SesPrev.handler.
  rewrite HT, HC, HU, String.eqb_refl. unfold catch, bind.
  destruct (SesPrev.verifyDomain aws _ DELETE st) as [[v|e|] st1];
    reflexivity.
Qed.

End Earlier.

Lemma prev_handler_delete_witness :
  SesPrev.handler Examples.account Examples.cfn Examples.sesDeleteUnknown
    (start tt)
  = (Returned (Ses.Failure (ProviderFailure "NoSuchHostedZone")),
     {| provider := tt; calls := [GetHostedZone "Z404"] |}).
Proof.
  rewrite (@prev_handler_delete unit Examples.account Examples.cfn
             Examples.sesDeleteUnknown (start tt) eq_refl eq_refl eq_refl).
  reflexivity.
Defined.

Lemma index_verifyDomain_calls_witness :
  List.length
    (calls (snd (SesIndex.verifyDomain Examples.account "Z2" DELETE (start tt))))
  = 4%nat.
Proof.
  destruct (@index_verifyDomain_calls unit Examples.account "Z2" DELETE
              (start tt)) as [tail [E [_ L]]].
  rewrite E. simpl. f_equal. now apply (L _ eq_refl).
Defined.

(** * The candidates of the walk *)

Lemma join_split (s : string) : join "." (JS.split "." s) = s.
Proof.
  induction s as [|c s IH]; [reflexivity|].
  cbn [JS.split]. pose proof (split_nonempty "." s) as N.
  destruct (Ascii.eqb_spec c ".") as [->|C].
  - destruct (JS.split "." s) as [|h t]; [contradiction|].
    cbn [join]. cbn [join] in IH. now rewrite IH.
  - destruct (JS.split "." s) as [|h t]; [contradiction|].
    cbn [join] in *. destruct t; simpl; now rewrite <- IH.
Qed.

Lemma join_snoc (l : list string) (a : string) :
  l <> [] -> join "." (l ++ [a]) = join "." l ++ "." ++ a.
Proof.
  induction l as [|x l IH]; [contradiction|]. intros _.
  destruct l as [|y l]; [reflexivity|].
  change ((x :: y :: l) ++ [a])%list with (x :: ((y :: l) ++ [a]))%list.
  cbn [join app]. cbn [join app] in IH.
  rewrite IH; [|discriminate].
  now rewrite !append_assoc.
Qed.

Lemma candidates_last (rest : list string) :
  forall d x,
    rest <> [] ->
    last (candidates rest d) x = join "." (rev rest) ++ "." ++ d.
Proof.
  induction rest as [|label rest IH]; [contradiction|]. intros d x _.
  destruct rest as [|label' rest]; [reflexivity|].
  change (candidates (label :: label' :: rest) d)
    with ((label ++ "." ++ d)
            :: candidates (label' :: rest) (label ++ "." ++ d)).
  assert (C : candidates (label' :: rest) (label ++ "." ++ d) <> [])
    by discriminate.
  destruct (candidates (label' :: rest) (label ++ "." ++ d)) as [|c cs] eqn:E;
    [contradiction|].
  change (last ((label ++ "." ++ d) :: c :: cs) x) with (last (c :: cs) x).
  rewrite <- E, IH; [|discriminate].
  change (rev (label :: label' :: rest))
    with (rev (label' :: rest) ++ [label])%list.
  rewrite join_snoc.
  - now rewrite !append_assoc.
  - intros H. apply (f_equal (@List.length string)) in H.
    rewrite length_rev in H. discriminate.
Qed.

(** X22.  The candidates of [getZoneIdByFQDN] are the name cut at its
    dots, from the right: for a name of two labels or more, the last
    candidate of the walk is the normalized name itself, whole. *)
Theorem candidates_reach_the_name (fqdn tld : string) (rest : list string) :
  rev (JS.split "." (Acm.normalize fqdn)) = tld :: rest ->
  rest <> [] ->
  last (candidates rest tld) "" = Acm.normalize fqdn.
Proof.
  intros H N. rewrite (candidates_last _ _ N).
  rewrite <- join_snoc.
  - change (rev rest ++ [tld])%list with (rev (tld :: rest)).
    now rewrite <- H, rev_involutive, join_split.
  - intros E. apply N. apply (f_equal (@List.length string)) in E.
    rewrite length_rev in E. now destruct rest.
Qed.

Lemma candidates_reach_the_name_witness :
  last (candidates ["co"; "example"; "www"] "uk") "" = "www.example.co.uk".
Proof.
  apply (@candidates_reach_the_name "www.example.co.uk." "uk"
           ["co"; "example"; "www"]); [reflexivity | discriminate].
Defined.

(** * Creation and deletion *)

Section CreateDelete.

Variable P : Type.
Variable aws : AWS P.
Variable cfnCR : CfnCR.t.
Variable AWS_REGION : string.

(** X23.  The physical id the SES handler reports.  A Create that
    succeeds reports the domain name [verifyDomain] returned; a Delete
    that succeeds reports the physical id of the event, unchanged.  A
    Create that fails is reported as a failure with the error, and so is
    a Delete whose physical id is not the one of a resource never
    created. *)
Theorem ses_handler_create_delete (event : Ses.Event) (st : St P) :
  let zone := Ses.zoneIdOrNameOf (Ses.Properties event) in
  (Ses.RequestType event = CfnCR.CREATE cfnCR ->
   Ses.handler aws cfnCR AWS_REGION event st
   = match Ses.verifyDomain aws AWS_REGION zone UPSERT st with
     | (Returned v, st1) =>
         (Returned (Ses.Success (Some (Ses.domainName v))
                      (Some (Ses.ChangeId (Ses.changeId v)))), st1)
     | (Thrown e, st1) => (Returned (Ses.Failure e), st1)
     | (Pending, st1) => (Pending, st1)
     end) /\
  (Ses.RequestType event = CfnCR.DELETE cfnCR ->
   (CfnCR.DELETE cfnCR =? CfnCR.CREATE cfnCR) = false ->
   (CfnCR.DELETE cfnCR =? CfnCR.UPDATE cfnCR) = false ->
   JS.strict_eq (Ses.PhysicalResourceId event)
                (Some (CfnCR.DEFAULT_PHYSICAL_RESOURCE_ID cfnCR)) = false ->
   Ses.handler aws cfnCR AWS_REGION event st
   = match Ses.verifyDomain aws AWS_REGION zone DELETE st with
     | (Returned v, st1) =>
         (Returned (Ses.Success (Ses.PhysicalResourceId event)
                      (Some (Ses.ChangeId (Ses.changeId v)))), st1)
     | (Thrown e, st1) => (Returned (Ses.Failure e), st1)
     | (Pending, st1) => (Pending, st1)
     end).
Proof.
  intros zone. subst zone. unfold Ses.handler. split.
  - intros ->. rewrite String.eqb_refl. unfold catch, bind.
    destruct (Ses.verifyDomain aws AWS_REGION _ UPSERT st) as [[v|e|] st1];
      reflexivity.
  - intros -> HC HU HS. rewrite HC, HU, String.eqb_refl, HS.
    unfold catch, bind.
    destruct (Ses.verifyDomain aws AWS_REGION _ DELETE st) as [[v|e|] st1];
      reflexivity.
Qed.

(** X24.  A Delete event of the ACM handler whose physical id is not the
    one of a resource never created: the certificate is looked up, its
    validation records are deleted, and the physical id of the event is
    reported back unchanged with the change ids; an error of the lookup
    or of the deletion is reported as a failure. *)
Theorem handler_delete (fuel : nat) (event : Acm.Event)
        (context : Acm.Context) (st : St P) :
  Acm.RequestType event = CfnCR.DELETE cfnCR ->
  JS.strict_eq (Acm.PhysicalResourceId event)
               (Some (CfnCR.DEFAULT_PHYSICAL_RESOURCE_ID cfnCR)) = false ->
  let lambdaTimeout :=
    (Acm.getRemainingTimeInMillis context
     - Acm.TIMEOUT_MARGIN_OF_SAFETY_MS)%Z in
  Acm.handler aws cfnCR fuel event context st
  = match Acm.lookupCertificate aws fuel
            (Acm.CertificateFQDN (Acm.Properties event))
            (Some lambdaTimeout) st with
    | (Returned arn, st1) =>
        match Acm.publishCertValidationDNS aws arn DELETE st1 with
        | (Returned changeIds, st2) =>
            (Returned (Acm.Success (Acm.PhysicalResourceId event)
                         (Some (Acm.ChangeIds changeIds))), st2)
        | (Thrown e, st2) => (Returned (Acm.Failure e), st2)
        | (Pending, st2) => (Pending, st2)
        end
    | (Thrown e, st1) => (Returned (Acm.Failure e), st1)
    | (Pending, st1) => (Pending, st1)
    end.
Proof.
  intros HT HS lambdaTimeout.
  unfold Acm.handler, Acm.processCREvent, catch, Acm.userHandlerLogic.
  fold lambdaTimeout. unfold bind.
  destruct (Acm.lookupCertificate aws fuel
              (Acm.CertificateFQDN (Acm.Properties event))
              (Some lambdaTimeout) st) as [[arn|e|] st1].
  - unfold ret at 1. unfold Acm.method.
    rewrite HT, String.eqb_refl, HS. cbn [Acm.delete andb]. unfold bind.
    destruct (Acm.publishCertValidationDNS aws arn DELETE st1)
      as [[ids|e|] st2]; reflexivity.
  - rewrite HT, String.eqb_refl, HS. reflexivity.
  - reflexivity.
Qed.

End CreateDelete.

Lemma ses_handler_create_delete_witness :
  fst (Ses.handler Examples.account Examples.cfn "eu-west-1"
         (MoreExamples.sesEvent "Create" (Some "Z2") None) (start tt))
  = Returned (Ses.Success (Some "example.com.")
                (Some (Ses.ChangeId "/change/C-Z2"))) /\
  fst (Ses.handler Examples.account Examples.cfn "eu-west-1"
         (MoreExamples.sesEvent "Delete" (Some "Z404") None) (start tt))
  = Returned (Ses.Failure (ProviderFailure "NoSuchHostedZone")).
Proof.
  split.
  - rewrite (proj1 (@ses_handler_create_delete unit Examples.account
                      Examples.cfn "eu-west-1"
                      (MoreExamples.sesEvent "Create" (Some "Z2") None)
                      (start tt)) eq_refl).
    reflexivity.
  - rewrite (proj2 (@ses_handler_create_delete unit Examples.account
                      Examples.cfn "eu-west-1"
                      (MoreExamples.sesEvent "Delete" (Some "Z404") None)
                      (start tt)) eq_refl eq_refl eq_refl eq_refl).
    reflexivity.
Defined.

Lemma handler_delete_witness :
  fst (Acm.handler Examples.account Examples.cfn 3 MoreExamples.acmDeleteOf
         Examples.tenSeconds (start tt))
  = Returned (Acm.Success (Some "arn:cert/www")
                (Some (Acm.ChangeIds [Some "/change/C-Z2"]))).
Proof.
  rewrite (@handler_delete unit Examples.account Examples.cfn 3
             MoreExamples.acmDeleteOf Examples.tenSeconds (start tt)
             eq_refl eq_refl).
  reflexivity.
Defined.

Lemma verifyBatch_records_witness :
  List.length (Changes (Ses.verifyBatch "eu-west-1" UPSERT "example.com."
                          "token0" ["dkim1"; "dkim2"; "dkim3"])) = 4%nat.
Proof.
  apply (proj1 (verifyBatch_records "eu-west-1" UPSERT "example.com."
                  "token0" ["dkim1"; "dkim2"; "dkim3"])).
Defined.
